(** * OpenClaw QA check: a shallow embedding of [tools/qa-check.py]

    The development follows the layout of the script: text helpers, the
    values produced by the JSON reader, paths and the file tree, the
    [CheckResult] and [QAReport] objects, the HTML structure validator,
    the three checks with their fix actions, and [main].

    Python strings are modelled by [string]; a character stands for a
    code point below 256.  Statuses and detail levels are the strings the
    script writes.  Code that can raise returns an [Outcome]; the state
    reached when an exception escapes is kept, as it is in Python. *)

From Stdlib Require Import String Ascii List ZArith NArith Bool Lia.
From Stdlib Require Import DecimalString.
From Stdlib Require Import DecimalNat Permutation.
Import ListNotations.
Local Open Scope list_scope.
Local Open Scope string_scope.

Set Implicit Arguments.

(* ====================================================================== *)
(** ** Text helpers (methods of [str] and the two regular expressions)    *)
(* ====================================================================== *)

Module Str.

(** [str.isspace] on one character, for code points below 256:
    TAB..CR, FS..US, space, NEL and NBSP.  The class [\s] of [re] on
    [str] patterns is the same set. *)
Definition isspace (c : ascii) : bool :=
  let n := N_of_ascii c in
  (((9 <=? n) && (n <=? 13)) || ((28 <=? n) && (n <=? 32))
   || (n =? 133) || (n =? 160))%N.

Fixpoint lstrip (s : string) : string :=
  match s with
  | String c r => if isspace c then lstrip r else s
  | EmptyString => EmptyString
  end.

(** [rstrip]: a character is kept when it is not a space or when
    something that is kept follows it. *)
Fixpoint rstrip (s : string) : string :=
  match s with
  | String c r =>
      match rstrip r with
      | EmptyString => if isspace c then EmptyString else String c EmptyString
      | r' => String c r'
      end
  | EmptyString => EmptyString
  end.

(** [s.strip()] *)
Definition strip (s : string) : string := rstrip (lstrip s).

(** [s.startswith(p)] *)
Definition startswith (s p : string) : bool := String.prefix p s.

(** [s.startswith((p1, ..., pn))] *)
Definition startswith_any (s : string) (ps : list string) : bool :=
  existsb (startswith s) ps.

Fixpoint rev_acc (s acc : string) : string :=
  match s with
  | String c r => rev_acc r (String c acc)
  | EmptyString => acc
  end.

Definition rev (s : string) : string := rev_acc s EmptyString.

(** [s.endswith(p)] *)
Definition endswith (s p : string) : bool := String.prefix (rev p) (rev s).

(** [sub in s] *)
Fixpoint contains (sub s : string) : bool :=
  String.prefix sub s ||
  match s with
  | String _ r => contains sub r
  | EmptyString => false
  end.

(** [s.split(c)[0]]: the text before the first [c]. *)
Fixpoint split_head (c : ascii) (s : string) : string :=
  match s with
  | String d r => if Ascii.eqb d c then EmptyString else String d (split_head c r)
  | EmptyString => EmptyString
  end.

(** Does the character occur in the text? *)
Fixpoint has_char (c : ascii) (s : string) : bool :=
  match s with
  | String d r => Ascii.eqb d c || has_char c r
  | EmptyString => false
  end.

(** [s.lstrip(c)] for a one-character argument. *)
Fixpoint lstrip_char (c : ascii) (s : string) : string :=
  match s with
  | String d r => if Ascii.eqb d c then lstrip_char c r else s
  | EmptyString => EmptyString
  end.

(** [s.replace(old, new)] for a non-empty [old]: occurrences are taken
    from the left and do not overlap.  [skip] counts the characters of
    an occurrence that are still to be dropped. *)
Fixpoint replace_from (old new : string) (skip : nat) (s : string) : string :=
  match s with
  | EmptyString => EmptyString
  | String c r =>
      match skip with
      | S k => replace_from old new k r
      | O =>
          if String.prefix old s
          then new ++ replace_from old new (String.length old - 1) r
          else String c (replace_from old new 0 r)
      end
  end.

Definition replace (old new s : string) : string := replace_from old new 0 s.

(** [str.lower] on one character (code points below 256). *)
Definition lower_char (c : ascii) : ascii :=
  let n := N_of_ascii c in
  if (((65 <=? n) && (n <=? 90))
      || ((192 <=? n) && (n <=? 222) && negb (n =? 215)))%N
  then ascii_of_N (n + 32) else c.

Fixpoint lower (s : string) : string :=
  match s with
  | String c r => String (lower_char c) (lower r)
  | EmptyString => EmptyString
  end.

(** [str(n)] for integers. *)
Definition of_nat (n : nat) : string := NilEmpty.string_of_uint (Nat.to_uint n).
Definition of_Z (z : Z) : string := NilZero.string_of_int (Z.to_int z).

(** [sep.join(l)] *)
Fixpoint join (sep : string) (l : list string) : string :=
  match l with
  | [] => EmptyString
  | [x] => x
  | x :: r => x ++ sep ++ join sep r
  end.

(** [s.split(c)] for a one-character separator. *)
Fixpoint split_on (c : ascii) (s : string) : list string :=
  match s with
  | EmptyString => [EmptyString]
  | String d r =>
      if Ascii.eqb d c then EmptyString :: split_on c r
      else match split_on c r with
           | x :: xs => String d x :: xs
           | [] => [String d EmptyString]
           end
  end.

End Str.

Module Re.

(** After optional white space, is the next character [}] or []]?
    This is the tail [\s*([}\]])] of the trailing-comma pattern. *)
Fixpoint closes (s : string) : bool :=
  match s with
  | String c r =>
      if Str.isspace c then closes r
      else Ascii.eqb c "}" || Ascii.eqb c "]"
  | EmptyString => false
  end.

(** [re.sub(r',\s*([}\]])', r'\1', s)].  A match starts at a comma that
    [closes] follows; the comma and the white space are dropped and the
    bracket is kept.  [dropping] is set while inside a match. *)
Fixpoint strip_trailing_commas_from (dropping : bool) (s : string) : string :=
  match s with
  | EmptyString => EmptyString
  | String c r =>
      if dropping then
        if Str.isspace c then strip_trailing_commas_from true r
        else String c (strip_trailing_commas_from false r)
      else if Ascii.eqb c "," && closes r then strip_trailing_commas_from true r
      else String c (strip_trailing_commas_from false r)
  end.

Definition strip_trailing_commas (s : string) : string :=
  strip_trailing_commas_from false s.

(** Prefix test ignoring case; [p] is given in lower case. *)
Fixpoint prefix_nocase (p s : string) : bool :=
  match p, s with
  | EmptyString, _ => true
  | String a p', String b s' => Ascii.eqb a (Str.lower_char b) && prefix_nocase p' s'
  | String _ _, EmptyString => false
  end.

(** At least one white space, then [html] in any case: the part
    [\s+html] of the doctype pattern.  [seen] tells that a white space
    was read. *)
Fixpoint spaces_then_html (seen : bool) (s : string) : bool :=
  if seen && prefix_nocase "html" s then true
  else match s with
       | String c r => if Str.isspace c then spaces_then_html true r else false
       | EmptyString => false
       end.

Fixpoint drop (n : nat) (s : string) : string :=
  match n, s with
  | S k, String _ r => drop k r
  | _, _ => s
  end.

(** [re.search(r'<!DOCTYPE\s+html', s, re.IGNORECASE)] as a truth value. *)
Fixpoint search_doctype (s : string) : bool :=
  if prefix_nocase "<!doctype" s && spaces_then_html false (drop 9 s) then true
  else match s with
       | String _ r => search_doctype r
       | EmptyString => false
       end.

End Re.

(* ====================================================================== *)
(** ** Values, exceptions and the library interface                       *)
(* ====================================================================== *)

(** What [json.loads] can return.  A float is kept as its [repr]; a dict
    is the list of its items in insertion order, with distinct keys. *)
#[warnings="-register-all"] Inductive pyval : Type :=
| PNone
| PBool (b : bool)
| PInt (z : Z)
| PFloat (repr : string)
| PStr (s : string)
| PList (items : list pyval)
| PDict (items : list (string * pyval)).

(** A raised exception: its class and [str(e)]. *)
Record exn : Type := Exn { exn_class : string; exn_text : string }.

(** The events [html.parser.HTMLParser] reports to the handlers that the
    validator overrides.  An attribute written without a value has the
    value [None]. *)
Inductive html_event : Type :=
| StartTag (tag : string) (attrs : list (string * option string))
| EndTag (tag : string)
| Data (data : string).

(** The functions of the Python library that the script calls and does
    not define.  [json_loads] answers with the value or with the text of
    the [JSONDecodeError]; [json_dumps] is [json.dumps(_, indent=2,
    ensure_ascii=False)]; [html_tokens] lists the events of one [feed]
    and tells whether the reader itself raised after them; [py_repr] is
    [str(v)] for a value that is not a string. *)
Class PyLib : Type := {
  json_loads : string -> pyval + string;
  json_dumps : pyval -> string;
  html_tokens : string -> list html_event * option exn;
  py_repr : pyval -> string
}.

Module Py.

(** Truth value of an object in a condition. *)
Definition truthy (v : pyval) : bool :=
  match v with
  | PNone => false
  | PBool b => b
  | PInt z => negb (Z.eqb z 0)
  | PFloat r => negb (String.eqb r "0.0" || String.eqb r "-0.0")
  | PStr s => negb (String.eqb s "")
  | PList l => match l with [] => false | _ => true end
  | PDict d => match d with [] => false | _ => true end
  end.

(** [{v}] inside an f-string. *)
Definition format `{PyLib} (v : pyval) : string :=
  match v with
  | PStr s => s
  | _ => py_repr v
  end.

(** Lookup in a list of items: the first item with that key. *)
Fixpoint assoc {A : Type} (k : string) (l : list (string * A)) : option A :=
  match l with
  | [] => None
  | (k', v) :: r => if String.eqb k k' then Some v else assoc k r
  end.

(** [dict(attrs)[k]]: a later pair overrides an earlier one. *)
Definition dict_get {A : Type} (k : string) (l : list (string * A)) : option A :=
  assoc k (List.rev l).

(** [d.get(k, default)] *)
Definition get (d : list (string * pyval)) (k : string) (default : pyval) : pyval :=
  match assoc k d with
  | Some v => v
  | None => default
  end.

Definition type_name (v : pyval) : string :=
  match v with
  | PNone => "NoneType"
  | PBool _ => "bool"
  | PInt _ => "int"
  | PFloat _ => "float"
  | PStr _ => "str"
  | PList _ => "list"
  | PDict _ => "dict"
  end.

Definition TypeError (text : string) : exn := Exn "TypeError" text.
Definition AttributeError (v : pyval) (attr : string) : exn :=
  Exn "AttributeError"
      ("'" ++ type_name v ++ "' object has no attribute '" ++ attr ++ "'").
Definition ValueError (text : string) : exn := Exn "ValueError" text.
Definition FileNotFoundError (p : string) : exn := Exn "FileNotFoundError" p.
Definition IsADirectoryError (p : string) : exn := Exn "IsADirectoryError" p.
Definition NotADirectoryError (p : string) : exn := Exn "NotADirectoryError" p.
Definition FileExistsError (p : string) : exn := Exn "FileExistsError" p.

End Py.

(* ====================================================================== *)
(** ** Paths ([pathlib.PurePosixPath]) and the file tree                  *)
(* ====================================================================== *)

Module Path.

(** A path: its root ([""], ["/"] or ["//"]) and its components. *)
Record t : Type := Make { root : string; parts : list string }.

Definition is_component (c : string) : bool :=
  negb (String.eqb c "" || String.eqb c ".").

(** [Path(s)]: empty components and [.] are dropped, [..] is kept. *)
Definition of_string (s : string) : t :=
  {| root := if Str.startswith s "/"
             then if Str.startswith s "//" && negb (Str.startswith s "///")
                  then "//" else "/"
             else "";
     parts := filter is_component (Str.split_on "/" s) |}.

(** [str(p)] *)
Definition to_string (p : t) : string :=
  match parts p with
  | [] => if String.eqb (root p) "" then "." else root p
  | ps => root p ++ Str.join "/" ps
  end.

(** [p / s] *)
Definition join (p : t) (s : string) : t :=
  let q := of_string s in
  if String.eqb (root q) "" then {| root := root p; parts := parts p ++ parts q |}
  else q.

(** The entry [name] of the directory [p], as [iterdir] builds it. *)
Definition child (p : t) (name : string) : t :=
  {| root := root p; parts := parts p ++ [name] |}.

(** [p.name] *)
Definition name (p : t) : string := List.last (parts p) "".

(** [p.parent] *)
Definition parent (p : t) : t := {| root := root p; parts := removelast (parts p) |}.

End Path.

Notation "p // s" := (Path.join p s) (at level 40, left associativity).

(** Configuration *)
Definition BASE_URL : string := "http://clawdbot-web/clawdbot/".
Definition PROJECTS_URL : string := BASE_URL ++ "projects/".
Definition PUBLIC_DIR : Path.t := Path.of_string "public/clawdbot".
Definition PROJECTS_DIR : Path.t := PUBLIC_DIR // "projects".
Definition INDEX_JSON : Path.t := PROJECTS_DIR // "index.json".
Definition MAIN_INDEX : Path.t := PUBLIC_DIR // "index.html".
Definition REPORT_FILE : Path.t := PUBLIC_DIR // "qa-report.html".

Module FS.

(** A file holds its text; a directory lists its entries in the order
    in which the system enumerates them.  There are no links. *)
#[warnings="-register-all"] Inductive node : Type :=
| File (content : string)
| Dir (entries : list (string * node)).

Definition is_dir (n : option node) : bool :=
  match n with Some (Dir _) => true | _ => false end.

(** The size reported for a directory; only sizes of files matter. *)
Definition dir_st_size : nat := 4096.

Definition st_size (n : node) : nat :=
  match n with
  | File s => String.length s
  | Dir _ => dir_st_size
  end.

(** The node at an absolute list of names. *)
Fixpoint lookup (t : node) (abs : list string) : option node :=
  match abs with
  | [] => Some t
  | n :: rest =>
      match t with
      | Dir es => match Py.assoc n es with
                  | Some c => lookup c rest
                  | None => None
                  end
      | File _ => None
      end
  end.

(** Resolution of the components [ps] from the directory [cur]: each
    step needs a directory to step from; [..] steps up and stays at the
    root when there. *)
Fixpoint walk (t : node) (cur : list string) (ps : list string) : option (list string) :=
  match ps with
  | [] => Some cur
  | p :: rest =>
      if is_dir (lookup t cur) then
        if String.eqb p ".." then walk t (removelast cur) rest
        else walk t (cur ++ [p]) rest
      else None
  end.

(** Replace or add the entry [n]; a new entry goes last. *)
Fixpoint set_entry (n : string) (new : node) (es : list (string * node))
  : list (string * node) :=
  match es with
  | [] => [(n, new)]
  | (k, v) :: r => if String.eqb n k then (k, new) :: r else (k, v) :: set_entry n new r
  end.

(** Put [new] at [abs]; the directory above must exist. *)
Fixpoint update (t : node) (abs : list string) (new : node) : option node :=
  match abs with
  | [] => Some new
  | n :: rest =>
      match t with
      | Dir es =>
          match rest with
          | [] => Some (Dir (set_entry n new es))
          | _ => match Py.assoc n es with
                 | Some c => match update c rest new with
                             | Some c' => Some (Dir (set_entry n c' es))
                             | None => None
                             end
                 | None => None
                 end
          end
      | File _ => None
      end
  end.

End FS.

(* ====================================================================== *)
(** ** Result tracking                                                    *)
(* ====================================================================== *)

Module CheckResult.

(** The fields that are read somewhere; [sub_checks] stays empty in the
    script and is left out. *)
Record t : Type := Make {
  name : string;
  category : string;
  status : string;                      (* PASS, FAIL, WARN, FIXED *)
  details : list (string * string)
}.

(** [CheckResult(name, category)] *)
Definition init (name category : string) : t :=
  {| name := name; category := category; status := "PASS"; details := [] |}.

Definition fail (r : t) (msg : string) : t :=
  {| name := name r; category := category r;
     status := "FAIL";
     details := details r ++ [("FAIL", msg)] |}.

Definition warn (r : t) (msg : string) : t :=
  {| name := name r; category := category r;
     status := if String.eqb (status r) "PASS" then "WARN" else status r;
     details := details r ++ [("WARN", msg)] |}.

Definition ok (r : t) (msg : string) : t :=
  {| name := name r; category := category r;
     status := status r;
     details := details r ++ [("PASS", msg)] |}.

Definition fixed (r : t) (msg : string) : t :=
  {| name := name r; category := category r;
     status := "FIXED";
     details := details r ++ [("FIXED", msg)] |}.

Definition info (r : t) (msg : string) : t :=
  {| name := name r; category := category r;
     status := status r;
     details := details r ++ [("INFO", msg)] |}.

Definition passed (r : t) : bool :=
  existsb (String.eqb (status r)) ["PASS"; "FIXED"; "WARN"].

End CheckResult.

Module QAReport.

(** [start_time] and [end_time] are clock readings; of [end_time] only
    the fact that [finalize] has set it is kept. *)
Record t : Type := Make {
  results : list CheckResult.t;
  finalized : bool;
  fixes_applied : nat
}.

(** [QAReport()] *)
Definition init : t := {| results := []; finalized := false; fixes_applied := 0 |}.

(** [sum(1 for r in self.results if r.status == s)] *)
Definition count (s : string) (r : t) : nat :=
  List.length (filter (fun c => String.eqb (CheckResult.status c) s) (results r)).

Definition total (r : t) : nat := List.length (results r).
Definition passed (r : t) : nat := count "PASS" r.
Definition failed (r : t) : nat := count "FAIL" r.
Definition warnings (r : t) : nat := count "WARN" r.
Definition fixed (r : t) : nat := count "FIXED" r.
Definition all_passed (r : t) : bool := Nat.eqb (failed r) 0.

End QAReport.

(* ====================================================================== *)
(** ** The state of a run and the monad of the checks                     *)
(* ====================================================================== *)

(** What a run reads and changes: the file tree with the working
    directory, the answers of the web server ([net url] is the status
    code that [http_get] obtains, [-1] for a transport error), the
    requests sent so far, and the report. *)
Record World : Type := MkWorld {
  tree : FS.node;
  cwd : list string;
  net : string -> Z;
  requests : list string;
  report : QAReport.t
}.

Inductive Outcome (A : Type) : Type :=
| Ok (a : A)
| Raised (e : exn).
Arguments Raised {A} e.

Definition M (A : Type) : Type := World -> Outcome A * World.

Definition ret {A : Type} (a : A) : M A := fun w => (Ok a, w).

Definition bind {A B : Type} (m : M A) (k : A -> M B) : M B :=
  fun w => match m w with
           | (Ok a, w') => k a w'
           | (Raised e, w') => (Raised e, w')
           end.

Definition raise {A : Type} (e : exn) : M A := fun w => (Raised e, w).

Definition gets {A : Type} (f : World -> A) : M A := fun w => (Ok (f w), w).

Definition modify (f : World -> World) : M unit := fun w => (Ok tt, f w).

(** [try: m  except Exception as e: h e] *)
Definition try_except {A : Type} (m : M A) (h : exn -> M A) : M A :=
  fun w => match m w with
           | (Ok a, w') => (Ok a, w')
           | (Raised e, w') => h e w'
           end.

Declare Scope monad_scope.
Delimit Scope monad_scope with monad.
Notation "x <- m ;; k" := (bind m (fun x => k))
  (at level 61, m at next level, right associativity) : monad_scope.
Notation "m ;; k" := (bind m (fun _ => k))
  (at level 61, right associativity) : monad_scope.
Local Open Scope monad_scope.

(** [for x in l: body x] *)
Fixpoint for_each {A : Type} (l : list A) (body : A -> M unit) : M unit :=
  match l with
  | [] => ret tt
  | x :: r => body x ;; for_each r body
  end.

Definition when (b : bool) (m : M unit) : M unit := if b then m else ret tt.

Definition run {A : Type} (m : M A) (w : World) : Outcome A := fst (m w).
Definition exec {A : Type} (m : M A) (w : World) : World := snd (m w).

Definition set_tree (t : FS.node) (w : World) : World :=
  {| tree := t; cwd := cwd w; net := net w; requests := requests w; report := report w |}.

Definition set_report (r : QAReport.t) (w : World) : World :=
  {| tree := tree w; cwd := cwd w; net := net w; requests := requests w; report := r |}.

Definition log_request (url : string) (w : World) : World :=
  {| tree := tree w; cwd := cwd w; net := net w;
     requests := requests w ++ [url]; report := report w |}.

(** *** Files *)

Module IO.

Definition start (w : World) (p : Path.t) : list string :=
  if String.eqb (Path.root p) "" then cwd w else [].

(** Where the path leads, when every step can be taken. *)
Definition locate (w : World) (p : Path.t) : option (list string) :=
  FS.walk (tree w) (start w p) (Path.parts p).

(** [os.stat(p)]; [None] when it fails. *)
Definition stat (w : World) (p : Path.t) : option FS.node :=
  match locate w p with
  | Some abs => FS.lookup (tree w) abs
  | None => None
  end.

(** [p.exists()], [p.is_dir()] *)
Definition exists_ (p : Path.t) : M bool :=
  gets (fun w => match stat w p with Some _ => true | None => false end).

Definition is_dir (p : Path.t) : M bool := gets (fun w => FS.is_dir (stat w p)).

(** [p.stat().st_size] *)
Definition st_size (p : Path.t) : M nat :=
  n <- gets (fun w => stat w p) ;;
  match n with
  | Some n => ret (FS.st_size n)
  | None => raise (Py.FileNotFoundError (Path.to_string p))
  end.

(** [p.read_text(encoding="utf-8", errors="replace")] *)
Definition read_text (p : Path.t) : M string :=
  n <- gets (fun w => stat w p) ;;
  match n with
  | Some (FS.File s) => ret s
  | Some (FS.Dir _) => raise (Py.IsADirectoryError (Path.to_string p))
  | None => raise (Py.FileNotFoundError (Path.to_string p))
  end.

(** [p.write_text(s, encoding="utf-8")]: the directory above must exist
    and [p] must not be a directory. *)
Definition write_text (p : Path.t) (s : string) : M unit :=
  fun w =>
    match stat w p with
    | Some (FS.Dir _) => (Raised (Py.IsADirectoryError (Path.to_string p)), w)
    | _ =>
        match locate w (Path.parent p), Path.parts p with
        | Some abs, _ :: _ =>
            if FS.is_dir (FS.lookup (tree w) abs)
               && negb (String.eqb (Path.name p) "..")
            then match FS.update (tree w) (abs ++ [Path.name p]) (FS.File s) with
                 | Some t' => (Ok tt, set_tree t' w)
                 | None => (Raised (Py.FileNotFoundError (Path.to_string p)), w)
                 end
            else (Raised (Py.NotADirectoryError (Path.to_string p)), w)
        | _, _ => (Raised (Py.FileNotFoundError (Path.to_string p)), w)
        end
    end.

(** The tree after creating the directories named by [ps] from [cur],
    where they are missing. *)
Fixpoint mkdirs (t : FS.node) (cur : list string) (ps : list string) : option FS.node :=
  match ps with
  | [] => if FS.is_dir (FS.lookup t cur) then Some t else None
  | p :: rest =>
      if FS.is_dir (FS.lookup t cur) then
        if String.eqb p ".." then mkdirs t (removelast cur) rest
        else match FS.lookup t (cur ++ [p]) with
             | Some _ => mkdirs t (cur ++ [p]) rest
             | None => match FS.update t (cur ++ [p]) (FS.Dir []) with
                       | Some t' => mkdirs t' (cur ++ [p]) rest
                       | None => None
                       end
             end
      else None
  end.

(** [p.mkdir(parents=True, exist_ok=True)] *)
Definition mkdir (p : Path.t) : M unit :=
  fun w =>
    match mkdirs (tree w) (start w p) (Path.parts p) with
    | Some t' => (Ok tt, set_tree t' w)
    | None => (Raised (Py.FileExistsError (Path.to_string p)), w)
    end.

(** [p.iterdir()]: the names of the entries, in the system's order. *)
Definition iterdir (p : Path.t) : M (list string) :=
  n <- gets (fun w => stat w p) ;;
  match n with
  | Some (FS.Dir es) => ret (map fst es)
  | Some (FS.File _) => raise (Py.NotADirectoryError (Path.to_string p))
  | None => raise (Py.FileNotFoundError (Path.to_string p))
  end.

End IO.

(** *** HTTP helper *)

(** [http_get(url)]: the status code (the body is never used). *)
Definition http_get (url : string) : M Z :=
  fun w => (Ok (net w url), log_request url w).

Definition url_accessible (url : string) : M bool :=
  code <- http_get url ;;
  ret (Z.eqb code 200).

(** *** The report and its results

    [report.add] returns the object it has appended, and the checks go on
    changing that object: a result is named by its position in
    [report.results]. *)

Fixpoint alter_nth {A : Type} (f : A -> A) (i : nat) (l : list A) : list A :=
  match l, i with
  | [], _ => []
  | x :: r, O => f x :: r
  | x :: r, S j => x :: alter_nth f j r
  end.

Definition handle : Type := nat.

Definition report_add (c : CheckResult.t) : M handle :=
  fun w =>
    let r := report w in
    (Ok (List.length (QAReport.results r)),
     set_report {| QAReport.results := QAReport.results r ++ [c];
                   QAReport.finalized := QAReport.finalized r;
                   QAReport.fixes_applied := QAReport.fixes_applied r |} w).

Definition on_result (h : handle) (f : CheckResult.t -> CheckResult.t) : M unit :=
  modify (fun w =>
    let r := report w in
    set_report {| QAReport.results := alter_nth f h (QAReport.results r);
                  QAReport.finalized := QAReport.finalized r;
                  QAReport.fixes_applied := QAReport.fixes_applied r |} w).

Definition result_fail (h : handle) (msg : string) : M unit :=
  on_result h (fun r => CheckResult.fail r msg).
Definition result_warn (h : handle) (msg : string) : M unit :=
  on_result h (fun r => CheckResult.warn r msg).
Definition result_ok (h : handle) (msg : string) : M unit :=
  on_result h (fun r => CheckResult.ok r msg).
Definition result_fixed (h : handle) (msg : string) : M unit :=
  on_result h (fun r => CheckResult.fixed r msg).
Definition result_info (h : handle) (msg : string) : M unit :=
  on_result h (fun r => CheckResult.info r msg).

(** [report.fixes_applied += 1] *)
Definition count_fix : M unit :=
  modify (fun w =>
    let r := report w in
    set_report {| QAReport.results := QAReport.results r;
                  QAReport.finalized := QAReport.finalized r;
                  QAReport.fixes_applied := QAReport.fixes_applied r + 1 |} w).

(** [report.finalize()] *)
Definition report_finalize : M unit :=
  modify (fun w =>
    let r := report w in
    set_report {| QAReport.results := QAReport.results r;
                  QAReport.finalized := true;
                  QAReport.fixes_applied := QAReport.fixes_applied r |} w).

(* ====================================================================== *)
(** ** HTML structure validator                                           *)
(* ====================================================================== *)

Module HTMLStructureValidator.

(** The attributes of the parser object; [errors] is never written and
    is left out.  An asset reference is [None] when the attribute was
    written without a value. *)
Record t : Type := Make {
  has_doctype : bool;
  has_html : bool;
  has_head : bool;
  has_body : bool;
  has_title : bool;
  links : list string;
  asset_refs : list (string * option string);
  in_title : bool;
  title_text : string;
  tag_stack : list string
}.

Definition init : t :=
  {| has_doctype := false; has_html := false; has_head := false;
     has_body := false; has_title := false; links := []; asset_refs := [];
     in_title := false; title_text := ""; tag_stack := [] |}.

(** The prefixes of an [href] that is not collected. *)
Definition skipped_schemes : list string := ["#"; "mailto:"; "javascript:"; "tel:"].

Definition push_tag (v : t) (tag_lower : string) : t :=
  {| has_doctype := has_doctype v; has_html := has_html v; has_head := has_head v;
     has_body := has_body v; has_title := has_title v;
     links := links v; asset_refs := asset_refs v;
     in_title := in_title v; title_text := title_text v;
     tag_stack := tag_stack v ++ [tag_lower] |}.

Definition set_html (v : t) : t :=
  {| has_doctype := has_doctype v; has_html := true; has_head := has_head v;
     has_body := has_body v; has_title := has_title v;
     links := links v; asset_refs := asset_refs v;
     in_title := in_title v; title_text := title_text v; tag_stack := tag_stack v |}.

Definition set_head (v : t) : t :=
  {| has_doctype := has_doctype v; has_html := has_html v; has_head := true;
     has_body := has_body v; has_title := has_title v;
     links := links v; asset_refs := asset_refs v;
     in_title := in_title v; title_text := title_text v; tag_stack := tag_stack v |}.

Definition set_body (v : t) : t :=
  {| has_doctype := has_doctype v; has_html := has_html v; has_head := has_head v;
     has_body := true; has_title := has_title v;
     links := links v; asset_refs := asset_refs v;
     in_title := in_title v; title_text := title_text v; tag_stack := tag_stack v |}.

Definition set_title (v : t) : t :=
  {| has_doctype := has_doctype v; has_html := has_html v; has_head := has_head v;
     has_body := has_body v; has_title := true;
     links := links v; asset_refs := asset_refs v;
     in_title := true; title_text := title_text v; tag_stack := tag_stack v |}.

(** The first part of [handle_starttag]: the tag stack and the flags. *)
Definition note_tag (v : t) (tag_lower : string) : t :=
  let v := push_tag v tag_lower in
  if String.eqb tag_lower "html" then set_html v
  else if String.eqb tag_lower "head" then set_head v
  else if String.eqb tag_lower "body" then set_body v
  else if String.eqb tag_lower "title" then set_title v
  else v.

Definition add_link (v : t) (href : string) : t :=
  {| has_doctype := has_doctype v; has_html := has_html v; has_head := has_head v;
     has_body := has_body v; has_title := has_title v;
     links := links v ++ [href]; asset_refs := asset_refs v;
     in_title := in_title v; title_text := title_text v; tag_stack := tag_stack v |}.

Definition add_asset (v : t) (kind : string) (ref : option string) : t :=
  {| has_doctype := has_doctype v; has_html := has_html v; has_head := has_head v;
     has_body := has_body v; has_title := has_title v;
     links := links v; asset_refs := asset_refs v ++ [(kind, ref)];
     in_title := in_title v; title_text := title_text v; tag_stack := tag_stack v |}.

(** "Collect links" *)
Definition collect_link (v : t) (tag_lower : string)
    (attrs : list (string * option string)) : t :=
  if String.eqb tag_lower "a" then
    match Py.dict_get "href" attrs with
    | Some (Some href) =>
        if negb (String.eqb href "") && negb (Str.startswith_any href skipped_schemes)
        then add_link v href else v
    | Some None => v
    | None => v
    end
  else v.

(** [tag_lower == "link" and attrs_dict.get("rel", "").lower() == "stylesheet"];
    [None.lower()] raises. *)
Definition is_stylesheet (tag_lower : string)
    (attrs : list (string * option string)) : bool + exn :=
  if String.eqb tag_lower "link" then
    match Py.dict_get "rel" attrs with
    | Some (Some rel) => inl (String.eqb (Str.lower rel) "stylesheet")
    | Some None => inr (Py.AttributeError PNone "lower")
    | None => inl (String.eqb (Str.lower "") "stylesheet")
    end
  else inl false.

(** "Collect asset references" *)
Definition collect_asset (v : t) (tag_lower : string)
    (attrs : list (string * option string)) : t * option exn :=
  match is_stylesheet tag_lower attrs with
  | inr e => (v, Some e)
  | inl true =>
      match Py.dict_get "href" attrs with
      | Some (Some href) =>
          if String.eqb href "" then (v, None) else (add_asset v "css" (Some href), None)
      | Some None => (v, None)
      | None => (v, None)
      end
  | inl false =>
      match String.eqb tag_lower "script", Py.dict_get "src" attrs with
      | true, Some src => (add_asset v "js" src, None)
      | _, _ =>
          match String.eqb tag_lower "img", Py.dict_get "src" attrs with
          | true, Some src => (add_asset v "img" src, None)
          | _, _ => (v, None)
          end
      end
  end.

Definition handle_starttag (v : t) (tag : string)
    (attrs : list (string * option string)) : t * option exn :=
  let tag_lower := Str.lower tag in
  collect_asset (collect_link (note_tag v tag_lower) tag_lower attrs) tag_lower attrs.

Definition handle_endtag (v : t) (tag : string) : t :=
  if String.eqb (Str.lower tag) "title" then
    {| has_doctype := has_doctype v; has_html := has_html v; has_head := has_head v;
       has_body := has_body v; has_title := has_title v;
       links := links v; asset_refs := asset_refs v;
       in_title := false; title_text := title_text v; tag_stack := tag_stack v |}
  else v.

Definition handle_data (v : t) (data : string) : t :=
  if in_title v then
    {| has_doctype := has_doctype v; has_html := has_html v; has_head := has_head v;
       has_body := has_body v; has_title := has_title v;
       links := links v; asset_refs := asset_refs v;
       in_title := in_title v; title_text := title_text v ++ data;
       tag_stack := tag_stack v |}
  else v.

(** The handlers run on the events in order; a handler that raises ends
    the run and what was recorded so far stays in the object. *)
Fixpoint dispatch (v : t) (events : list html_event) : t * option exn :=
  match events with
  | [] => (v, None)
  | StartTag tag attrs :: rest =>
      match handle_starttag v tag attrs with
      | (v', None) => dispatch v' rest
      | (v', Some e) => (v', Some e)
      end
  | EndTag tag :: rest => dispatch (handle_endtag v tag) rest
  | Data d :: rest => dispatch (handle_data v d) rest
  end.

Definition set_doctype (v : t) : t :=
  {| has_doctype := true; has_html := has_html v; has_head := has_head v;
     has_body := has_body v; has_title := has_title v;
     links := links v; asset_refs := asset_refs v;
     in_title := in_title v; title_text := title_text v; tag_stack := tag_stack v |}.

(** [validator.feed(data)]: the object after the call and the exception
    that ended it, if any. *)
Definition feed `{PyLib} (v : t) (data : string) : t * option exn :=
  let v1 := if Re.search_doctype data then set_doctype v else v in
  let (events, broken) := html_tokens data in
  match dispatch v1 events with
  | (v2, Some e) => (v2, Some e)
  | (v2, None) => (v2, broken)
  end.

End HTMLStructureValidator.

(* ====================================================================== *)
(** ** Natural sort                                                       *)
(* ====================================================================== *)

Module Natural.

Inductive item : Type :=
| KInt (n : N)
| KStr (s : string).

Definition is_decimal (c : ascii) : bool :=
  let n := N_of_ascii c in ((48 <=? n) && (n <=? 57))%N.

(** [str.isdigit] on one character below 256: the decimal digits and the
    superscripts one, two and three. *)
Definition isdigit_char (c : ascii) : bool :=
  let n := N_of_ascii c in
  is_decimal c || ((n =? 178) || (n =? 179) || (n =? 185))%N.

Fixpoint all_chars (f : ascii -> bool) (s : string) : bool :=
  match s with
  | String c r => f c && all_chars f r
  | EmptyString => true
  end.

Definition isdigit (s : string) : bool :=
  negb (String.eqb s "") && all_chars isdigit_char s.

(** [re.split(r'(\d+)', s)]: texts and digit runs in turn, a text first
    and last. *)
Fixpoint re_split_digits (s : string) : list string :=
  match s with
  | EmptyString => [EmptyString]
  | String c r =>
      match re_split_digits r with
      | t :: tl =>
          if is_decimal c then
            match r, tl with
            | String c' _, d :: tl' =>
                if is_decimal c' then EmptyString :: String c d :: tl'
                else EmptyString :: String c EmptyString :: t :: tl
            | _, _ => EmptyString :: String c EmptyString :: t :: tl
            end
          else String c t :: tl
      | [] => [s]
      end
  end.

Fixpoint int_from (acc : N) (s : string) : N :=
  match s with
  | String c r => int_from (acc * 10 + (N_of_ascii c - 48)) r
  | EmptyString => acc
  end.

(** One element of the key; [int] rejects a superscript digit. *)
Definition convert (t : string) : option item :=
  if isdigit t then
    if all_chars is_decimal t then Some (KInt (int_from 0 t)) else None
  else Some (KStr (Str.lower t)).

Fixpoint sequence {A : Type} (l : list (option A)) : option (list A) :=
  match l with
  | [] => Some []
  | Some x :: r => match sequence r with Some r' => Some (x :: r') | None => None end
  | None :: _ => None
  end.

(** [_natural_sort_key(s)]; [None] stands for the [ValueError]. *)
Definition _natural_sort_key (s : string) : option (list item) :=
  sequence (map convert (re_split_digits s)).

Definition item_eqb (a b : item) : bool :=
  match a, b with
  | KInt m, KInt n => N.eqb m n
  | KStr s, KStr t => String.eqb s t
  | _, _ => false
  end.

(** Keys of this shape carry a text at the even places and a number at
    the odd ones, so two items of different kinds are never compared. *)
Definition item_ltb (a b : item) : bool :=
  match a, b with
  | KInt m, KInt n => N.ltb m n
  | KStr s, KStr t => String.ltb s t
  | _, _ => false
  end.

(** Order of Python lists. *)
Fixpoint key_ltb (a b : list item) : bool :=
  match a, b with
  | [], [] => false
  | [], _ :: _ => true
  | _ :: _, [] => false
  | x :: a', y :: b' => if item_eqb x y then key_ltb a' b' else item_ltb x y
  end.

End Natural.

(** [sorted]: a stable insertion sort with the comparison [ltb]. *)
Fixpoint insert_sorted {A : Type} (ltb : A -> A -> bool) (x : A) (l : list A) : list A :=
  match l with
  | [] => [x]
  | y :: r => if ltb y x then y :: insert_sorted ltb x r else x :: y :: r
  end.

Definition sorted {A : Type} (ltb : A -> A -> bool) (l : list A) : list A :=
  fold_right (insert_sorted ltb) [] l.

(** [sorted(names, key=_natural_sort_key)] *)
Definition sorted_natural (names : list string) : M (list string) :=
  match Natural.sequence
          (map (fun n => option_map (pair n) (Natural._natural_sort_key n)) names) with
  | Some keyed =>
      ret (map fst (sorted (fun a b => Natural.key_ltb (snd a) (snd b)) keyed))
  | None => raise (Py.ValueError "invalid literal for int() with base 10")
  end.

(* ====================================================================== *)
(** ** Check functions                                                    *)
(* ====================================================================== *)

(** The command-line options. *)
Module Args.
Record t : Type := Make { fix_ : bool; verbose : bool; report : bool; quiet : bool }.
End Args.

Section Checks.

Context {lib : PyLib}.

Definition parse_error (result : handle) (err : option exn) : M unit :=
  match err with
  | Some e => result_warn result ("HTML parse error: " ++ exn_text e)
  | None => ret tt
  end.

(** Check 4: doctype, html, head, body. *)
Definition _check_html_structure (result : handle)
    (validator : HTMLStructureValidator.t) (verbose : bool) : M unit :=
  let checks :=
    [ (HTMLStructureValidator.has_doctype validator, "DOCTYPE declaration");
      (HTMLStructureValidator.has_html validator, "<html> tag");
      (HTMLStructureValidator.has_head validator, "<head> tag");
      (HTMLStructureValidator.has_body validator, "<body> tag") ] in
  for_each checks (fun '(present, label) =>
    if present : bool then when verbose (result_ok result ("Has " ++ label))
    else result_warn result ("Missing " ++ label)).

(** Check 6: the main index page. *)
Definition check_main_index (verbose : bool) : M handle :=
  result <- report_add (CheckResult.init "Main index.html" "structure") ;;
  present <- IO.exists_ MAIN_INDEX ;;
  if negb present then
    result_fail result ("File not found: " ++ Path.to_string MAIN_INDEX) ;;
    ret result
  else
    content <- IO.read_text MAIN_INDEX ;;
    if Nat.eqb (String.length (Str.strip content)) 0 then
      result_fail result "Main index.html is empty" ;;
      ret result
    else
      result_ok result
        ("File exists (" ++ Str.of_nat (String.length content) ++ " bytes)") ;;
      let (validator, err) :=
        HTMLStructureValidator.feed HTMLStructureValidator.init content in
      parse_error result err ;;
      _check_html_structure result validator verbose ;;
      code <- http_get BASE_URL ;;
      (if Z.eqb code 200 then result_ok result ("HTTP 200 from " ++ BASE_URL)
       else result_fail result ("HTTP " ++ Str.of_Z code ++ " from " ++ BASE_URL)) ;;
      ret result.

(** *** Auto-fix functions *)

(** The entry that the fix actions write for a directory. *)
Definition pending_entry (dir_name : string) : pyval :=
  let num := Str.replace "test-" "" dir_name in
  PDict [ ("name", PStr ("Test " ++ num ++ ": TBD"));
          ("description", PStr "Test pendiente de documentacion");
          ("icon", PStr "fa-question");
          ("status", PStr "PENDING");
          ("file", PStr (dir_name ++ "/index.html"));
          ("tags", PList [PStr "pending"]) ].

Definition newline : string := String (ascii_of_nat 10) EmptyString.

(** [INDEX_JSON.write_text(json.dumps(data, indent=2, ensure_ascii=False) + "\n")] *)
Definition write_index_json (data : list pyval) : M unit :=
  IO.write_text INDEX_JSON (json_dumps (PList data) ++ newline).

(** The directories among [names], in the given order. *)
Fixpoint only_dirs (parent : Path.t) (names : list string) : M (list string) :=
  match names with
  | [] => ret []
  | d :: rest =>
      isd <- IO.is_dir (Path.child parent d) ;;
      ds <- only_dirs parent rest ;;
      ret (if isd : bool then d :: ds else ds)
  end.

(** Auto-fix: create index.json from the existing directories. *)
Definition _fix_create_index_json (result : handle) : M unit :=
  present <- IO.exists_ PROJECTS_DIR ;;
  entries <-
    (if present : bool then
       names <- IO.iterdir PROJECTS_DIR ;;
       ordered <- sorted_natural names ;;
       dirs <- only_dirs PROJECTS_DIR ordered ;;
       ret (map pending_entry dirs)
     else ret []) ;;
  IO.mkdir (Path.parent INDEX_JSON) ;;
  write_index_json entries ;;
  result_fixed result
    ("Created index.json with " ++ Str.of_nat (List.length entries) ++ " entries") ;;
  count_fix.

(** Auto-fix: add a missing directory to index.json; the list [data] is
    extended in place, the extended list is returned. *)
Definition _fix_add_index_entry (result : handle) (data : list pyval)
    (dir_name : string) : M (list pyval) :=
  let data := (data ++ [pending_entry dir_name])%list in
  write_index_json data ;;
  result_fixed result ("Added '" ++ dir_name ++ "' to index.json") ;;
  count_fix ;;
  ret data.

(** The text that [_fix_broken_json] tries to read. *)
Definition patched (raw : string) : string :=
  let fixed := Str.strip raw in
  let fixed := Re.strip_trailing_commas fixed in
  let fixed := if negb (Str.startswith fixed "[") then "[" ++ fixed else fixed in
  let fixed := if negb (Str.endswith fixed "]") then fixed ++ "]" else fixed in
  fixed.

(** [len(data)] *)
Definition py_len (v : pyval) : M nat :=
  match v with
  | PList l => ret (List.length l)
  | PDict d => ret (List.length d)
  | PStr s => ret (String.length s)
  | _ => raise (Py.TypeError ("object of type '" ++ Py.type_name v ++ "' has no len()"))
  end.

(** Auto-fix: attempt to repair broken JSON. *)
Definition _fix_broken_json (result : handle) (raw : string) : M unit :=
  match json_loads (patched raw) with
  | inl data =>
      IO.write_text INDEX_JSON (json_dumps data ++ newline) ;;
      n <- py_len data ;;
      result_fixed result ("Repaired JSON (" ++ Str.of_nat n ++ " entries recovered)")
  | inr _ => result_fail result "Could not auto-repair JSON"
  end.

Definition dq : string := String (ascii_of_nat 34) EmptyString.

(** The page that [_fix_create_placeholder] writes. *)
Definition placeholder (num : string) : string :=
  "<!DOCTYPE html>
<html lang=" ++ dq ++ "en" ++ dq ++ ">
<head>
    <meta charset=" ++ dq ++ "UTF-8" ++ dq ++ ">
    <meta name=" ++ dq ++ "viewport" ++ dq ++ " content=" ++ dq
    ++ "width=device-width, initial-scale=1.0" ++ dq ++ ">
    <title>Test " ++ num ++ " - OpenClaw</title>
    <style>
        body { font-family: system-ui, sans-serif; max-width: 800px; margin: 2rem auto; padding: 1rem; }
        .pending { color: #f7931e; font-style: italic; }
    </style>
</head>
<body>
    <h1>Test " ++ num ++ "</h1>
    <p class=" ++ dq ++ "pending" ++ dq ++ ">This test page is pending content.</p>
    <p><a href=" ++ dq ++ "../" ++ dq ++ ">Back to projects</a></p>
</body>
</html>
".

(** Auto-fix: create a placeholder index.html for an empty test. *)
Definition _fix_create_placeholder (result : handle) (file_path : Path.t)
    (dir_name : string) : M unit :=
  let num := Str.replace "test-" "" dir_name in
  IO.mkdir (Path.parent file_path) ;;
  IO.write_text file_path (placeholder num) ;;
  result_fixed result ("Created placeholder " ++ Path.to_string file_path) ;;
  count_fix.

(** *** Check 2: index.json *)

Definition has_key (k : string) (d : list (string * pyval)) : bool :=
  match Py.assoc k d with Some _ => true | None => false end.

(** [entry.get('name', '?')] inside a message. *)
Definition entry_name (d : list (string * pyval)) : string :=
  Py.format (Py.get d "name" (PStr "?")).

Definition required_fields : list string := ["name"; "file"].

Definition missing_field (i : nat) (d : list (string * pyval)) (field : string) : string :=
  "Entry " ++ Str.of_nat i ++ " (" ++ entry_name d ++ "): missing '" ++ field ++ "'".

(** [for field in required_fields: ...] *)
Definition check_required_fields (result : handle) (i : nat)
    (d : list (string * pyval)) : M unit :=
  for_each required_fields (fun field =>
    when (negb (has_key field d)) (result_warn result (missing_field i d field))).

(** One turn of "Validate each entry". *)
Definition check_entry (result : handle) (verbose : bool) (i : nat) (entry : pyval)
  : M unit :=
  match entry with
  | PDict d =>
      check_required_fields result i d ;;
      let file_ref := Py.get d "file" (PStr "") in
      if Py.truthy file_ref then
        match file_ref with
        | PStr f =>
            let file_path := PROJECTS_DIR // f in
            present <- IO.exists_ file_path ;;
            if negb present then
              result_fail result
                ("Entry '" ++ entry_name d ++ "': file not found: " ++ f)
            else
              size <- IO.st_size file_path ;;
              if Nat.eqb size 0 then
                result_fail result
                  ("Entry '" ++ entry_name d ++ "': file is empty: " ++ f)
              else
                when verbose
                  (result_ok result ("Entry '" ++ entry_name d ++ "': " ++ f ++ " OK"))
        | other =>
            raise (Py.TypeError
                     ("unsupported operand type(s) for /: 'PosixPath' and '"
                      ++ Py.type_name other ++ "'"))
        end
      else ret tt
  | _ => result_fail result ("Entry " ++ Str.of_nat i ++ " is not an object")
  end.

(** [enumerate(l)] *)
Definition enumerate {A : Type} (l : list A) : list (nat * A) :=
  combine (seq 0 (List.length l)) l.

Definition check_entries (result : handle) (verbose : bool) (data : list pyval)
  : M unit :=
  for_each (enumerate data) (fun '(i, entry) => check_entry result verbose i entry).

(** The contribution of one entry to [indexed_dirs]. *)
Definition indexed_dir (entry : pyval) : M (list string) :=
  match entry with
  | PDict d =>
      match Py.get d "file" (PStr "") with
      | PStr f =>
          if Str.contains "/" f then ret [Str.split_head "/" f] else ret []
      | PList l =>
          if existsb (fun x => match x with PStr s => String.eqb s "/" | _ => false end) l
          then raise (Py.AttributeError (PList l) "split") else ret []
      | PDict d' =>
          if has_key "/" d' then raise (Py.AttributeError (PDict d') "split") else ret []
      | other =>
          raise (Py.TypeError
                   ("argument of type '" ++ Py.type_name other ++ "' is not iterable"))
      end
  | other => raise (Py.AttributeError other "get")
  end.

Fixpoint indexed_dirs (data : list pyval) : M (list string) :=
  match data with
  | [] => ret []
  | entry :: rest =>
      ds <- indexed_dir entry ;;
      more <- indexed_dirs rest ;;
      ret (ds ++ more)%list
  end.

(** "Check for directories not in index.json": the loop over the sorted
    entries of the projects directory. *)
Fixpoint check_orphans (result : handle) (fix_ : bool) (indexed : list string)
    (data : list pyval) (names : list string) : M unit :=
  match names with
  | [] => ret tt
  | d :: rest =>
      isd <- IO.is_dir (Path.child PROJECTS_DIR d) ;;
      if (isd : bool) && negb (existsb (String.eqb d) indexed) then
        result_warn result ("Directory '" ++ d ++ "' exists but has no index.json entry") ;;
        if fix_ then
          data <- _fix_add_index_entry result data d ;;
          check_orphans result fix_ indexed data rest
        else check_orphans result fix_ indexed data rest
      else check_orphans result fix_ indexed data rest
  end.

Definition check_index_json (verbose fix_ : bool) : M handle :=
  result <- report_add (CheckResult.init "index.json validation" "data") ;;
  present <- IO.exists_ INDEX_JSON ;;
  if negb present then
    result_fail result ("File not found: " ++ Path.to_string INDEX_JSON) ;;
    when fix_ (_fix_create_index_json result) ;;
    ret result
  else
    raw <- IO.read_text INDEX_JSON ;;
    if Nat.eqb (String.length (Str.strip raw)) 0 then
      result_fail result "index.json is empty" ;;
      when fix_ (_fix_create_index_json result) ;;
      ret result
    else
      match json_loads raw with
      | inr e =>
          result_fail result ("Invalid JSON: " ++ e) ;;
          when fix_ (_fix_broken_json result raw) ;;
          ret result
      | inl (PList data) =>
          result_ok result
            ("Valid JSON array with " ++ Str.of_nat (List.length data) ++ " entries") ;;
          check_entries result verbose data ;;
          present <- IO.exists_ PROJECTS_DIR ;;
          when present
            (indexed <- indexed_dirs data ;;
             names <- IO.iterdir PROJECTS_DIR ;;
             check_orphans result fix_ indexed data (sorted String.ltb names)) ;;
          ret result
      | inl _ =>
          result_fail result "index.json root is not an array" ;;
          ret result
      end.

(** *** Checks 5 and 7: links and assets of a page *)

(** [for x in l: ...] with the counters [checked] and [broken]. *)
Fixpoint for_counting {A : Type} (l : list A) (body : A -> nat * nat -> M (nat * nat))
    (counters : nat * nat) : M (nat * nat) :=
  match l with
  | [] => ret counters
  | x :: r => c <- body x counters ;; for_counting r body c
  end.

Definition remote_schemes : list string := ["http://"; "https://"; "//"].

(** A reference that names the site itself: the only remote links that
    are requested. *)
Definition mentions_own_domain (href : string) : bool :=
  Str.contains "clawdbot-web" href || Str.contains "pulpouplatform.com" href.

(** Where a local reference leads, query and fragment removed. *)
Definition local_target (page_dir : Path.t) (ref : string) : Path.t :=
  let target :=
    if Str.startswith ref "/" then PUBLIC_DIR // Str.lstrip_char "/" ref
    else page_dir // ref in
  let target_str := Str.split_head "#" (Str.split_head "?" (Path.to_string target)) in
  Path.of_string target_str.

(** [target.exists() or (target.is_dir() and (target / "index.html").exists())] *)
Definition link_present (target : Path.t) : M bool :=
  present <- IO.exists_ target ;;
  if present : bool then ret true
  else
    isd <- IO.is_dir target ;;
    if isd : bool then IO.exists_ (target // "index.html") else ret false.

(** One turn of the loop of [_check_internal_links]. *)
Definition check_link (result : handle) (page_dir : Path.t) (verbose : bool)
    (href : string) (counters : nat * nat) : M (nat * nat) :=
  let (checked, broken) := counters in
  if Str.startswith_any href remote_schemes then
    if negb (Str.contains "clawdbot-web" href)
       && negb (Str.contains "pulpouplatform.com" href)
    then ret (checked, broken)
    else
      reachable <- url_accessible href ;;
      if reachable : bool then
        when verbose (result_ok result ("Link OK: " ++ href)) ;;
        ret (checked + 1, broken)
      else
        result_fail result ("Broken link: " ++ href) ;;
        ret (checked + 1, broken + 1)
  else
    let target := local_target page_dir href in
    present <- link_present target ;;
    if present : bool then
      when verbose (result_ok result ("Link OK: " ++ href)) ;;
      ret (checked + 1, broken)
    else
      result_fail result
        ("Broken internal link: " ++ href ++ " (resolved to "
         ++ Path.to_string target ++ ")") ;;
      ret (checked + 1, broken + 1).

Definition _check_internal_links (result : handle)
    (validator : HTMLStructureValidator.t) (page_dir : Path.t) (verbose : bool)
  : M unit :=
  match HTMLStructureValidator.links validator with
  | [] => when verbose (result_info result "No internal links found")
  | links =>
      counters <- for_counting links (check_link result page_dir verbose) (0, 0) ;;
      let (checked, broken) := counters : nat * nat in
      when (Nat.ltb 0 checked && Nat.eqb broken 0)
        (result_ok result ("All " ++ Str.of_nat checked ++ " internal links valid"))
  end.

(** One turn of the loop of [_check_assets]. *)
Definition check_asset (result : handle) (page_dir : Path.t) (verbose : bool)
    (asset : string * option string) (counters : nat * nat) : M (nat * nat) :=
  let (checked, broken) := counters in
  match asset with
  | (_, None) => raise (Py.AttributeError PNone "startswith")
  | (asset_type, Some ref) =>
      if Str.startswith_any ref ["data:"; "blob:"] then ret (checked, broken)
      else if Str.startswith_any ref remote_schemes then
        let url := if negb (Str.startswith ref "//") then ref else "http:" ++ ref in
        reachable <- url_accessible url ;;
        if reachable : bool then
          when verbose (result_ok result ("Asset OK (" ++ asset_type ++ "): " ++ ref)) ;;
          ret (checked + 1, broken)
        else
          result_warn result ("Unreachable asset (" ++ asset_type ++ "): " ++ ref) ;;
          ret (checked + 1, broken + 1)
      else
        let target := local_target page_dir ref in
        present <- IO.exists_ target ;;
        if present : bool then
          when verbose (result_ok result ("Asset OK (" ++ asset_type ++ "): " ++ ref)) ;;
          ret (checked + 1, broken)
        else
          result_fail result ("Missing local asset (" ++ asset_type ++ "): " ++ ref) ;;
          ret (checked + 1, broken + 1)
  end.

Definition _check_assets (result : handle)
    (validator : HTMLStructureValidator.t) (page_dir : Path.t) (verbose : bool)
  : M unit :=
  match HTMLStructureValidator.asset_refs validator with
  | [] => when verbose (result_info result "No asset references found")
  | refs =>
      counters <- for_counting refs (check_asset result page_dir verbose) (0, 0) ;;
      let (checked, broken) := counters : nat * nat in
      when (Nat.ltb 0 checked && Nat.eqb broken 0)
        (result_ok result ("All " ++ Str.of_nat checked ++ " assets verified"))
  end.

(** *** Checks 1, 3, 4: the project pages *)

(** One turn of the loop over the page directories; the result it has
    appended is returned. *)
Definition check_page (verbose fix_ : bool) (name : string) : M handle :=
  let test_dir := Path.child PROJECTS_DIR name in
  result <- report_add (CheckResult.init ("Page: " ++ name) "page") ;;
  let index_file := test_dir // "index.html" in
  present <- IO.exists_ index_file ;;
  if negb present then
    result_fail result "index.html does not exist" ;;
    when fix_ (_fix_create_placeholder result index_file name) ;;
    ret result
  else
    content <- IO.read_text index_file ;;
    if Nat.eqb (String.length (Str.strip content)) 0 then
      result_fail result "index.html is empty (0 bytes)" ;;
      when fix_ (_fix_create_placeholder result index_file name) ;;
      ret result
    else
      result_ok result
        ("File exists (" ++ Str.of_nat (String.length content) ++ " bytes)") ;;
      match HTMLStructureValidator.feed HTMLStructureValidator.init content with
      | (_, Some e) =>
          result_warn result ("HTML parse error: " ++ exn_text e) ;;
          ret result
      | (validator, None) =>
          _check_html_structure result validator verbose ;;
          let page_url := PROJECTS_URL ++ name ++ "/index.html" in
          code <- http_get page_url ;;
          (if Z.eqb code 200 then result_ok result "HTTP 200 OK"
           else result_fail result ("HTTP " ++ Str.of_Z code ++ " from " ++ page_url)) ;;
          _check_internal_links result validator test_dir verbose ;;
          _check_assets result validator test_dir verbose ;;
          ret result
      end.

Fixpoint check_pages (verbose fix_ : bool) (names : list string) : M (list handle) :=
  match names with
  | [] => ret []
  | name :: rest =>
      r <- check_page verbose fix_ name ;;
      rs <- check_pages verbose fix_ rest ;;
      ret (r :: rs)
  end.

Definition check_project_pages (verbose fix_ : bool) : M (list handle) :=
  present <- IO.exists_ PROJECTS_DIR ;;
  if negb present then
    r <- report_add (CheckResult.init "Projects directory" "structure") ;;
    result_fail r ("Directory not found: " ++ Path.to_string PROJECTS_DIR) ;;
    ret []
  else
    names <- IO.iterdir PROJECTS_DIR ;;
    dirs <- only_dirs PROJECTS_DIR names ;;
    test_dirs <- sorted_natural dirs ;;
    check_pages verbose fix_ test_dirs.

(** *** The escape of the report page *)

Definition _html_escape (text : string) : string :=
  Str.replace dq "&quot;"
    (Str.replace ">" "&gt;" (Str.replace "<" "&lt;" (Str.replace "&" "&amp;" text))).

(** *** Main entry point *)

(** [generate_html_report]: the page is written to [REPORT_FILE]; its
    text, which nothing else reads, is given by [page]. *)
Definition generate_html_report (page : QAReport.t -> string) : M string :=
  r <- gets report ;;
  IO.mkdir (Path.parent REPORT_FILE) ;;
  IO.write_text REPORT_FILE (page r) ;;
  ret (Path.to_string REPORT_FILE).

(** [main()] without what it prints; the report object is the one of the
    initial state.  The value is the exit code. *)
Definition main (page : QAReport.t -> string) (args : Args.t) : M Z :=
  check_main_index (Args.verbose args) ;;
  check_index_json (Args.verbose args) (Args.fix_ args) ;;
  check_project_pages (Args.verbose args) (Args.fix_ args) ;;
  (if Args.report args then
     report_finalize ;;
     generate_html_report page ;;
     ret tt
   else report_finalize) ;;
  r <- gets report ;;
  ret (if QAReport.all_passed r then 0%Z else 1%Z).

(** [sys.exit(main())]: an exception that escapes ends the process with
    status 1. *)
Definition exit_status (o : Outcome Z) : Z :=
  match o with
  | Ok code => code
  | Raised _ => 1%Z
  end.

End Checks.

(* ====================================================================== *)
(** ** A reference library, to run the checks on sample sites             *)
(* ====================================================================== *)

(** The theorems below hold for every [PyLib].  This instance serves the
    sample runs: a reader for plain markup (tags with quoted, bare or
    missing attribute values, comments, declarations, raw text in script
    and style; character references are left as they are) and a JSON
    reader and writer for texts whose numbers are integers and whose
    strings have no [\u] escape. *)
Module Ref.

Inductive mode : Type :=
| InText (data : string)
| InComment
| InDecl
| SkipSlash
| InEndTag (name : string)
| InEndTail (name : string)
| InTagName (name : string)
| InTag (tag : string) (attrs : list (string * option string)) (slash : bool)
| InAttrName (tag : string) (attrs : list (string * option string)) (name : string)
| AfterAttrName (tag : string) (attrs : list (string * option string)) (name : string)
| BeforeValue (tag : string) (attrs : list (string * option string)) (name : string)
| InQuoted (tag : string) (attrs : list (string * option string)) (name : string)
    (quote : ascii) (value : string)
| InUnquoted (tag : string) (attrs : list (string * option string)) (name : string)
    (value : string)
| InRaw (tag : string) (data : string).

Definition is_alpha (c : ascii) : bool :=
  let n := N_of_ascii c in
  (((65 <=? n) && (n <=? 90)) || ((97 <=? n) && (n <=? 122)))%N.

(** Accumulated text is kept in reverse. *)
Definition flush_text (data : string) : list html_event :=
  if String.eqb data "" then [] else [Data (Str.rev data)].

Definition word (rev_name : string) : string := Str.lower (Str.rev rev_name).

Definition emit_start (tag : string) (attrs : list (string * option string))
    (slash : bool) : mode * list html_event :=
  if slash then (InText "", [StartTag tag attrs; EndTag tag])
  else if String.eqb tag "script" || String.eqb tag "style"
       then (InRaw tag "", [StartTag tag attrs])
       else (InText "", [StartTag tag attrs]).

Definition with_attr (attrs : list (string * option string)) (rev_name : string)
    (value : option string) : list (string * option string) :=
  (attrs ++ [(word rev_name, value)])%list.

Definition step (m : mode) (c : ascii) (rest : string) : mode * list html_event :=
  match m with
  | InText d =>
      if Ascii.eqb c "<" then
        if String.prefix "!--" rest then (InComment, flush_text d)
        else if String.prefix "!" rest || String.prefix "?" rest then (InDecl, flush_text d)
        else match rest with
             | String a more =>
                 if is_alpha a then (InTagName "", flush_text d)
                 else if Ascii.eqb a "/" then
                   match more with
                   | String b _ =>
                       if is_alpha b then (SkipSlash, flush_text d)
                       else (InText (String c d), [])
                   | EmptyString => (InText (String c d), [])
                   end
                 else (InText (String c d), [])
             | EmptyString => (InText (String c d), [])
             end
      else (InText (String c d), [])
  | InComment =>
      if Ascii.eqb c "-" && String.prefix "->" rest then (InDecl, []) else (InComment, [])
  | InDecl => if Ascii.eqb c ">" then (InText "", []) else (InDecl, [])
  | SkipSlash => (InEndTag "", [])
  | InEndTag n =>
      if Ascii.eqb c ">" then (InText "", [EndTag (word n)])
      else if Str.isspace c then (InEndTail n, [])
      else (InEndTag (String c n), [])
  | InEndTail n =>
      if Ascii.eqb c ">" then (InText "", [EndTag (word n)]) else (InEndTail n, [])
  | InTagName n =>
      if Ascii.eqb c ">" then emit_start (word n) [] false
      else if Ascii.eqb c "/" then (InTag (word n) [] true, [])
      else if Str.isspace c then (InTag (word n) [] false, [])
      else (InTagName (String c n), [])
  | InTag tag attrs slash =>
      if Ascii.eqb c ">" then emit_start tag attrs slash
      else if Ascii.eqb c "/" then (InTag tag attrs true, [])
      else if Str.isspace c then (InTag tag attrs false, [])
      else (InAttrName tag attrs (String c ""), [])
  | InAttrName tag attrs n =>
      if Ascii.eqb c "=" then (BeforeValue tag attrs n, [])
      else if Ascii.eqb c ">" then emit_start tag (with_attr attrs n None) false
      else if Ascii.eqb c "/" then (InTag tag (with_attr attrs n None) true, [])
      else if Str.isspace c then (AfterAttrName tag attrs n, [])
      else (InAttrName tag attrs (String c n), [])
  | AfterAttrName tag attrs n =>
      if Ascii.eqb c "=" then (BeforeValue tag attrs n, [])
      else if Ascii.eqb c ">" then emit_start tag (with_attr attrs n None) false
      else if Ascii.eqb c "/" then (InTag tag (with_attr attrs n None) true, [])
      else if Str.isspace c then (AfterAttrName tag attrs n, [])
      else (InAttrName tag (with_attr attrs n None) (String c ""), [])
  | BeforeValue tag attrs n =>
      if Ascii.eqb c ">" then emit_start tag (with_attr attrs n (Some "")) false
      else if Ascii.eqb c (ascii_of_nat 34) || Ascii.eqb c "'"
           then (InQuoted tag attrs n c "", [])
      else if Str.isspace c then (BeforeValue tag attrs n, [])
      else (InUnquoted tag attrs n (String c ""), [])
  | InQuoted tag attrs n q v =>
      if Ascii.eqb c q then (InTag tag (with_attr attrs n (Some (Str.rev v))) false, [])
      else (InQuoted tag attrs n q (String c v), [])
  | InUnquoted tag attrs n v =>
      if Ascii.eqb c ">" then emit_start tag (with_attr attrs n (Some (Str.rev v))) false
      else if Str.isspace c then (InTag tag (with_attr attrs n (Some (Str.rev v))) false, [])
      else (InUnquoted tag attrs n (String c v), [])
  | InRaw tag d =>
      if Ascii.eqb c "<" && Re.prefix_nocase ("/" ++ tag) rest
      then (SkipSlash, flush_text d)
      else (InRaw tag (String c d), [])
  end.

Fixpoint scan (m : mode) (s : string) : list html_event :=
  match s with
  | EmptyString =>
      match m with
      | InText d => flush_text d
      | InRaw _ d => flush_text d
      | _ => []
      end
  | String c rest =>
      let (m', events) := step m c rest in
      (events ++ scan m' rest)%list
  end.

(** The reader over the first part [s] of a text [s ++ rest]: the mode
    reached and the events reported on the way. *)
Fixpoint steps (m : mode) (s rest : string) : mode * list html_event :=
  match s with
  | EmptyString => (m, [])
  | String c r =>
      let (m1, e1) := step m c (r ++ rest) in
      let (m2, e2) := steps m1 r rest in
      (m2, (e1 ++ e2)%list)
  end.

Definition html_tokens (s : string) : list html_event * option exn :=
  (scan (InText "") s, None).

(** *** JSON *)

Definition is_ws (c : ascii) : bool :=
  let n := N_of_ascii c in ((n =? 32) || (n =? 9) || (n =? 10) || (n =? 13))%N.

Fixpoint skip_ws (s : string) : string :=
  match s with
  | String c r => if is_ws c then skip_ws r else s
  | EmptyString => EmptyString
  end.

Definition unescape (c : ascii) : option ascii :=
  if Ascii.eqb c (ascii_of_nat 34) then Some c
  else if Ascii.eqb c "\" then Some c
  else if Ascii.eqb c "/" then Some c
  else if Ascii.eqb c "b" then Some (ascii_of_nat 8)
  else if Ascii.eqb c "f" then Some (ascii_of_nat 12)
  else if Ascii.eqb c "n" then Some (ascii_of_nat 10)
  else if Ascii.eqb c "r" then Some (ascii_of_nat 13)
  else if Ascii.eqb c "t" then Some (ascii_of_nat 9)
  else None.

(** The rest of a string literal after its opening quote. *)
Fixpoint string_body (s : string) (acc : string) : option (string * string) :=
  match s with
  | EmptyString => None
  | String c r =>
      if Ascii.eqb c (ascii_of_nat 34) then Some (Str.rev acc, r)
      else if Ascii.eqb c "\" then
        match r with
        | String e r' =>
            match unescape e with
            | Some x => string_body r' (String x acc)
            | None => None
            end
        | EmptyString => None
        end
      else if (N_of_ascii c <? 32)%N then None
      else string_body r (String c acc)
  end.

Fixpoint digits (s : string) (acc : string) : string * string :=
  match s with
  | String c r => if Natural.is_decimal c then digits r (String c acc) else (Str.rev acc, s)
  | EmptyString => (Str.rev acc, s)
  end.

(** An integer literal; a fraction or an exponent is not read. *)
Definition number (s : string) : option (pyval * string) :=
  let (neg, s') := match s with
                   | String "-" r => (true, r)
                   | _ => (false, s)
                   end in
  let (ds, rest) := digits s' "" in
  let plain := match rest with
               | String c _ => negb (Ascii.eqb c "." || Ascii.eqb c "e" || Ascii.eqb c "E")
               | EmptyString => true
               end in
  if negb (String.eqb ds "") && plain
     && (String.eqb ds "0" || negb (String.prefix "0" ds))
  then let n := Z.of_N (Natural.int_from 0 ds) in
       Some (PInt (if neg then (- n)%Z else n), rest)
  else None.

(** [d[k] = v] *)
Fixpoint dict_set (k : string) (v : pyval) (d : list (string * pyval))
  : list (string * pyval) :=
  match d with
  | [] => [(k, v)]
  | (k', v') :: r => if String.eqb k k' then (k', v) :: r else (k', v') :: dict_set k v r
  end.

Fixpoint value (fuel : nat) (s : string) : option (pyval * string) :=
  match fuel with
  | O => None
  | S fuel =>
      match s with
      | EmptyString => None
      | String c r =>
          if String.prefix "null" s then Some (PNone, Re.drop 4 s)
          else if String.prefix "true" s then Some (PBool true, Re.drop 4 s)
          else if String.prefix "false" s then Some (PBool false, Re.drop 5 s)
          else if Ascii.eqb c (ascii_of_nat 34) then
            match string_body r "" with
            | Some (x, rest) => Some (PStr x, rest)
            | None => None
            end
          else if Ascii.eqb c "[" then
            match skip_ws r with
            | String "]" rest => Some (PList [], rest)
            | r' => match elements fuel r' with
                    | Some (l, rest) => Some (PList l, rest)
                    | None => None
                    end
            end
          else if Ascii.eqb c "{" then
            match skip_ws r with
            | String "}" rest => Some (PDict [], rest)
            | r' => match members fuel r' [] with
                    | Some (d, rest) => Some (PDict d, rest)
                    | None => None
                    end
            end
          else number s
      end
  end

with elements (fuel : nat) (s : string) : option (list pyval * string) :=
  match fuel with
  | O => None
  | S fuel =>
      match value fuel s with
      | Some (v, rest) =>
          match skip_ws rest with
          | String "," rest' =>
              match elements fuel (skip_ws rest') with
              | Some (l, rest'') => Some (v :: l, rest'')
              | None => None
              end
          | String "]" rest' => Some ([v], rest')
          | _ => None
          end
      | None => None
      end
  end

with members (fuel : nat) (s : string) (acc : list (string * pyval))
  : option (list (string * pyval) * string) :=
  match fuel with
  | O => None
  | S fuel =>
      match s with
      | String c r =>
          if Ascii.eqb c (ascii_of_nat 34) then
            match string_body r "" with
            | Some (k, rest) =>
                match skip_ws rest with
                | String ":" rest' =>
                    match value fuel (skip_ws rest') with
                    | Some (v, rest'') =>
                        match skip_ws rest'' with
                        | String "," more => members fuel (skip_ws more) (dict_set k v acc)
                        | String "}" more => Some (dict_set k v acc, more)
                        | _ => None
                        end
                    | None => None
                    end
                | _ => None
                end
            | None => None
            end
          else None
      | EmptyString => None
      end
  end.

Definition json_loads (s : string) : pyval + string :=
  match value (S (String.length s)) (skip_ws s) with
  | Some (v, rest) =>
      if String.eqb (skip_ws rest) "" then inl v else inr "Extra data"
  | None => inr "Expecting value"
  end.

Fixpoint escape (s : string) : string :=
  match s with
  | EmptyString => EmptyString
  | String c r =>
      (if Ascii.eqb c (ascii_of_nat 34) then "\" ++ String c ""
       else if Ascii.eqb c "\" then "\\"
       else if (N_of_ascii c =? 10)%N then "\n"
       else if (N_of_ascii c =? 13)%N then "\r"
       else if (N_of_ascii c =? 9)%N then "\t"
       else String c "") ++ escape r
  end.

Definition quoted (s : string) : string :=
  String (ascii_of_nat 34) (escape s ++ String (ascii_of_nat 34) "").

Fixpoint spaces (n : nat) : string :=
  match n with
  | O => EmptyString
  | S k => String " " (spaces k)
  end.

Definition block (open close : string) (level : nat) (items : list string) : string :=
  match items with
  | [] => open ++ close
  | _ => open ++ newline ++ spaces (2 * S level)
         ++ Str.join ("," ++ newline ++ spaces (2 * S level)) items
         ++ newline ++ spaces (2 * level) ++ close
  end.

(** [json.dumps(v, indent=2, ensure_ascii=False)] *)
Fixpoint dumps (level : nat) (v : pyval) {struct v} : string :=
  match v with
  | PNone => "null"
  | PBool true => "true"
  | PBool false => "false"
  | PInt z => Str.of_Z z
  | PFloat r => r
  | PStr s => quoted s
  | PList items =>
      block "[" "]" level
        ((fix go (l : list pyval) : list string :=
            match l with
            | [] => []
            | x :: r => dumps (S level) x :: go r
            end) items)
  | PDict items =>
      block "{" "}" level
        ((fix go (l : list (string * pyval)) : list string :=
            match l with
            | [] => []
            | (k, x) :: r => (quoted k ++ ": " ++ dumps (S level) x) :: go r
            end) items)
  end.

(** [str(v)], strings inside a container in single quotes. *)
Fixpoint repr (v : pyval) {struct v} : string :=
  match v with
  | PNone => "None"
  | PBool true => "True"
  | PBool false => "False"
  | PInt z => Str.of_Z z
  | PFloat r => r
  | PStr s => "'" ++ s ++ "'"
  | PList items =>
      "[" ++ Str.join ", "
               ((fix go (l : list pyval) : list string :=
                   match l with
                   | [] => []
                   | x :: r => repr x :: go r
                   end) items) ++ "]"
  | PDict items =>
      "{" ++ Str.join ", "
               ((fix go (l : list (string * pyval)) : list string :=
                   match l with
                   | [] => []
                   | (k, x) :: r => ("'" ++ k ++ "': " ++ repr x) :: go r
                   end) items) ++ "}"
  end.

#[export] Instance lib : PyLib := Build_PyLib json_loads (dumps 0) html_tokens repr.

End Ref.

(* ====================================================================== *)
(** ** Sample sites                                                       *)
(* ====================================================================== *)

Module Sample.

Definition quoted (s : string) : string := dq ++ s ++ dq.

(** A manifest with one entry for [test-1]. *)
Definition manifest : string :=
  "[{" ++ quoted "name" ++ ": " ++ quoted "Test 1" ++ ", "
  ++ quoted "file" ++ ": " ++ quoted "test-1/index.html" ++ "}]".

(** The same manifest with a comma before the closing bracket. *)
Definition manifest_trailing_comma : string :=
  "[{" ++ quoted "name" ++ ": " ++ quoted "Test 1" ++ ", "
  ++ quoted "file" ++ ": " ++ quoted "test-1/index.html" ++ "},]".

(** A manifest that no patch repairs. *)
Definition manifest_hopeless : string := "[{" ++ quoted "name" ++ ": ]".

Definition page : string :=
  "<!DOCTYPE html><html><head><title>One</title></head>"
  ++ "<body><a href=../>up</a> <a href=#top>top</a></body></html>".

(** A page on which [handle_starttag] raises after a link was
    collected: the attribute [rel] of the [link] tag has no value. *)
Definition page_bad_link_tag : string :=
  "<!DOCTYPE html><html><head></head>"
  ++ "<body><a href=missing.html>gone</a><link rel></body></html>".

(** The working directory is [/work]; the site holds the main index with
    the given text, the given manifest if any, and the given page
    directories. *)
Definition site_with (index : string) (manifest : option string)
    (pages : list (string * FS.node)) : FS.node :=
  FS.Dir
    [("work", FS.Dir
       [("public", FS.Dir
          [("clawdbot", FS.Dir
             [("index.html", FS.File index);
              ("projects", FS.Dir
                 ((match manifest with
                   | Some text => [("index.json", FS.File text)]
                   | None => []
                   end) ++ pages)%list)])])])].

Definition site (manifest : option string) (pages : list (string * FS.node)) : FS.node :=
  site_with page manifest pages.

Definition online : string -> Z := fun _ => 200%Z.
Definition offline : string -> Z := fun _ => (-1)%Z.

Definition start (t : FS.node) (web : string -> Z) : World :=
  MkWorld t ["work"] web [] QAReport.init.

(** One page directory with a page, one without. *)
Definition two_pages : list (string * FS.node) :=
  [("test-1", FS.Dir [("index.html", FS.File page)]); ("test-2", FS.Dir [])].

(** A state in which the result of a page check has just been added. *)
Definition checking_page (t : FS.node) (web : string -> Z) : World :=
  exec (report_add (CheckResult.init "Page: test-1" "page")) (start t web).

Definition no_report_page : QAReport.t -> string := fun _ => "".

End Sample.

(* ====================================================================== *)
(** ** Notions used in the statements                                     *)
(* ====================================================================== *)

(** The result behind a handle, its status and its details. *)
Definition result_at (w : World) (h : handle) : option CheckResult.t :=
  nth_error (QAReport.results (report w)) h.

Definition status_at (w : World) (h : handle) : option string :=
  option_map CheckResult.status (result_at w h).

Definition details_at (w : World) (h : handle) : list (string * string) :=
  match result_at w h with
  | Some r => CheckResult.details r
  | None => []
  end.

(** A detail-emission call on a [CheckResult]. *)
Inductive call : Type :=
| CallFail (msg : string)
| CallWarn (msg : string)
| CallOk (msg : string)
| CallFixed (msg : string)
| CallInfo (msg : string).

Definition apply_call (r : CheckResult.t) (c : call) : CheckResult.t :=
  match c with
  | CallFail msg => CheckResult.fail r msg
  | CallWarn msg => CheckResult.warn r msg
  | CallOk msg => CheckResult.ok r msg
  | CallFixed msg => CheckResult.fixed r msg
  | CallInfo msg => CheckResult.info r msg
  end.

Definition apply_calls (r : CheckResult.t) (cs : list call) : CheckResult.t :=
  fold_left apply_call cs r.

Definition is_fixed_call (c : call) : bool :=
  match c with CallFixed _ => true | _ => false end.

(** The warnings that [check_required_fields] emits for an entry. *)
Definition missing_calls `{PyLib} (i : nat) (d : list (string * pyval)) : list call :=
  flat_map (fun field =>
              if has_key field d then [] else [CallWarn (missing_field i d field)])
           required_fields.

(** A directory name without separator, question mark or hash sign,
    other than the empty name, [.] and [..]. *)
Definition plain_name (name : string) : bool :=
  negb (Str.has_char "/" name) && negb (Str.has_char "?" name)
  && negb (Str.has_char "#" name)
  && negb (String.eqb name "") && negb (String.eqb name ".")
  && negb (String.eqb name "..").

(** The start tags among the events of a parse, with their attributes. *)
Definition start_tags (events : list html_event)
  : list (string * list (string * option string)) :=
  flat_map (fun e => match e with StartTag t a => [(t, a)] | _ => [] end) events.

(** The start tags of the placeholder page. *)
Definition placeholder_tags : list (string * list (string * option string)) :=
  [ ("html", [("lang", Some "en")]);
    ("head", []);
    ("meta", [("charset", Some "UTF-8")]);
    ("meta", [("name", Some "viewport");
              ("content", Some "width=device-width, initial-scale=1.0")]);
    ("title", []);
    ("style", []);
    ("body", []);
    ("h1", []);
    ("p", [("class", Some "pending")]);
    ("p", []);
    ("a", [("href", Some "../")]) ].

(** What the checks read from the validator. *)
Definition facts (v : HTMLStructureValidator.t)
  : bool * bool * bool * bool * list string * list (string * option string) :=
  (HTMLStructureValidator.has_doctype v, HTMLStructureValidator.has_html v,
   HTMLStructureValidator.has_head v, HTMLStructureValidator.has_body v,
   HTMLStructureValidator.links v, HTMLStructureValidator.asset_refs v).

(** The page of an item and its address. *)
Definition index_file (name : string) : Path.t := Path.child PROJECTS_DIR name // "index.html".

Definition page_url (name : string) : string := PROJECTS_URL ++ name ++ "/index.html".

(** The page of the item is missing or blank. *)
Definition page_absent (w : World) (name : string) : Prop :=
  IO.stat w (index_file name) = None
  \/ exists s, IO.stat w (index_file name) = Some (FS.File s) /\ Str.strip s = "".

(** A step on the result [h] that returns [a], keeps the status of [h]
    and changes nothing but the report. *)
Definition benign {A : Type} (h : handle) (m : M A) (a : A) (w : World) : Prop :=
  run m w = Ok a
  /\ tree (exec m w) = tree w /\ cwd (exec m w) = cwd w
  /\ net (exec m w) = net w /\ requests (exec m w) = requests w
  /\ status_at (exec m w) h = status_at w h.

(** The four statuses. *)
Definition valid_status (s : string) : Prop :=
  s = "PASS" \/ s = "FAIL" \/ s = "WARN" \/ s = "FIXED".

Definition report_valid (r : QAReport.t) : Prop :=
  Forall (fun c => valid_status (CheckResult.status c)) (QAReport.results r).

(** The states of a run: a fresh report on any site, and then the checks
    and the closing steps of [main], in any order and number. *)
Inductive reachable `{PyLib} : World -> Prop :=
| reach_start : forall t dir web,
    reachable (MkWorld t dir web [] QAReport.init)
| reach_main_index : forall w verbose,
    reachable w -> reachable (exec (check_main_index verbose) w)
| reach_index_json : forall w verbose fix_,
    reachable w -> reachable (exec (check_index_json verbose fix_) w)
| reach_project_pages : forall w verbose fix_,
    reachable w -> reachable (exec (check_project_pages verbose fix_) w)
| reach_finalize : forall w,
    reachable w -> reachable (exec report_finalize w)
| reach_report : forall w page,
    reachable w -> reachable (exec (generate_html_report page) w).

(** The value of a computation tells whether its final report has a
    FAIL. *)
Definition tells_health (m : M Z) : Prop :=
  forall w code, run m w = Ok code ->
    code = (if QAReport.all_passed (report (exec m w)) then 0%Z else 1%Z).

(** A computation that keeps every status among the four. *)
Definition keeps_valid {A : Type} (m : M A) : Prop :=
  forall w, report_valid (report w) -> report_valid (report (exec m w)).

(** *** Notions for the further properties *)

(** What [_html_escape] does to one character, and to a text character
    by character. *)
Definition escape_char (c : ascii) : string :=
  if Ascii.eqb c "&" then "&amp;"
  else if Ascii.eqb c "<" then "&lt;"
  else if Ascii.eqb c ">" then "&gt;"
  else if Ascii.eqb c (ascii_of_nat 34) then "&quot;"
  else String c "".

Fixpoint escape_each (s : string) : string :=
  match s with
  | String c r => escape_char c ++ escape_each r
  | EmptyString => EmptyString
  end.

(** The text without its commas and white space. *)
Fixpoint solid (s : string) : string :=
  match s with
  | String c r => if Ascii.eqb c "," || Str.isspace c then solid r else String c (solid r)
  | EmptyString => EmptyString
  end.

(** A digit for [str.isdigit] that [int] does not read. *)
Definition is_superscript (c : ascii) : bool :=
  Natural.isdigit_char c && negb (Natural.is_decimal c).

(** A computation whose final state stands in the relation [R] to its
    initial state, whether it returns or raises. *)
Definition preserves (R : World -> World -> Prop) {A : Type} (m : M A) : Prop :=
  forall w, R w (exec m w).

(** The file tree and the working directory are as they were. *)
Definition same_tree (w w' : World) : Prop := tree w' = tree w /\ cwd w' = cwd w.

(** No fix was counted and no result has become FIXED. *)
Definition no_new_fix (w w' : World) : Prop :=
  QAReport.fixes_applied (report w') = QAReport.fixes_applied (report w)
  /\ forall h, status_at w' h = Some "FIXED" -> status_at w h = Some "FIXED".

(** Only the result [h] has changed, and neither its name nor its
    category. *)
Definition only_result (h : handle) (w w' : World) : Prop :=
  exists f,
    (forall r, CheckResult.name (f r) = CheckResult.name r
               /\ CheckResult.category (f r) = CheckResult.category r)
    /\ QAReport.results (report w') = alter_nth f h (QAReport.results (report w)).

(** What the steps of a check do to a relation between states: [okh]
    tells on which results a detail may be recorded, [fixing] whether
    the fix actions may run. *)
Class Frame (R : World -> World -> Prop) (okh : handle -> Prop) (fixing : Prop) : Prop := {
  frame_refl : forall w, R w w;
  frame_trans : forall a b c, R a b -> R b c -> R a c;
  frame_http : forall url, preserves R (http_get url);
  frame_fail : forall h msg, okh h -> preserves R (result_fail h msg);
  frame_warn : forall h msg, okh h -> preserves R (result_warn h msg);
  frame_ok : forall h msg, okh h -> preserves R (result_ok h msg);
  frame_info : forall h msg, okh h -> preserves R (result_info h msg);
  frame_fixed : forall h msg, okh h -> fixing -> preserves R (result_fixed h msg);
  frame_write : forall p s, fixing -> preserves R (IO.write_text p s);
  frame_mkdir : forall p, fixing -> preserves R (IO.mkdir p);
  frame_count : fixing -> preserves R count_fix
}.

(** A computation that can only return [a]. *)
Definition returns {A : Type} (a : A) (m : M A) : Prop :=
  forall w b, run m w = Ok b -> b = a.

(** The links for which [_check_internal_links] asks the server: those
    with a remote scheme that name the site. *)
Definition requested_links (links : list string) : list string :=
  filter (fun href => Str.startswith_any href remote_schemes && mentions_own_domain href)
         links.

(** The address at which a remote asset is requested. *)
Definition asset_url (ref : string) : string :=
  if Str.startswith ref "//" then "http:" ++ ref else ref.

(** The requests of [_check_assets], up to the first reference without
    a value. *)
Fixpoint asset_requests (refs : list (string * option string)) : list string :=
  match refs with
  | [] => []
  | (_, None) :: _ => []
  | (_, Some ref) :: rest =>
      (if Str.startswith_any ref ["data:"; "blob:"] then []
       else if Str.startswith_any ref remote_schemes then [asset_url ref]
       else []) ++ asset_requests rest
  end.

Definition all_valued (refs : list (string * option string)) : bool :=
  forallb (fun a => match snd a with Some _ => true | None => false end) refs.

(** The details that [_check_html_structure] records. *)
Definition structure_calls (v : HTMLStructureValidator.t) (verbose : bool) : list call :=
  flat_map (fun '(present, label) =>
              if present : bool then if verbose then [CallOk ("Has " ++ label)] else []
              else [CallWarn ("Missing " ++ label)])
    [ (HTMLStructureValidator.has_doctype v, "DOCTYPE declaration");
      (HTMLStructureValidator.has_html v, "<html> tag");
      (HTMLStructureValidator.has_head v, "<head> tag");
      (HTMLStructureValidator.has_body v, "<body> tag") ].

(** The four elements are there. *)
Definition well_formed (v : HTMLStructureValidator.t) : bool :=
  HTMLStructureValidator.has_doctype v && HTMLStructureValidator.has_html v
  && HTMLStructureValidator.has_head v && HTMLStructureValidator.has_body v.

(** The answers of the server are as they were. *)
Definition same_net (w w' : World) : Prop := net w' = net w.

(** The detail record that a call appends. *)
Definition detail_of (c : call) : string * string :=
  match c with
  | CallFail msg => ("FAIL", msg)
  | CallWarn msg => ("WARN", msg)
  | CallOk msg => ("PASS", msg)
  | CallFixed msg => ("FIXED", msg)
  | CallInfo msg => ("INFO", msg)
  end.

(** A call that leaves the status alone. *)
Definition is_quiet_call (c : call) : bool :=
  match c with CallOk _ | CallInfo _ => true | _ => false end.

(** The manifest is missing or blank. *)
Definition manifest_absent (w : World) : Prop :=
  IO.stat w INDEX_JSON = None
  \/ exists raw, IO.stat w INDEX_JSON = Some (FS.File raw)
                 /\ Nat.eqb (String.length (Str.strip raw)) 0 = true.

(** The detail that the manifest check records for it. *)
Definition manifest_absent_message (w : World) : string :=
  match IO.stat w INDEX_JSON with
  | None => "File not found: public/clawdbot/projects/index.json"
  | Some _ => "index.json is empty"
  end.

(** The directories among [names] that no entry of the manifest names. *)
Definition unlisted (w : World) (indexed names : list string) : list string :=
  filter (fun d => FS.is_dir (IO.stat w (Path.child PROJECTS_DIR d))
                   && negb (existsb (String.eqb d) indexed))
         names.

(** The details recorded for them. *)
Definition unlisted_calls (fix_ : bool) (dirs : list string) : list call :=
  flat_map (fun d =>
              CallWarn ("Directory '" ++ d ++ "' exists but has no index.json entry")
              :: (if fix_ then [CallFixed ("Added '" ++ d ++ "' to index.json")] else []))
           dirs.

(** An entry with both required fields whose file is there and not
    empty. *)
Definition entry_in_order (w : World) (entry : pyval) : bool :=
  match entry with
  | PDict d =>
      has_key "name" d && has_key "file" d
      && match Py.get d "file" (PStr "") with
         | PStr f =>
             negb (String.eqb f "")
             && match IO.stat w (PROJECTS_DIR // f) with
                | Some n => negb (Nat.eqb (FS.st_size n) 0)
                | None => false
                end
         | _ => false
         end
  | _ => false
  end.

(** The detail recorded for it in verbose mode. *)
Definition entry_ok_call `{PyLib} (entry : pyval) : call :=
  match entry with
  | PDict d =>
      CallOk ("Entry '" ++ entry_name d ++ "': "
              ++ Py.format (Py.get d "file" (PStr "")) ++ " OK")
  | _ => CallOk ""
  end.

Unset Implicit Arguments.

(* ====================================================================== *)
(** ** Sample evaluations of the helpers                                  *)
(* ====================================================================== *)

Example strip_example : Str.strip "  [1, 2] " = "[1, 2]".
Proof. reflexivity. Qed.

Example replace_example : Str.replace "test-" "" "test-12" = "12".
Proof. reflexivity. Qed.

Example commas_example :
  Re.strip_trailing_commas "[{1: 1,  }, 2 ,
 ]" = "[{1: 1}, 2 ]".
Proof. reflexivity. Qed.

Example doctype_example :
  Re.search_doctype "<!-- x --><!DocType   HTML>" = true
  /\ Re.search_doctype "<!DOCTYPEhtml>" = false.
Proof. split; reflexivity. Qed.

Example paths_example :
  Path.to_string INDEX_JSON = "public/clawdbot/projects/index.json"
  /\ Path.to_string (PROJECTS_DIR // "a//./b/../c/") = "public/clawdbot/projects/a/b/../c"
  /\ Path.to_string (PROJECTS_DIR // "/etc/passwd") = "/etc/passwd"
  /\ Path.to_string (Path.of_string "") = ".".
Proof. repeat split. Qed.

Example natural_sort_example :
  run (sorted_natural ["item-2"; "item-10"; "item-1"])
      (MkWorld (FS.Dir []) [] (fun _ => 200%Z) [] QAReport.init)
  = Ok ["item-1"; "item-2"; "item-10"].
Proof. reflexivity. Qed.

(* ====================================================================== *)
(** ** The monad and the report                                           *)
(* ====================================================================== *)

Lemma exec_bind {A B : Type} (m : M A) (k : A -> M B) (w : World) :
  exec (bind m k) w =
  match run m w with
  | Ok a => exec (k a) (exec m w)
  | Raised _ => exec m w
  end.
Proof. unfold exec, run, bind. destruct (m w) as [[a | e] w']; reflexivity. Qed.

Lemma run_bind {A B : Type} (m : M A) (k : A -> M B) (w : World) :
  run (bind m k) w =
  match run m w with
  | Ok a => run (k a) (exec m w)
  | Raised e => Raised e
  end.
Proof. unfold exec, run, bind. destruct (m w) as [[a | e] w']; reflexivity. Qed.

Lemma keeps_ret {A : Type} (a : A) : keeps_valid (ret a).
Proof. intros w H. exact H. Qed.

Lemma keeps_raise {A : Type} (e : exn) : keeps_valid (@raise A e).
Proof. intros w H. exact H. Qed.

Lemma keeps_gets {A : Type} (f : World -> A) : keeps_valid (gets f).
Proof. intros w H. exact H. Qed.

Lemma keeps_bind {A B : Type} (m : M A) (k : A -> M B) :
  keeps_valid m -> (forall a, keeps_valid (k a)) -> keeps_valid (bind m k).
Proof.
  intros Hm Hk w H. rewrite exec_bind.
  destruct (run m w); [apply Hk|]; apply Hm; exact H.
Qed.

Lemma keeps_when (b : bool) (m : M unit) : keeps_valid m -> keeps_valid (when b m).
Proof. intros Hm. destruct b; [exact Hm | apply keeps_ret]. Qed.

Lemma keeps_for_each {A : Type} (l : list A) (body : A -> M unit) :
  (forall x, keeps_valid (body x)) -> keeps_valid (for_each l body).
Proof.
  intros Hb. induction l as [| x l IH]; simpl.
  - apply keeps_ret.
  - apply keeps_bind; [apply Hb | intros _; exact IH].
Qed.

Lemma keeps_for_counting {A : Type} (l : list A)
    (body : A -> nat * nat -> M (nat * nat)) :
  (forall x c, keeps_valid (body x c)) -> forall c, keeps_valid (for_counting l body c).
Proof.
  intros Hb. induction l as [| x l IH]; intros c; simpl.
  - apply keeps_ret.
  - apply keeps_bind; [apply Hb | intros c'; apply IH].
Qed.

(** A computation that leaves the report alone keeps it valid. *)
Lemma keeps_same_report {A : Type} (m : M A) :
  (forall w, report (exec m w) = report w) -> keeps_valid m.
Proof. intros Hm w H. rewrite Hm. exact H. Qed.

Lemma write_text_report (p : Path.t) (s : string) (w : World) :
  report (exec (IO.write_text p s) w) = report w.
Proof.
  unfold exec, IO.write_text.
  destruct (IO.stat w p) as [[c | es] |];
    destruct (IO.locate w (Path.parent p)); destruct (Path.parts p);
    try reflexivity;
    destruct (FS.is_dir _ && _); try reflexivity;
    destruct (FS.update _ _ _); reflexivity.
Qed.

Lemma mkdir_report (p : Path.t) (w : World) :
  report (exec (IO.mkdir p) w) = report w.
Proof. unfold exec, IO.mkdir. destruct (IO.mkdirs _ _ _); reflexivity. Qed.

Lemma keeps_write_text (p : Path.t) (s : string) : keeps_valid (IO.write_text p s).
Proof. apply keeps_same_report, write_text_report. Qed.

Lemma keeps_mkdir (p : Path.t) : keeps_valid (IO.mkdir p).
Proof. apply keeps_same_report, mkdir_report. Qed.

Lemma keeps_exists (p : Path.t) : keeps_valid (IO.exists_ p).
Proof. apply keeps_gets. Qed.

Lemma keeps_is_dir (p : Path.t) : keeps_valid (IO.is_dir p).
Proof. apply keeps_gets. Qed.

Lemma keeps_st_size (p : Path.t) : keeps_valid (IO.st_size p).
Proof.
  apply keeps_bind; [apply keeps_gets | intros [n |]; [apply keeps_ret | apply keeps_raise]].
Qed.

Lemma keeps_read_text (p : Path.t) : keeps_valid (IO.read_text p).
Proof.
  apply keeps_bind; [apply keeps_gets |].
  intros [[s | es] |]; first [apply keeps_ret | apply keeps_raise].
Qed.

Lemma keeps_iterdir (p : Path.t) : keeps_valid (IO.iterdir p).
Proof.
  apply keeps_bind; [apply keeps_gets |].
  intros [[s | es] |]; first [apply keeps_ret | apply keeps_raise].
Qed.

Lemma keeps_http_get (url : string) : keeps_valid (http_get url).
Proof. apply keeps_same_report. reflexivity. Qed.

Lemma keeps_url_accessible (url : string) : keeps_valid (url_accessible url).
Proof. apply keeps_bind; [apply keeps_http_get | intros; apply keeps_ret]. Qed.

Lemma keeps_sorted_natural (names : list string) : keeps_valid (sorted_natural names).
Proof.
  unfold sorted_natural. destruct (Natural.sequence _); [apply keeps_ret | apply keeps_raise].
Qed.

Lemma keeps_count_fix : keeps_valid count_fix.
Proof. intros w H. exact H. Qed.

Lemma keeps_finalize : keeps_valid report_finalize.
Proof. intros w H. exact H. Qed.

Lemma keeps_report_add (name category : string) :
  keeps_valid (report_add (CheckResult.init name category)).
Proof.
  intros w H. unfold report_valid, exec, report_add in *. simpl.
  apply Forall_app. split; [exact H |].
  constructor; [left; reflexivity | constructor].
Qed.

Lemma Forall_alter_nth {A : Type} (P : A -> Prop) (f : A -> A) (i : nat) (l : list A) :
  (forall x, P x -> P (f x)) -> Forall P l -> Forall P (alter_nth f i l).
Proof.
  intros Hf H. revert i. induction H as [| x l Hx Hl IH]; intros [| i]; simpl;
    constructor; auto.
Qed.

Lemma keeps_on_result (h : handle) (f : CheckResult.t -> CheckResult.t) :
  (forall r, valid_status (CheckResult.status r) -> valid_status (CheckResult.status (f r))) ->
  keeps_valid (on_result h f).
Proof.
  intros Hf w H. unfold report_valid, exec, on_result, modify in *. simpl.
  apply Forall_alter_nth; assumption.
Qed.

Lemma keeps_result_fail (h : handle) (msg : string) : keeps_valid (result_fail h msg).
Proof. apply keeps_on_result. intros r _. right; left; reflexivity. Qed.

Lemma keeps_result_fixed (h : handle) (msg : string) : keeps_valid (result_fixed h msg).
Proof. apply keeps_on_result. intros r _. right; right; right; reflexivity. Qed.

Lemma keeps_result_ok (h : handle) (msg : string) : keeps_valid (result_ok h msg).
Proof. apply keeps_on_result. intros r H. exact H. Qed.

Lemma keeps_result_info (h : handle) (msg : string) : keeps_valid (result_info h msg).
Proof. apply keeps_on_result. intros r H. exact H. Qed.

Lemma keeps_result_warn (h : handle) (msg : string) : keeps_valid (result_warn h msg).
Proof.
  apply keeps_on_result. intros r H. simpl.
  destruct (String.eqb (CheckResult.status r) "PASS"); [right; right; left; reflexivity | exact H].
Qed.

Create HintDb keeps discriminated.
#[export] Hint Resolve keeps_ret keeps_raise keeps_gets keeps_write_text keeps_mkdir
  keeps_exists keeps_is_dir keeps_st_size keeps_read_text keeps_iterdir keeps_http_get
  keeps_url_accessible keeps_sorted_natural keeps_count_fix keeps_finalize
  keeps_report_add keeps_result_fail keeps_result_fixed keeps_result_ok
  keeps_result_info keeps_result_warn : keeps.

(** Breaks a computation into its steps and closes the primitive ones. *)
Ltac keeps_step :=
  match goal with
  | |- keeps_valid (bind _ _) => apply keeps_bind; [| intros ?]
  | |- keeps_valid (when _ _) => apply keeps_when
  | |- keeps_valid (for_each _ _) => apply keeps_for_each; intros ?
  | |- keeps_valid (for_counting _ _ _) => apply keeps_for_counting; intros ? ?
  | |- keeps_valid (match ?x with _ => _ end) => destruct x
  | |- keeps_valid _ => solve [auto with keeps]
  end.

Ltac keeps := repeat keeps_step.

Section Validity.

Context {lib : PyLib}.

Lemma keeps_parse_error (h : handle) (err : option exn) : keeps_valid (parse_error h err).
Proof. unfold parse_error. keeps. Qed.

Lemma keeps_check_html_structure (h : handle) (v : HTMLStructureValidator.t) (verbose : bool) :
  keeps_valid (_check_html_structure h v verbose).
Proof. unfold _check_html_structure. keeps. Qed.

Lemma keeps_check_main_index (verbose : bool) : keeps_valid (check_main_index verbose).
Proof.
  unfold check_main_index. keeps;
    auto using keeps_parse_error, keeps_check_html_structure.
Qed.

Lemma keeps_only_dirs (parent : Path.t) (names : list string) :
  keeps_valid (only_dirs parent names).
Proof. induction names as [| d rest IH]; simpl; keeps. Qed.

Lemma keeps_write_index_json (data : list pyval) : keeps_valid (write_index_json data).
Proof. unfold write_index_json. keeps. Qed.

Lemma keeps_fix_create_index_json (h : handle) : keeps_valid (_fix_create_index_json h).
Proof.
  unfold _fix_create_index_json. keeps;
    auto using keeps_only_dirs, keeps_write_index_json.
Qed.

Lemma keeps_fix_add_index_entry (h : handle) (data : list pyval) (d : string) :
  keeps_valid (_fix_add_index_entry h data d).
Proof. unfold _fix_add_index_entry. keeps; auto using keeps_write_index_json. Qed.

Lemma keeps_py_len (v : pyval) : keeps_valid (py_len v).
Proof. unfold py_len. keeps. Qed.

Lemma keeps_fix_broken_json (h : handle) (raw : string) :
  keeps_valid (_fix_broken_json h raw).
Proof. unfold _fix_broken_json. keeps; auto using keeps_py_len. Qed.

Lemma keeps_fix_create_placeholder (h : handle) (p : Path.t) (d : string) :
  keeps_valid (_fix_create_placeholder h p d).
Proof. unfold _fix_create_placeholder. keeps. Qed.

Lemma keeps_check_entry (h : handle) (verbose : bool) (i : nat) (entry : pyval) :
  keeps_valid (check_entry h verbose i entry).
Proof. unfold check_entry, check_required_fields. keeps. Qed.

Lemma keeps_check_entries (h : handle) (verbose : bool) (data : list pyval) :
  keeps_valid (check_entries h verbose data).
Proof. unfold check_entries. keeps. apply keeps_check_entry. Qed.

Lemma keeps_indexed_dir (entry : pyval) : keeps_valid (indexed_dir entry).
Proof. unfold indexed_dir. keeps. Qed.

Lemma keeps_indexed_dirs (data : list pyval) : keeps_valid (indexed_dirs data).
Proof.
  induction data as [| e rest IH]; simpl; keeps; auto using keeps_indexed_dir.
Qed.

Lemma keeps_check_orphans (h : handle) (fix_ : bool) (indexed : list string)
    (names : list string) :
  forall data, keeps_valid (check_orphans h fix_ indexed data names).
Proof.
  induction names as [| d rest IH]; intros data; simpl; keeps;
    auto using keeps_fix_add_index_entry.
Qed.

Lemma keeps_check_index_json (verbose fix_ : bool) :
  keeps_valid (check_index_json verbose fix_).
Proof.
  unfold check_index_json. keeps;
    auto using keeps_fix_create_index_json, keeps_fix_broken_json,
      keeps_check_entries, keeps_indexed_dirs, keeps_check_orphans.
Qed.

Lemma keeps_link_present (target : Path.t) : keeps_valid (link_present target).
Proof. unfold link_present. keeps. Qed.

Lemma keeps_check_link (h : handle) (page_dir : Path.t) (verbose : bool)
    (href : string) (c : nat * nat) :
  keeps_valid (check_link h page_dir verbose href c).
Proof. unfold check_link. keeps; auto using keeps_link_present. Qed.

Lemma keeps_check_internal_links (h : handle) (v : HTMLStructureValidator.t)
    (page_dir : Path.t) (verbose : bool) :
  keeps_valid (_check_internal_links h v page_dir verbose).
Proof. unfold _check_internal_links. keeps; apply keeps_check_link. Qed.

Lemma keeps_check_asset (h : handle) (page_dir : Path.t) (verbose : bool)
    (asset : string * option string) (c : nat * nat) :
  keeps_valid (check_asset h page_dir verbose asset c).
Proof. unfold check_asset. keeps. Qed.

Lemma keeps_check_assets (h : handle) (v : HTMLStructureValidator.t)
    (page_dir : Path.t) (verbose : bool) :
  keeps_valid (_check_assets h v page_dir verbose).
Proof. unfold _check_assets. keeps; apply keeps_check_asset. Qed.

Lemma keeps_check_page (verbose fix_ : bool) (name : string) :
  keeps_valid (check_page verbose fix_ name).
Proof.
  unfold check_page. keeps;
    auto using keeps_fix_create_placeholder, keeps_check_html_structure,
      keeps_check_internal_links, keeps_check_assets.
Qed.

Lemma keeps_check_pages (verbose fix_ : bool) (names : list string) :
  keeps_valid (check_pages verbose fix_ names).
Proof.
  induction names as [| n rest IH]; simpl; keeps; auto using keeps_check_page.
Qed.

Lemma keeps_check_project_pages (verbose fix_ : bool) :
  keeps_valid (check_project_pages verbose fix_).
Proof.
  unfold check_project_pages. keeps; auto using keeps_only_dirs, keeps_check_pages.
Qed.

Lemma keeps_generate_html_report (page : QAReport.t -> string) :
  keeps_valid (generate_html_report page).
Proof. unfold generate_html_report. keeps. Qed.

Lemma reachable_valid (w : World) : reachable w -> report_valid (report w).
Proof.
  induction 1.
  - constructor.
  - apply keeps_check_main_index; assumption.
  - apply keeps_check_index_json; assumption.
  - apply keeps_check_project_pages; assumption.
  - apply keeps_finalize; assumption.
  - apply keeps_generate_html_report; assumption.
Qed.

End Validity.

(* ====================================================================== *)
(** ** Statuses and summary counts                                        *)
(* ====================================================================== *)

Lemma result_at_on_result (h : handle) (f : CheckResult.t -> CheckResult.t) (w : World) :
  result_at (exec (on_result h f) w) h = option_map f (result_at w h).
Proof.
  unfold result_at, exec, on_result, modify. simpl.
  generalize (QAReport.results (report w)) as l. induction h as [| h IH]; intros [| x l];
    simpl; auto.
Qed.

Lemma result_at_on_result_other (h h' : handle) (f : CheckResult.t -> CheckResult.t)
    (w : World) :
  h <> h' -> result_at (exec (on_result h f) w) h' = result_at w h'.
Proof.
  unfold result_at, exec, on_result, modify. simpl.
  generalize (QAReport.results (report w)) as l. revert h'.
  induction h as [| h IH]; intros [| h'] [| x l] Hne; simpl; auto; try congruence.
Qed.

Lemma fail_sticks (r : CheckResult.t) (msg : string) (cs : list call) :
  forallb (fun c => negb (is_fixed_call c)) cs = true ->
  CheckResult.status (apply_calls (CheckResult.fail r msg) cs) = "FAIL".
Proof.
  unfold apply_calls.
  assert (G : forall r0, CheckResult.status r0 = "FAIL" ->
              forallb (fun c => negb (is_fixed_call c)) cs = true ->
              CheckResult.status (fold_left apply_call cs r0) = "FAIL").
  { induction cs as [| c cs IH]; intros r0 H0 Hcs; simpl in *; [exact H0 |].
    apply andb_prop in Hcs. destruct Hcs as [Hc Hcs].
    apply IH; [| exact Hcs].
    destruct c; simpl in *; try discriminate; try assumption; try reflexivity.
    rewrite H0. reflexivity. }
  apply G. reflexivity.
Qed.

(** C2.  On every [CheckResult], after any sequence of detail-emission
    calls: [fail] sets the status to FAIL; [warn] sets it to WARN when it
    is PASS and leaves it otherwise, so that a FAIL survives [warn] and
    every later call other than [fixed]; [fixed] sets it to FIXED, also
    right after a [fail]. *)
Theorem status_escalation (r0 : CheckResult.t) (before later : list call)
    (msg msg' : string) :
  let r := apply_calls r0 before in
  CheckResult.status (CheckResult.fail r msg) = "FAIL"
  /\ CheckResult.status (CheckResult.warn r msg)
     = (if String.eqb (CheckResult.status r) "PASS" then "WARN" else CheckResult.status r)
  /\ CheckResult.status (CheckResult.warn (CheckResult.fail r msg) msg') = "FAIL"
  /\ CheckResult.status
       (apply_calls (CheckResult.fail r msg)
          (filter (fun c => negb (is_fixed_call c)) later)) = "FAIL"
  /\ CheckResult.status (CheckResult.fixed r msg) = "FIXED"
  /\ CheckResult.status (CheckResult.fixed (CheckResult.fail r msg) msg') = "FIXED".
Proof.
  intros r. repeat split.
  apply fail_sticks. apply forallb_forall. intros c Hc.
  apply filter_In in Hc. destruct Hc as [_ Hc]. exact Hc.
Qed.

Lemma count_cons (s : string) (c : CheckResult.t) (l : list CheckResult.t) (f : bool) (n : nat) :
  QAReport.count s (QAReport.Make (c :: l) f n)
  = (if String.eqb (CheckResult.status c) s then 1 else 0)
    + QAReport.count s (QAReport.Make l f n).
Proof.
  unfold QAReport.count. simpl.
  destruct (String.eqb (CheckResult.status c) s); reflexivity.
Qed.

Lemma counts_partition (r : QAReport.t) :
  report_valid r ->
  QAReport.total r
  = QAReport.passed r + QAReport.failed r + QAReport.warnings r + QAReport.fixed r.
Proof.
  destruct r as [l f n]. unfold report_valid, QAReport.total, QAReport.passed,
    QAReport.failed, QAReport.warnings, QAReport.fixed. simpl.
  induction 1 as [| c l Hc Hl IH]; [reflexivity |].
  rewrite !count_cons. simpl. rewrite IH.
  destruct Hc as [E | [E | [E | E]]]; rewrite E; simpl; lia.
Qed.

(** C10.  In every state that the checks can reach from a fresh report,
    each result of the report has one of the statuses PASS, FAIL, WARN and
    FIXED, and the four counts add up to the total. *)
Theorem summary_counts_partition {lib : PyLib} (w : World) :
  reachable w ->
  report_valid (report w)
  /\ QAReport.total (report w)
     = QAReport.passed (report w) + QAReport.failed (report w)
       + QAReport.warnings (report w) + QAReport.fixed (report w).
Proof.
  intros H. apply reachable_valid in H. split; [exact H | apply counts_partition, H].
Qed.

Lemma failed_zero_iff (r : QAReport.t) :
  QAReport.failed r = 0
  <-> Forall (fun c => CheckResult.status c <> "FAIL") (QAReport.results r).
Proof.
  unfold QAReport.failed, QAReport.count.
  induction (QAReport.results r) as [| c l IH]; simpl.
  - split; [constructor | reflexivity].
  - destruct (String.eqb_spec (CheckResult.status c) "FAIL") as [E | E]; simpl.
    + split; [discriminate |]. intros H. inversion H; subst. contradiction.
    + rewrite IH. split; [intros H; constructor; assumption | intros H; inversion H; assumption].
Qed.

Lemma run_bind_ok {A B : Type} (m : M A) (k : A -> M B) (w : World) (b : B) :
  run (bind m k) w = Ok b ->
  exists a, run m w = Ok a
            /\ run (k a) (exec m w) = Ok b
            /\ exec (bind m k) w = exec (k a) (exec m w).
Proof.
  rewrite run_bind, exec_bind. destruct (run m w) as [a | e]; [| discriminate].
  intros H. exists a. auto.
Qed.

Lemma tells_health_bind {A : Type} (m : M A) (k : A -> M Z) :
  (forall a, tells_health (k a)) -> tells_health (bind m k).
Proof.
  intros Hk w code H. apply run_bind_ok in H. destruct H as (a & _ & H & ->).
  apply Hk. exact H.
Qed.

Lemma main_tells_health {lib : PyLib} (page : QAReport.t -> string) (args : Args.t) :
  tells_health (main page args).
Proof.
  unfold main. do 4 (apply tells_health_bind; intros ?).
  intros w code H. unfold run, exec, bind, gets, ret in *. simpl in *.
  inversion H. reflexivity.
Qed.

(** C1.  When [main] returns, [all_passed] holds exactly when no result
    has the status FAIL (results with another status do not count), and
    the exit status is 0 when it holds and 1 otherwise. *)
Theorem exit_status_reflects_failures {lib : PyLib} (page : QAReport.t -> string)
    (args : Args.t) (w : World) (code : Z) :
  run (main page args) w = Ok code ->
  let r := report (exec (main page args) w) in
  (QAReport.all_passed r = true <-> QAReport.failed r = 0)
  /\ (QAReport.all_passed r = true
      <-> Forall (fun c => CheckResult.status c <> "FAIL") (QAReport.results r))
  /\ code = (if QAReport.all_passed r then 0%Z else 1%Z)
  /\ exit_status (run (main page args) w) = code.
Proof.
  intros H r.
  assert (E : QAReport.all_passed r = true <-> QAReport.failed r = 0).
  { unfold QAReport.all_passed. apply Nat.eqb_eq. }
  split; [exact E |]. split; [rewrite E; apply failed_zero_iff |].
  split; [apply main_tells_health; exact H | rewrite H; reflexivity].
Qed.

(* ====================================================================== *)
(** ** The file tree                                                      *)
(* ====================================================================== *)

Lemma assoc_set_entry (k n : string) (new : FS.node) (es : list (string * FS.node)) :
  Py.assoc k (FS.set_entry n new es)
  = if String.eqb k n then Some new else Py.assoc k es.
Proof.
  induction es as [| [k' v] es IH]; simpl.
  - destruct (String.eqb_spec k n); reflexivity.
  - destruct (String.eqb_spec n k') as [-> | Hn]; simpl.
    + destruct (String.eqb_spec k k'); reflexivity.
    + destruct (String.eqb_spec k k') as [-> | Hk].
      * destruct (String.eqb_spec k' n); [congruence | reflexivity].
      * exact IH.
Qed.

Lemma walk_app (t : FS.node) (ps qs cur : list string) :
  FS.walk t cur (ps ++ qs)
  = match FS.walk t cur ps with
    | Some mid => FS.walk t mid qs
    | None => None
    end.
Proof.
  revert cur. induction ps as [| p ps IH]; intros cur; simpl; [reflexivity |].
  destruct (FS.is_dir (FS.lookup t cur)); [| reflexivity].
  destruct (String.eqb p ".."); apply IH.
Qed.

(** Two trees with the same directories are walked alike. *)
Lemma walk_same_dirs (t t' : FS.node) (ps cur : list string) :
  (forall x, FS.is_dir (FS.lookup t' x) = FS.is_dir (FS.lookup t x)) ->
  FS.walk t' cur ps = FS.walk t cur ps.
Proof.
  intros H. revert cur. induction ps as [| p ps IH]; intros cur; simpl; [reflexivity |].
  rewrite H. destruct (FS.is_dir (FS.lookup t cur)); [| reflexivity].
  destruct (String.eqb p ".."); apply IH.
Qed.

Lemma lookup_app (t : FS.node) (p q : list string) :
  FS.lookup t (p ++ q)
  = match FS.lookup t p with
    | Some n => FS.lookup n q
    | None => None
    end.
Proof.
  revert t. induction p as [| a p IH]; intros t; simpl; [reflexivity |].
  destruct t as [s | es]; [reflexivity |].
  destruct (Py.assoc a es); [apply IH | reflexivity].
Qed.

Lemma update_lookup (t t' : FS.node) (p : list string) (new : FS.node) :
  FS.update t p new = Some t' -> FS.lookup t' p = Some new.
Proof.
  revert t t'. induction p as [| n rest IH]; intros t t' H; simpl in *.
  - congruence.
  - destruct t as [s | es]; [discriminate |].
    destruct rest as [| m rest].
    + inversion H; subst. simpl. rewrite assoc_set_entry, String.eqb_refl. reflexivity.
    + destruct (Py.assoc n es) as [c |]; [| discriminate].
      destruct (FS.update c (m :: rest) new) as [c' |] eqn:E; [| discriminate].
      inversion H; subst. cbn [FS.lookup]. rewrite assoc_set_entry, String.eqb_refl.
      apply IH in E. exact E.
Qed.

Lemma update_in_dir (t : FS.node) (q : list string) (n : string) (new : FS.node) :
  FS.is_dir (FS.lookup t q) = true ->
  exists t', FS.update t (q ++ [n]) new = Some t'.
Proof.
  revert t. induction q as [| a q IH]; intros t H; simpl in *.
  - destruct t as [s | es]; [discriminate |]. eexists; reflexivity.
  - destruct t as [s | es]; [discriminate |].
    destruct (Py.assoc a es) as [c |]; [| discriminate].
    destruct (IH c H) as [c' Hc']. rewrite Hc'.
    destruct (q ++ [n])%list eqn:E; [destruct q; discriminate |]. eexists; reflexivity.
Qed.

(** Writing a file where no directory stands changes no directory. *)
Lemma update_file_dirs (t t' : FS.node) (p : list string) (s : string) :
  p <> [] ->
  FS.update t p (FS.File s) = Some t' ->
  FS.is_dir (FS.lookup t p) = false ->
  forall x, FS.is_dir (FS.lookup t' x) = FS.is_dir (FS.lookup t x).
Proof.
  revert t t'. induction p as [| n rest IH]; intros t t' Hne H Hfile x; [congruence |].
  simpl in H. destruct t as [c | es]; [discriminate |].
  destruct rest as [| m rest].
  - inversion H; subst. destruct x as [| k xs]; [reflexivity |].
    simpl in *. rewrite assoc_set_entry.
    destruct (String.eqb_spec k n) as [-> | Hk]; [| reflexivity].
    destruct (Py.assoc n es) as [[c | es'] |].
    + destruct xs; reflexivity.
    + discriminate.
    + destruct xs; reflexivity.
  - destruct (Py.assoc n es) as [c |] eqn:En; [| discriminate].
    destruct (FS.update c (m :: rest) (FS.File s)) as [c' |] eqn:E; [| discriminate].
    inversion H; subst. destruct x as [| k xs]; [reflexivity |].
    cbn [FS.lookup]. rewrite assoc_set_entry.
    destruct (String.eqb_spec k n) as [-> | Hk]; [| reflexivity].
    rewrite En. apply (IH c c'); [discriminate | exact E |].
    cbn [FS.lookup] in Hfile. rewrite En in Hfile. exact Hfile.
Qed.

Lemma mkdirs_existing (t : FS.node) (ps cur abs : list string) :
  FS.walk t cur ps = Some abs ->
  FS.is_dir (FS.lookup t abs) = true ->
  IO.mkdirs t cur ps = Some t.
Proof.
  revert cur. induction ps as [| p ps IH]; intros cur Hw Hd; simpl in *.
  - inversion Hw; subst. rewrite Hd. reflexivity.
  - destruct (FS.is_dir (FS.lookup t cur)); [| discriminate].
    destruct (String.eqb p ".."); [apply IH; assumption |].
    assert (G : FS.is_dir (FS.lookup t (cur ++ [p])) = true).
    { destruct ps as [| p' ps]; simpl in Hw.
      - inversion Hw; subst. exact Hd.
      - destruct (FS.is_dir (FS.lookup t (cur ++ [p]))); [reflexivity | discriminate]. }
    destruct (FS.lookup t (cur ++ [p])); [apply IH; assumption | simpl in G; discriminate].
Qed.

(* ====================================================================== *)
(** ** Characters of a text                                               *)
(* ====================================================================== *)

Lemma split_head_no_char (c : ascii) (s : string) :
  Str.has_char c s = false -> Str.split_head c s = s.
Proof.
  induction s as [| d r IH]; simpl; [reflexivity |].
  destruct (Ascii.eqb d c); simpl; [discriminate |].
  intros H. rewrite IH; [reflexivity | exact H].
Qed.

Lemma split_head_clean (c : ascii) (s : string) :
  Str.has_char c (Str.split_head c s) = false.
Proof.
  induction s as [| d r IH]; simpl; [reflexivity |].
  destruct (Ascii.eqb d c) eqn:E; simpl; [reflexivity |].
  rewrite E. exact IH.
Qed.

Lemma split_head_keeps_clean (c c' : ascii) (s : string) :
  Str.has_char c s = false -> Str.has_char c (Str.split_head c' s) = false.
Proof.
  induction s as [| d r IH]; simpl; [reflexivity |].
  intros H. apply orb_false_elim in H. destruct H as [Hd Hr].
  destruct (Ascii.eqb d c'); simpl; [reflexivity |].
  rewrite Hd. apply IH, Hr.
Qed.

Lemma has_char_app (c : ascii) (a b : string) :
  Str.has_char c (a ++ b) = Str.has_char c a || Str.has_char c b.
Proof.
  induction a as [| d r IH]; simpl; [reflexivity |].
  rewrite IH. apply orb_assoc.
Qed.

(* ====================================================================== *)
(** ** Internal links                                                     *)
(* ====================================================================== *)

Lemma nth_error_alter_nth {A : Type} (f : A -> A) (h : nat) (l : list A) :
  nth_error (alter_nth f h l) h = option_map f (nth_error l h).
Proof. revert l. induction h as [| h IH]; intros [| x l]; simpl; auto. Qed.



(* ====================================================================== *)
(** ** Collected links                                                    *)
(* ====================================================================== *)

Lemma links_note_tag (v : HTMLStructureValidator.t) (tag : string) :
  HTMLStructureValidator.links (HTMLStructureValidator.note_tag v tag)
  = HTMLStructureValidator.links v.
Proof.
  unfold HTMLStructureValidator.note_tag.
  repeat match goal with |- context [if ?b then _ else _] => destruct b end; reflexivity.
Qed.

Lemma links_collect_asset (v : HTMLStructureValidator.t) (tag : string)
    (attrs : list (string * option string)) :
  HTMLStructureValidator.links (fst (HTMLStructureValidator.collect_asset v tag attrs))
  = HTMLStructureValidator.links v.
Proof.
  unfold HTMLStructureValidator.collect_asset.
  repeat match goal with
         | |- context [match ?x with _ => _ end] => destruct x
         end; reflexivity.
Qed.

(** What [handle_starttag] adds to the link list. *)
Lemma links_handle_starttag (v : HTMLStructureValidator.t) (tag : string)
    (attrs : list (string * option string)) :
  HTMLStructureValidator.links (fst (HTMLStructureValidator.handle_starttag v tag attrs))
  = if String.eqb (Str.lower tag) "a" then
      match Py.dict_get "href" attrs with
      | Some (Some href) =>
          if negb (String.eqb href "")
             && negb (Str.startswith_any href HTMLStructureValidator.skipped_schemes)
          then (HTMLStructureValidator.links v ++ [href])%list
          else HTMLStructureValidator.links v
      | _ => HTMLStructureValidator.links v
      end
    else HTMLStructureValidator.links v.
Proof.
  unfold HTMLStructureValidator.handle_starttag. rewrite links_collect_asset.
  unfold HTMLStructureValidator.collect_link.
  destruct (String.eqb (Str.lower tag) "a"); [| apply links_note_tag].
  destruct (Py.dict_get "href" attrs) as [[href |] |]; try apply links_note_tag.
  destruct (negb (String.eqb href "") && _); [| apply links_note_tag].
  simpl. rewrite links_note_tag. reflexivity.
Qed.

(** C9 as stated fails: the empty [href] starts with none of the four
    prefixes and is not collected. *)
Lemma empty_href_not_collected :
  Str.startswith_any "" HTMLStructureValidator.skipped_schemes = false
  /\ HTMLStructureValidator.links
       (fst (HTMLStructureValidator.handle_starttag HTMLStructureValidator.init "a"
               [("href", Some "")])) = [].
Proof. split; reflexivity. Qed.

(** The part of C9 on foreign hosts, as the code has it: the test is on
    the text of the reference, so this reference to a foreign host is
    requested. *)
Example foreign_host_naming_own_domain_is_requested :
  requests
    (exec (check_link 0 (Path.child PROJECTS_DIR "test-1") false
             "https://unrelated.example.com/clawdbot-web" (0, 0))
          (Sample.checking_page (Sample.site None Sample.two_pages) Sample.online))
  = ["https://unrelated.example.com/clawdbot-web"].
Proof. reflexivity. Qed.

(** C9, amended.  An anchor adds its [href] to the link list exactly when
    the [href] has a value that is not empty and starts with none of [#],
    [mailto:], [javascript:], [tel:]; no other tag adds a link; [#top] and
    [mailto:a@b.com] are not collected; and a collected link that starts
    with [http://], [https://] or [//] and contains neither of the two own
    domain names is skipped: no request is sent and nothing is recorded. *)
Theorem link_collection (v : HTMLStructureValidator.t) (tag : string)
    (attrs : list (string * option string)) (w : World) (h : handle)
    (page_dir : Path.t) (verbose : bool) (href : string) (counters : nat * nat) :
  (Str.lower tag = "a" ->
   HTMLStructureValidator.links (fst (HTMLStructureValidator.handle_starttag v tag attrs))
   = match Py.dict_get "href" attrs with
     | Some (Some href) =>
         if negb (String.eqb href "")
            && negb (Str.startswith_any href HTMLStructureValidator.skipped_schemes)
         then (HTMLStructureValidator.links v ++ [href])%list
         else HTMLStructureValidator.links v
     | _ => HTMLStructureValidator.links v
     end)
  /\ (Str.lower tag <> "a" ->
      HTMLStructureValidator.links (fst (HTMLStructureValidator.handle_starttag v tag attrs))
      = HTMLStructureValidator.links v)
  /\ HTMLStructureValidator.links
       (fst (HTMLStructureValidator.handle_starttag v "a" [("href", Some "#top")]))
     = HTMLStructureValidator.links v
  /\ HTMLStructureValidator.links
       (fst (HTMLStructureValidator.handle_starttag v "a" [("href", Some "mailto:a@b.com")]))
     = HTMLStructureValidator.links v
  /\ (Str.startswith_any href remote_schemes = true ->
      mentions_own_domain href = false ->
      check_link h page_dir verbose href counters w = (Ok counters, w))
  /\ check_link h page_dir verbose "https://unrelated.example.com/x" counters w
     = (Ok counters, w).
Proof.
  split; [| split; [| split; [| split; [| split]]]].
  - intros Ha. rewrite links_handle_starttag, Ha. reflexivity.
  - intros Ha. rewrite links_handle_starttag.
    destruct (String.eqb_spec (Str.lower tag) "a"); [contradiction | reflexivity].
  - rewrite links_handle_starttag. reflexivity.
  - rewrite links_handle_starttag. reflexivity.
  - intros Hremote Hown. unfold check_link. destruct counters as [checked broken].
    rewrite Hremote. unfold mentions_own_domain in Hown.
    apply orb_false_elim in Hown. destruct Hown as [-> ->]. reflexivity.
  - destruct counters as [checked broken]. reflexivity.
Qed.

(** C9 at a sample: an anchor with a plain [href] is collected, a
    stylesheet link is not, and a foreign link is skipped without a
    request. *)
Lemma link_collection_witness :
  let v := HTMLStructureValidator.init in
  let w := Sample.checking_page (Sample.site None Sample.two_pages) Sample.offline in
  (Str.lower "A" = "a" /\ Str.lower "link" <> "a"
   /\ Str.startswith_any "//cdn.example.org/page" remote_schemes = true
   /\ mentions_own_domain "//cdn.example.org/page" = false)
  /\ HTMLStructureValidator.links
       (fst (HTMLStructureValidator.handle_starttag v "A" [("href", Some "a.html")]))
     = ["a.html"]
  /\ HTMLStructureValidator.links
       (fst (HTMLStructureValidator.handle_starttag v "link" [("href", Some "a.css")]))
     = []
  /\ check_link 0 (Path.child PROJECTS_DIR "test-1") false "//cdn.example.org/page" (0, 0) w
     = (Ok (0, 0), w).
Proof.
  intros v w.
  split; [repeat split; discriminate |].
  destruct (link_collection v "A" [("href", Some "a.html")] w 0
              (Path.child PROJECTS_DIR "test-1") false "//cdn.example.org/page" (0, 0))
    as (H1 & _ & _ & _ & H5 & _).
  destruct (link_collection v "link" [("href", Some "a.css")] w 0
              (Path.child PROJECTS_DIR "test-1") false "//cdn.example.org/page" (0, 0))
    as (_ & H2 & _).
  split; [exact (H1 eq_refl) |].
  split; [apply H2; discriminate |].
  exact (H5 eq_refl eq_refl).
Defined.

(* ====================================================================== *)
(** ** Running a computation step by step                                 *)
(* ====================================================================== *)

Lemma bind_run {A B : Type} (m : M A) (k : A -> M B) (w : World) (a : A) :
  run m w = Ok a -> bind m k w = k a (exec m w).
Proof. unfold run, exec, bind. destruct (m w) as [[x | e] w']; simpl; congruence. Qed.

Lemma run_ret {A : Type} (a : A) (w : World) : run (ret a) w = Ok a.
Proof. reflexivity. Qed.

Lemma exec_ret {A : Type} (a : A) (w : World) : exec (ret a) w = w.
Proof. reflexivity. Qed.

Lemma run_raise {A : Type} (e : exn) (w : World) : run (@raise A e) w = Raised e.
Proof. reflexivity. Qed.

Lemma exec_raise {A : Type} (e : exn) (w : World) : exec (@raise A e) w = w.
Proof. reflexivity. Qed.

Lemma run_gets {A : Type} (f : World -> A) (w : World) : run (gets f) w = Ok (f w).
Proof. reflexivity. Qed.

Lemma exec_gets {A : Type} (f : World -> A) (w : World) : exec (gets f) w = w.
Proof. reflexivity. Qed.

Lemma run_when (b : bool) (m : M unit) (w : World) :
  run (when b m) w = if b then run m w else Ok tt.
Proof. destruct b; reflexivity. Qed.

Lemma exec_when (b : bool) (m : M unit) (w : World) :
  exec (when b m) w = if b then exec m w else w.
Proof. destruct b; reflexivity. Qed.

Lemma run_on_result (h : handle) (f : CheckResult.t -> CheckResult.t) (w : World) :
  run (on_result h f) w = Ok tt.
Proof. reflexivity. Qed.

Lemma run_exists (p : Path.t) (w : World) :
  run (IO.exists_ p) w = Ok (match IO.stat w p with Some _ => true | None => false end).
Proof. reflexivity. Qed.

Lemma exec_exists (p : Path.t) (w : World) : exec (IO.exists_ p) w = w.
Proof. reflexivity. Qed.

Lemma run_is_dir (p : Path.t) (w : World) :
  run (IO.is_dir p) w = Ok (FS.is_dir (IO.stat w p)).
Proof. reflexivity. Qed.

Lemma exec_is_dir (p : Path.t) (w : World) : exec (IO.is_dir p) w = w.
Proof. reflexivity. Qed.

Lemma run_st_size (p : Path.t) (w : World) :
  run (IO.st_size p) w
  = match IO.stat w p with
    | Some n => Ok (FS.st_size n)
    | None => Raised (Py.FileNotFoundError (Path.to_string p))
    end.
Proof. unfold run, IO.st_size, bind, gets. destruct (IO.stat w p); reflexivity. Qed.

Lemma exec_st_size (p : Path.t) (w : World) : exec (IO.st_size p) w = w.
Proof. unfold exec, IO.st_size, bind, gets. destruct (IO.stat w p); reflexivity. Qed.

Lemma run_read_text (p : Path.t) (w : World) :
  run (IO.read_text p) w
  = match IO.stat w p with
    | Some (FS.File s) => Ok s
    | Some (FS.Dir _) => Raised (Py.IsADirectoryError (Path.to_string p))
    | None => Raised (Py.FileNotFoundError (Path.to_string p))
    end.
Proof.
  unfold run, IO.read_text, bind, gets. destruct (IO.stat w p) as [[s | es] |]; reflexivity.
Qed.

Lemma exec_read_text (p : Path.t) (w : World) : exec (IO.read_text p) w = w.
Proof.
  unfold exec, IO.read_text, bind, gets. destruct (IO.stat w p) as [[s | es] |]; reflexivity.
Qed.

Lemma run_http_get (url : string) (w : World) : run (http_get url) w = Ok (net w url).
Proof. reflexivity. Qed.

Lemma run_report_add (c : CheckResult.t) (w : World) :
  run (report_add c) w = Ok (List.length (QAReport.results (report w))).
Proof. reflexivity. Qed.

(** What the steps leave alone. *)

Lemma stat_on_result (h : handle) (f : CheckResult.t -> CheckResult.t) (w : World)
    (p : Path.t) :
  IO.stat (exec (on_result h f) w) p = IO.stat w p.
Proof. reflexivity. Qed.

Lemma stat_report_add (c : CheckResult.t) (w : World) (p : Path.t) :
  IO.stat (exec (report_add c) w) p = IO.stat w p.
Proof. reflexivity. Qed.

Lemma stat_http_get (url : string) (w : World) (p : Path.t) :
  IO.stat (exec (http_get url) w) p = IO.stat w p.
Proof. reflexivity. Qed.

Lemma stat_count_fix (w : World) (p : Path.t) : IO.stat (exec count_fix w) p = IO.stat w p.
Proof. reflexivity. Qed.

Lemma tree_on_result (h : handle) (f : CheckResult.t -> CheckResult.t) (w : World) :
  tree (exec (on_result h f) w) = tree w.
Proof. reflexivity. Qed.

Lemma tree_report_add (c : CheckResult.t) (w : World) :
  tree (exec (report_add c) w) = tree w.
Proof. reflexivity. Qed.

Lemma tree_http_get (url : string) (w : World) : tree (exec (http_get url) w) = tree w.
Proof. reflexivity. Qed.

Lemma requests_on_result (h : handle) (f : CheckResult.t -> CheckResult.t) (w : World) :
  requests (exec (on_result h f) w) = requests w.
Proof. reflexivity. Qed.

Lemma requests_report_add (c : CheckResult.t) (w : World) :
  requests (exec (report_add c) w) = requests w.
Proof. reflexivity. Qed.

Lemma requests_http_get (url : string) (w : World) :
  requests (exec (http_get url) w) = (requests w ++ [url])%list.
Proof. reflexivity. Qed.

Lemma net_on_result (h : handle) (f : CheckResult.t -> CheckResult.t) (w : World) :
  net (exec (on_result h f) w) = net w.
Proof. reflexivity. Qed.

Lemma net_report_add (c : CheckResult.t) (w : World) :
  net (exec (report_add c) w) = net w.
Proof. reflexivity. Qed.

Lemma net_http_get (url : string) (w : World) : net (exec (http_get url) w) = net w.
Proof. reflexivity. Qed.

Lemma fixes_on_result (h : handle) (f : CheckResult.t -> CheckResult.t) (w : World) :
  QAReport.fixes_applied (report (exec (on_result h f) w))
  = QAReport.fixes_applied (report w).
Proof. reflexivity. Qed.

Lemma result_at_report_add (c : CheckResult.t) (w : World) :
  result_at (exec (report_add c) w) (List.length (QAReport.results (report w))) = Some c.
Proof.
  unfold result_at, exec, report_add. simpl.
  rewrite nth_error_app2, Nat.sub_diag; [reflexivity | apply Nat.le_refl].
Qed.

Lemma result_at_http_get (url : string) (w : World) (h : handle) :
  result_at (exec (http_get url) w) h = result_at w h.
Proof. reflexivity. Qed.

Lemma result_at_count_fix (w : World) (h : handle) :
  result_at (exec count_fix w) h = result_at w h.
Proof. reflexivity. Qed.

Create Rewrite HintDb run.
#[export] Hint Rewrite @run_bind @exec_bind @run_ret @exec_ret @run_raise @exec_raise
  @run_gets @exec_gets run_when exec_when run_on_result run_exists exec_exists
  run_is_dir exec_is_dir run_st_size exec_st_size run_read_text exec_read_text
  run_http_get run_report_add
  stat_on_result stat_report_add stat_http_get stat_count_fix
  tree_on_result tree_report_add tree_http_get
  requests_on_result requests_report_add requests_http_get
  net_on_result net_report_add net_http_get fixes_on_result
  result_at_on_result result_at_report_add result_at_http_get result_at_count_fix
  : run.

(** Rewrites with the equations above until nothing moves. *)
Ltac step := repeat (autorewrite with run; cbv beta iota).

(* ====================================================================== *)
(** ** Manifest entries                                                   *)
(* ====================================================================== *)

Section Entries.

Context {lib : PyLib}.

Lemma run_check_required_fields (h : handle) (i : nat) (d : list (string * pyval))
    (w : World) :
  run (check_required_fields h i d) w = Ok tt.
Proof.
  unfold check_required_fields, required_fields, result_warn. cbn [for_each]. step.
  destruct (has_key "name" d), (has_key "file" d); reflexivity.
Qed.

Lemma stat_check_required_fields (h : handle) (i : nat) (d : list (string * pyval))
    (w : World) (p : Path.t) :
  IO.stat (exec (check_required_fields h i d) w) p = IO.stat w p.
Proof.
  unfold check_required_fields, required_fields, result_warn. cbn [for_each]. step.
  destruct (has_key "name" d), (has_key "file" d); reflexivity.
Qed.

Lemma result_at_check_required_fields (h : handle) (i : nat)
    (d : list (string * pyval)) (w : World) :
  result_at (exec (check_required_fields h i d) w) h
  = option_map (fun r => apply_calls r (missing_calls i d)) (result_at w h).
Proof.
  unfold check_required_fields, missing_calls, required_fields, result_warn.
  cbn [for_each flat_map]. step.
  destruct (has_key "name" d), (has_key "file" d); cbn [negb app]; step;
    destruct (result_at w h); reflexivity.
Qed.

Lemma st_size_zero (n : FS.node) : FS.st_size n = 0 <-> n = FS.File "".
Proof.
  destruct n as [[| c s] | es]; simpl; split; intros H;
    try reflexivity; try discriminate.
Qed.


End Entries.

(** The sample runs use the reference library. *)
#[local] Existing Instance Ref.lib.


(* ====================================================================== *)
(** ** Writing a file                                                     *)
(* ====================================================================== *)

(** Where a path that leads somewhere passes through. *)
Lemma stat_split (w : World) (p : Path.t) (init : list string) (last : string)
    (n : FS.node) :
  Path.parts p = (init ++ [last])%list ->
  String.eqb last ".." = false ->
  IO.stat w p = Some n ->
  exists mid,
    FS.walk (tree w) (IO.start w p) init = Some mid
    /\ FS.is_dir (FS.lookup (tree w) mid) = true
    /\ FS.lookup (tree w) (mid ++ [last]) = Some n.
Proof.
  intros Hparts Hlast Hstat. unfold IO.stat, IO.locate in Hstat.
  rewrite Hparts, walk_app in Hstat.
  destruct (FS.walk (tree w) (IO.start w p) init) as [mid |]; [| discriminate].
  simpl in Hstat. destruct (FS.is_dir (FS.lookup (tree w) mid)) eqn:E; [| discriminate].
  rewrite Hlast in Hstat. exists mid. auto.
Qed.

(** Writing a file into an existing directory, where no directory
    stands: the call returns, the file is there afterwards, and every
    directory is as before. *)
Lemma write_text_ok (w : World) (p : Path.t) (s : string) (init : list string)
    (last : string) (mid : list string) :
  Path.parts p = (init ++ [last])%list ->
  String.eqb last ".." = false ->
  FS.walk (tree w) (IO.start w p) init = Some mid ->
  FS.is_dir (FS.lookup (tree w) mid) = true ->
  FS.is_dir (FS.lookup (tree w) (mid ++ [last])) = false ->
  exists t',
    IO.write_text p s w = (Ok tt, set_tree t' w)
    /\ IO.stat (set_tree t' w) p = Some (FS.File s)
    /\ (forall x, FS.is_dir (FS.lookup t' x) = FS.is_dir (FS.lookup (tree w) x)).
Proof.
  intros Hparts Hlast Hwalk Hmid Hfile.
  destruct (update_in_dir (tree w) mid last (FS.File s) Hmid) as [t' Ht'].
  assert (Hdirs : forall x, FS.is_dir (FS.lookup t' x) = FS.is_dir (FS.lookup (tree w) x)).
  { apply (update_file_dirs (tree w) t' (mid ++ [last])%list s);
      [destruct mid; discriminate | exact Ht' | exact Hfile]. }
  assert (Hloc : FS.walk (tree w) (IO.start w p) (Path.parts p) = Some (mid ++ [last])%list).
  { rewrite Hparts, walk_app, Hwalk. simpl. rewrite Hmid, Hlast. reflexivity. }
  exists t'. split; [| split; [| exact Hdirs]].
  - unfold IO.write_text, IO.stat, IO.locate. rewrite Hloc.
    assert (Hp : Path.parts (Path.parent p) = init).
    { unfold Path.parent. simpl. rewrite Hparts. apply removelast_last. }
    rewrite Hp.
    assert (Hs : IO.start w (Path.parent p) = IO.start w p) by reflexivity.
    rewrite Hs, Hwalk, Hmid.
    assert (Hn : Path.name p = last).
    { unfold Path.name. rewrite Hparts. apply last_last. }
    rewrite Hn, Hlast, Ht'. simpl.
    destruct (Path.parts p) eqn:E; [destruct init; discriminate |].
    destruct (FS.lookup (tree w) (mid ++ [last])) as [[c | es] |]; try reflexivity.
    discriminate.
  - unfold IO.stat, IO.locate. simpl.
    change (IO.start (set_tree t' w) p) with (IO.start w p).
    rewrite (walk_same_dirs (tree w) t' _ _ Hdirs), Hloc.
    apply (update_lookup _ _ _ _ Ht').
Qed.

(* ====================================================================== *)
(** ** Repair of the manifest                                             *)
(* ====================================================================== *)

Section Repair.
Context {lib : PyLib}.

Lemma strip_length (s : string) : s <> "" -> Nat.eqb (String.length s) 0 = false.
Proof. destruct s; [congruence | reflexivity]. Qed.

Lemma outcome_either {A B : Type} (o : Outcome A) (x : B) :
  match o with Ok _ => x | Raised _ => x end = x.
Proof. destruct o; reflexivity. Qed.

Lemma write_existing_file (w : World) (p : Path.t) (s old : string)
    (init : list string) (last : string) :
  Path.parts p = (init ++ [last])%list ->
  String.eqb last ".." = false ->
  IO.stat w p = Some (FS.File old) ->
  exists t',
    IO.write_text p s w = (Ok tt, set_tree t' w)
    /\ IO.stat (set_tree t' w) p = Some (FS.File s)
    /\ (forall x, FS.is_dir (FS.lookup t' x) = FS.is_dir (FS.lookup (tree w) x)).
Proof.
  intros Hparts Hlast Hstat.
  destruct (stat_split w p init last _ Hparts Hlast Hstat) as (mid & Hwalk & Hmid & Hfile).
  apply (write_text_ok w p s init last mid); auto.
  rewrite Hfile. reflexivity.
Qed.

Lemma stat_py_len (v : pyval) (w : World) (p : Path.t) :
  IO.stat (exec (py_len v) w) p = IO.stat w p.
Proof. destruct v; reflexivity. Qed.

(** C3.  For a manifest whose text is not JSON, checked with auto-fix:
    when the patched text is not JSON either, the check ends with status
    FAIL and the file tree is as it was; whenever the tree has changed,
    the patched text was read successfully, and the manifest then holds
    the value that was read. *)
Theorem repair_persists_only_if_reparse (w : World) (raw : string) (verbose : bool)
    (e : string) :
  IO.stat w INDEX_JSON = Some (FS.File raw) ->
  Str.strip raw <> "" ->
  json_loads raw = inr e ->
  let m := check_index_json verbose true in
  let h := List.length (QAReport.results (report w)) in
  match json_loads (patched raw) with
  | inr _ =>
      run m w = Ok h
      /\ tree (exec m w) = tree w
      /\ result_at (exec m w) h
         = Some (CheckResult.fail
                   (CheckResult.fail (CheckResult.init "index.json validation" "data")
                      ("Invalid JSON: " ++ e))
                   "Could not auto-repair JSON")
  | inl data =>
      IO.stat (exec m w) INDEX_JSON = Some (FS.File (json_dumps data ++ newline))
  end
  /\ (tree (exec m w) <> tree w -> exists data, json_loads (patched raw) = inl data).
Proof.
  intros Hstat Hstrip Hraw m h.
  assert (Hm : match json_loads (patched raw) with
  | inr _ =>
      run m w = Ok h
      /\ tree (exec m w) = tree w
      /\ result_at (exec m w) h
         = Some (CheckResult.fail
                   (CheckResult.fail (CheckResult.init "index.json validation" "data")
                      ("Invalid JSON: " ++ e))
                   "Could not auto-repair JSON")
  | inl data =>
      IO.stat (exec m w) INDEX_JSON = Some (FS.File (json_dumps data ++ newline))
  end).
  { set (w1 := exec (report_add (CheckResult.init "index.json validation" "data")) w).
    set (w2 := exec (result_fail h ("Invalid JSON: " ++ e)) w1).
    assert (Eq : m w = bind (_fix_broken_json h raw) (fun _ => ret h) w2).
    { unfold m, check_index_json.
      rewrite (bind_run _ _ w h) by reflexivity. fold w1.
      rewrite (bind_run _ _ w1 true)
        by (rewrite run_exists; unfold w1; rewrite stat_report_add, Hstat; reflexivity).
      rewrite exec_exists. cbn [negb]. cbv iota.
      rewrite (bind_run _ _ w1 raw)
        by (rewrite run_read_text; unfold w1; rewrite stat_report_add, Hstat; reflexivity).
      rewrite exec_read_text, (strip_length _ Hstrip), Hraw. cbv iota.
      rewrite (bind_run _ _ w1 tt) by reflexivity. reflexivity. }
    assert (Erun : run m w = run (bind (_fix_broken_json h raw) (fun _ => ret h)) w2)
      by (unfold run; rewrite Eq; reflexivity).
    assert (Eexec : exec m w = exec (bind (_fix_broken_json h raw) (fun _ => ret h)) w2)
      by (unfold exec; rewrite Eq; reflexivity).
    rewrite Erun, Eexec. clear Eq Erun Eexec.
    unfold _fix_broken_json.
    destruct (json_loads (patched raw)) as [data | e'].
    - rewrite exec_bind, outcome_either.
      destruct (write_existing_file w2 INDEX_JSON (json_dumps data ++ newline) raw
                  ["public"; "clawdbot"; "projects"] "index.json" eq_refl eq_refl Hstat)
        as (t' & Hwrite & Hnew & _).
      rewrite exec_bind. unfold run at 1. unfold exec at 2. rewrite Hwrite.
      cbn [fst snd]. rewrite exec_bind.
      destruct (run (py_len data) _); unfold result_fixed;
        rewrite ?stat_on_result, stat_py_len; exact Hnew.
    - unfold w2, w1, h, result_fail. step. auto. }
  split; [exact Hm |].
  intros Hchanged. destruct (json_loads (patched raw)) as [data | e'].
  - exists data. reflexivity.
  - destruct Hm as (_ & Hsame & _). contradiction.
Qed.
End Repair.

(** C3 at a sample: a manifest that the patch does not repair. *)
Lemma repair_persists_only_if_reparse_witness :
  let t := Sample.site (Some Sample.manifest_hopeless) Sample.two_pages in
  let w := Sample.start t Sample.offline in
  let m := check_index_json false true in
  (IO.stat w INDEX_JSON = Some (FS.File Sample.manifest_hopeless)
   /\ Str.strip Sample.manifest_hopeless <> ""
   /\ json_loads Sample.manifest_hopeless = inr "Expecting value")
  /\ json_loads (patched Sample.manifest_hopeless) = inr "Expecting value"
  /\ run m w = Ok 0
  /\ tree (exec m w) = t
  /\ status_at (exec m w) 0 = Some "FAIL".
Proof.
  intros t w m.
  assert (H1 : IO.stat w INDEX_JSON = Some (FS.File Sample.manifest_hopeless))
    by reflexivity.
  assert (H2 : Str.strip Sample.manifest_hopeless <> "") by (vm_compute; discriminate).
  assert (H3 : json_loads Sample.manifest_hopeless = inr "Expecting value")
    by reflexivity.
  assert (H4 : json_loads (patched Sample.manifest_hopeless) = inr "Expecting value")
    by reflexivity.
  split; [auto |]. split; [exact H4 |].
  destruct (repair_persists_only_if_reparse w Sample.manifest_hopeless false
              "Expecting value" H1 H2 H3) as [H _].
  rewrite H4 in H. destruct H as (Hrun & Htree & Hres).
  split; [exact Hrun |]. split; [exact Htree |].
  exact (f_equal (option_map CheckResult.status) Hres).
Defined.

(* ====================================================================== *)
(** ** Sample runs of [main] and of the checks                            *)
(* ====================================================================== *)

(** C1 at a sample: the web server is down, the run ends with status 1. *)
Lemma exit_status_reflects_failures_witness :
  let w := Sample.start (Sample.site (Some Sample.manifest) Sample.two_pages)
                        Sample.offline in
  let args := Args.Make false false false false in
  run (main Sample.no_report_page args) w = Ok 1%Z
  /\ QAReport.all_passed (report (exec (main Sample.no_report_page args) w)) = false
  /\ exit_status (run (main Sample.no_report_page args) w) = 1%Z.
Proof.
  intros w args.
  assert (H : run (main Sample.no_report_page args) w = Ok 1%Z) by (vm_compute; reflexivity).
  split; [exact H |].
  destruct (exit_status_reflects_failures Sample.no_report_page args w 1%Z H)
    as (_ & _ & Hcode & Hexit).
  split; [| exact Hexit].
  destruct (QAReport.all_passed _); [discriminate Hcode | reflexivity].
Defined.

(** C10 at a sample: the state after the manifest check and the page
    check, both with auto-fix. *)
Lemma summary_counts_partition_witness :
  let w0 := Sample.start (Sample.site None Sample.two_pages) Sample.online in
  let w := exec (check_project_pages false true) (exec (check_index_json false true) w0) in
  reachable w
  /\ report_valid (report w)
  /\ QAReport.total (report w)
     = QAReport.passed (report w) + QAReport.failed (report w)
       + QAReport.warnings (report w) + QAReport.fixed (report w).
Proof.
  intros w0 w.
  assert (H : reachable w).
  { apply reach_project_pages, reach_index_json. apply reach_start. }
  split; [exact H | exact (summary_counts_partition w H)].
Defined.

(* ====================================================================== *)
(** ** The placeholder page                                               *)
(* ====================================================================== *)

Lemma split_on_no_sep (c : ascii) (a : string) :
  Str.has_char c a = false -> Str.split_on c a = [a].
Proof.
  induction a as [| d r IH]; simpl; [reflexivity |].
  intros H. apply orb_false_elim in H. destruct H as [Hd Hr].
  rewrite Hd, (IH Hr). reflexivity.
Qed.

Lemma split_on_app_sep (c : ascii) (a b : string) :
  Str.has_char c a = false ->
  Str.split_on c (a ++ String c b) = a :: Str.split_on c b.
Proof.
  induction a as [| d r IH]; simpl.
  - intros _. rewrite Ascii.eqb_refl. reflexivity.
  - intros H. apply orb_false_elim in H. destruct H as [Hd Hr].
    rewrite Hd, (IH Hr). reflexivity.
Qed.

Lemma plain_name_facts (name : string) :
  plain_name name = true ->
  Str.has_char "/" name = false /\ Str.has_char "?" name = false
  /\ Str.has_char "#" name = false /\ Path.is_component name = true
  /\ String.eqb name ".." = false.
Proof.
  unfold plain_name, Path.is_component. intros H.
  repeat (apply andb_prop in H; destruct H as [H ?]).
  repeat match goal with
         | H : negb ?b = true |- _ => apply negb_true_iff in H
         end.
  repeat split; try assumption.
  apply negb_true_iff, orb_false_intro; assumption.
Qed.

(** Where the link of the placeholder leads. *)
Lemma placeholder_link_target (name : string) :
  plain_name name = true ->
  local_target (Path.child PROJECTS_DIR name) "../"
  = Path.Make "" ["public"; "clawdbot"; "projects"; name; ".."].
Proof.
  intros H. apply plain_name_facts in H. destruct H as (Hs & Hq & Hh & Hc & _).
  unfold local_target.
  change (Str.startswith "../" "/") with false. cbv iota.
  change (Path.to_string (Path.child PROJECTS_DIR name // "../"))
    with ("public/clawdbot/projects/" ++ name ++ "/..").
  assert (Hclean : forall c, Str.has_char c name = false ->
             Str.has_char c "public/clawdbot/projects/" = false ->
             Str.has_char c "/.." = false ->
             Str.has_char c ("public/clawdbot/projects/" ++ name ++ "/..") = false).
  { intros c H1 H2 H3. rewrite !has_char_app, H1, H2, H3. reflexivity. }
  rewrite (split_head_no_char "?"), (split_head_no_char "#"); auto.
  unfold Path.of_string.
  change ("public/clawdbot/projects/" ++ name ++ "/..")
    with ("public" ++ String "/" ("clawdbot" ++ String "/" ("projects" ++ String "/"
            (name ++ String "/" "..")))).
  rewrite !split_on_app_sep, split_on_no_sep; auto.
  cbn [filter]. rewrite Hc. reflexivity.
Qed.

Example placeholder_tags_example :
  start_tags (fst (Ref.html_tokens (placeholder "7"))) = placeholder_tags
  /\ snd (Ref.html_tokens (placeholder "7")) = None.
Proof. split; reflexivity. Qed.

Lemma facts_note_tag (v v' : HTMLStructureValidator.t) (tag : string) :
  facts v = facts v' ->
  facts (HTMLStructureValidator.note_tag v tag)
  = facts (HTMLStructureValidator.note_tag v' tag).
Proof.
  unfold facts. intros H. inversion H as [[H1 H2 H3 H4 H5 H6]]. clear H.
  unfold HTMLStructureValidator.note_tag.
  repeat match goal with |- context [if ?b then _ else _] => destruct b end;
    simpl; rewrite ?H1, ?H2, ?H3, ?H4, ?H5, ?H6; reflexivity.
Qed.

Lemma facts_collect_link (v v' : HTMLStructureValidator.t) (tag : string)
    (attrs : list (string * option string)) :
  facts v = facts v' ->
  facts (HTMLStructureValidator.collect_link v tag attrs)
  = facts (HTMLStructureValidator.collect_link v' tag attrs).
Proof.
  unfold facts. intros H. inversion H as [[H1 H2 H3 H4 H5 H6]].
  unfold HTMLStructureValidator.collect_link.
  destruct (String.eqb tag "a"); [| exact H].
  destruct (Py.dict_get "href" attrs) as [[href |] |]; try exact H.
  destruct (negb (String.eqb href "") && _); [| exact H].
  simpl. rewrite H1, H2, H3, H4, H5, H6. reflexivity.
Qed.

Lemma facts_collect_asset (v v' : HTMLStructureValidator.t) (tag : string)
    (attrs : list (string * option string)) :
  facts v = facts v' ->
  facts (fst (HTMLStructureValidator.collect_asset v tag attrs))
  = facts (fst (HTMLStructureValidator.collect_asset v' tag attrs))
  /\ snd (HTMLStructureValidator.collect_asset v tag attrs)
     = snd (HTMLStructureValidator.collect_asset v' tag attrs).
Proof.
  unfold facts. intros H. inversion H as [[H1 H2 H3 H4 H5 H6]].
  unfold HTMLStructureValidator.collect_asset.
  destruct (HTMLStructureValidator.is_stylesheet tag attrs) as [[|] | e];
    [destruct (Py.dict_get "href" attrs) as [[href |] |];
       [destruct (String.eqb href "") | |]
    | destruct (String.eqb tag "script"), (Py.dict_get "src" attrs) as [src |],
        (String.eqb tag "img")
    | ];
    simpl; rewrite ?H1, ?H2, ?H3, ?H4, ?H5, ?H6; split; reflexivity.
Qed.

Lemma facts_starttag (v v' : HTMLStructureValidator.t) (tag : string)
    (attrs : list (string * option string)) :
  facts v = facts v' ->
  facts (fst (HTMLStructureValidator.handle_starttag v tag attrs))
  = facts (fst (HTMLStructureValidator.handle_starttag v' tag attrs))
  /\ snd (HTMLStructureValidator.handle_starttag v tag attrs)
     = snd (HTMLStructureValidator.handle_starttag v' tag attrs).
Proof.
  intros H. unfold HTMLStructureValidator.handle_starttag.
  apply facts_collect_asset, facts_collect_link, facts_note_tag, H.
Qed.

Lemma facts_endtag (v : HTMLStructureValidator.t) (tag : string) :
  facts (HTMLStructureValidator.handle_endtag v tag) = facts v.
Proof. unfold HTMLStructureValidator.handle_endtag. destruct (String.eqb _ _); reflexivity. Qed.

Lemma facts_data (v : HTMLStructureValidator.t) (data : string) :
  facts (HTMLStructureValidator.handle_data v data) = facts v.
Proof.
  unfold HTMLStructureValidator.handle_data.
  destruct (HTMLStructureValidator.in_title v); reflexivity.
Qed.

(** What the handlers record depends on the start tags only. *)
Lemma dispatch_start_tags (events : list html_event) (v v' : HTMLStructureValidator.t) :
  facts v = facts v' ->
  facts (fst (HTMLStructureValidator.dispatch v events))
  = facts (fst (HTMLStructureValidator.dispatch v'
                  (map (fun ta => StartTag (fst ta) (snd ta)) (start_tags events))))
  /\ snd (HTMLStructureValidator.dispatch v events)
     = snd (HTMLStructureValidator.dispatch v'
              (map (fun ta => StartTag (fst ta) (snd ta)) (start_tags events))).
Proof.
  revert v v'. induction events as [| ev events IH]; intros v v' H; [split; [exact H | reflexivity] |].
  destruct ev as [tag attrs | tag | data]; cbn [start_tags flat_map app map fst snd HTMLStructureValidator.dispatch].
  - destruct (facts_starttag v v' tag attrs H) as [Hf He].
    destruct (HTMLStructureValidator.handle_starttag v tag attrs) as [v1 [e1 |]];
      destruct (HTMLStructureValidator.handle_starttag v' tag attrs) as [v1' [e1' |]];
      simpl in *; try discriminate; auto.
  - apply IH. rewrite facts_endtag. exact H.
  - apply IH. rewrite facts_data. exact H.
Qed.


Section Placeholder.

Context {lib : PyLib}.

Lemma feed_placeholder (text : string) :
  Re.search_doctype text = true ->
  snd (html_tokens text) = None ->
  start_tags (fst (html_tokens text)) = placeholder_tags ->
  exists v,
    HTMLStructureValidator.feed HTMLStructureValidator.init text = (v, None)
    /\ HTMLStructureValidator.has_doctype v = true
    /\ HTMLStructureValidator.has_html v = true
    /\ HTMLStructureValidator.has_head v = true
    /\ HTMLStructureValidator.has_body v = true
    /\ HTMLStructureValidator.links v = ["../"]
    /\ HTMLStructureValidator.asset_refs v = [].
Proof.
  intros Hdoc Hnone Htags. unfold HTMLStructureValidator.feed. rewrite Hdoc.
  destruct (html_tokens text) as [events broken]. simpl in Hnone, Htags. subst broken.
  destruct (dispatch_start_tags events
              (HTMLStructureValidator.set_doctype HTMLStructureValidator.init)
              (HTMLStructureValidator.set_doctype HTMLStructureValidator.init) eq_refl)
    as [Hf He].
  rewrite Htags in Hf, He.
  destruct (HTMLStructureValidator.dispatch _ events) as [v e].
  cbn [fst snd] in Hf, He.
  match type of He with _ = ?rhs =>
    assert (R : rhs = None) by (vm_compute; reflexivity); rewrite R in He; clear R end.
  match type of Hf with _ = ?rhs =>
    assert (R : rhs = (true, true, true, true, ["../"], [])) by (vm_compute; reflexivity);
    rewrite R in Hf; clear R end.
  subst e. exists v. split; [reflexivity |].
  unfold facts in Hf. inversion Hf. auto 10.
Qed.

End Placeholder.

(* ====================================================================== *)
(** ** The placeholder fix and the next run                               *)
(* ====================================================================== *)

Section Recheck.

Context {lib : PyLib}.

Lemma strip_nonspace (c : ascii) (s : string) :
  Str.isspace c = false -> Nat.eqb (String.length (Str.strip (String c s))) 0 = false.
Proof.
  intros H. unfold Str.strip. simpl. rewrite H. simpl.
  destruct (Str.rstrip s); [rewrite H |]; reflexivity.
Qed.

Lemma strip_placeholder (num : string) :
  Nat.eqb (String.length (Str.strip (placeholder num))) 0 = false.
Proof. apply strip_nonspace. reflexivity. Qed.

(** The page directory of an item. *)
Lemma page_dir_split (w : World) (name : string) :
  plain_name name = true ->
  FS.is_dir (IO.stat w (Path.child PROJECTS_DIR name)) = true ->
  exists mid,
    FS.walk (tree w) (cwd w) ["public"; "clawdbot"; "projects"] = Some mid
    /\ FS.is_dir (FS.lookup (tree w) mid) = true
    /\ FS.is_dir (FS.lookup (tree w) (mid ++ [name])) = true
    /\ IO.stat w (index_file name) = FS.lookup (tree w) (mid ++ [name; "index.html"]).
Proof.
  intros Hname Hdir. apply plain_name_facts in Hname.
  destruct Hname as (_ & _ & _ & _ & Hdots).
  destruct (IO.stat w (Path.child PROJECTS_DIR name)) as [n |] eqn:E; [| discriminate].
  destruct (stat_split w (Path.child PROJECTS_DIR name)
              ["public"; "clawdbot"; "projects"] name n eq_refl Hdots E)
    as (mid & Hwalk & Hmid & Hn).
  exists mid. change (IO.start w (Path.child PROJECTS_DIR name)) with (cwd w) in Hwalk.
  split; [exact Hwalk |]. split; [exact Hmid |].
  split; [rewrite Hn; exact Hdir |].
  unfold IO.stat, IO.locate.
  change (Path.parts (index_file name))
    with (["public"; "clawdbot"; "projects"] ++ [name; "index.html"])%list.
  change (IO.start w (index_file name)) with (cwd w).
  rewrite walk_app, Hwalk. simpl. rewrite Hmid, Hdots, Hn, Hdir.
  change (mid ++ [name; "index.html"])%list with (mid ++ [name] ++ ["index.html"])%list.
  rewrite app_assoc. reflexivity.
Qed.

Lemma mkdir_existing (w : World) (p : Path.t) :
  FS.is_dir (IO.stat w p) = true -> IO.mkdir p w = (Ok tt, set_tree (tree w) w).
Proof.
  intros H. unfold IO.mkdir. unfold IO.stat, IO.locate in H.
  destruct (FS.walk (tree w) (IO.start w p) (Path.parts p)) as [abs |] eqn:E;
    [| discriminate].
  rewrite (mkdirs_existing _ _ _ _ E H). reflexivity.
Qed.

(** The placeholder fix on a page directory without a page. *)
Lemma fix_create_placeholder_ok (w : World) (h : handle) (name : string) :
  plain_name name = true ->
  FS.is_dir (IO.stat w (Path.child PROJECTS_DIR name)) = true ->
  FS.is_dir (IO.stat w (index_file name)) = false ->
  let m := _fix_create_placeholder h (index_file name) name in
  run m w = Ok tt
  /\ IO.stat (exec m w) (index_file name)
     = Some (FS.File (placeholder (Str.replace "test-" "" name)))
  /\ (forall x, FS.is_dir (FS.lookup (tree (exec m w)) x) = FS.is_dir (FS.lookup (tree w) x))
  /\ cwd (exec m w) = cwd w
  /\ result_at (exec m w) h
     = option_map (fun r => CheckResult.fixed r
                              ("Created placeholder " ++ Path.to_string (index_file name)))
                  (result_at w h)
  /\ QAReport.fixes_applied (report (exec m w)) = QAReport.fixes_applied (report w) + 1.
Proof.
  intros Hname Hdir Hfile m.
  destruct (page_dir_split w name Hname Hdir) as (mid & Hwalk & Hmid & Hpage & Hindex).
  assert (Hmk : IO.mkdir (Path.parent (index_file name)) w = (Ok tt, set_tree (tree w) w)).
  { apply mkdir_existing. exact Hdir. }
  set (wa := set_tree (tree w) w) in *.
  destruct (write_text_ok wa (index_file name) (placeholder (Str.replace "test-" "" name))
              ["public"; "clawdbot"; "projects"; name] "index.html" (mid ++ [name])%list)
    as (t' & Hwrite & Hnew & Hdirs).
  - reflexivity.
  - reflexivity.
  - change (FS.walk (tree w) (cwd w) (["public"; "clawdbot"; "projects"] ++ [name])%list
            = Some (mid ++ [name])%list).
    rewrite walk_app, Hwalk. simpl. rewrite Hmid.
    apply plain_name_facts in Hname. destruct Hname as (_ & _ & _ & _ & ->). reflexivity.
  - exact Hpage.
  - rewrite Hindex in Hfile. rewrite <- app_assoc. exact Hfile.
  - assert (Hm : m w = (Ok tt,
                        exec count_fix
                          (exec (result_fixed h ("Created placeholder "
                                                 ++ Path.to_string (index_file name)))
                                (set_tree t' wa)))).
    { unfold m, _fix_create_placeholder, bind. rewrite Hmk, Hwrite. reflexivity. }
    unfold run, exec at 1 2 3 4 5. rewrite Hm. cbn [fst snd].
    split; [reflexivity |]. split; [exact Hnew |]. split; [exact Hdirs |].
    split; [reflexivity |]. split; [| reflexivity].
    unfold result_fixed. rewrite result_at_count_fix, result_at_on_result. reflexivity.
Qed.

Lemma placeholder_link_exists (w : World) (name : string) :
  plain_name name = true ->
  FS.is_dir (IO.stat w (Path.child PROJECTS_DIR name)) = true ->
  FS.is_dir (IO.stat w (Path.Make "" ["public"; "clawdbot"; "projects"; name; ".."])) = true.
Proof.
  intros Hname Hdir.
  destruct (page_dir_split w name Hname Hdir) as (mid & Hwalk & Hmid & Hpage & _).
  apply plain_name_facts in Hname. destruct Hname as (_ & _ & _ & _ & Hdots).
  unfold IO.stat, IO.locate.
  change (FS.walk (tree w) _ _)
    with (FS.walk (tree w) (cwd w) (["public"; "clawdbot"; "projects"] ++ [name; ".."])%list).
  rewrite walk_app, Hwalk. simpl. rewrite Hmid, Hdots, Hpage, removelast_last. exact Hmid.
Qed.

Lemma benign_ret {A : Type} (h : handle) (a : A) (w : World) : benign h (ret a) a w.
Proof. repeat split. Qed.

Lemma benign_gets {A : Type} (h : handle) (f : World -> A) (w : World) :
  benign h (gets f) (f w) w.
Proof. repeat split. Qed.

Lemma benign_keep (h : handle) (f : CheckResult.t -> CheckResult.t) (w : World) :
  (forall r, CheckResult.status (f r) = CheckResult.status r) ->
  benign h (on_result h f) tt w.
Proof.
  intros Hf. repeat split. unfold status_at. rewrite result_at_on_result.
  destruct (result_at w h); simpl; [rewrite Hf |]; reflexivity.
Qed.

Lemma benign_ok (h : handle) (msg : string) (w : World) : benign h (result_ok h msg) tt w.
Proof. apply benign_keep. reflexivity. Qed.

Lemma benign_info (h : handle) (msg : string) (w : World) :
  benign h (result_info h msg) tt w.
Proof. apply benign_keep. reflexivity. Qed.

Lemma benign_when (h : handle) (b : bool) (m : M unit) (w : World) :
  benign h m tt w -> benign h (when b m) tt w.
Proof. destruct b; [auto | intros _; apply benign_ret]. Qed.

Lemma benign_bind {A B : Type} (h : handle) (m : M A) (k : A -> M B) (a : A) (b : B)
    (w : World) :
  benign h m a w -> benign h (k a) b (exec m w) -> benign h (bind m k) b w.
Proof.
  intros (Hr & Ht & Hc & Hn & Hq & Hs) (Hr' & Ht' & Hc' & Hn' & Hq' & Hs').
  unfold benign. rewrite run_bind, exec_bind, Hr. cbv beta iota.
  repeat split; congruence.
Qed.

Lemma benign_stat {A : Type} (h : handle) (m : M A) (a : A) (w : World) (p : Path.t) :
  benign h m a w -> IO.stat (exec m w) p = IO.stat w p.
Proof.
  intros (_ & Ht & Hc & _). unfold IO.stat, IO.locate, IO.start. rewrite Ht, Hc. reflexivity.
Qed.

Lemma benign_check_html_structure (h : handle) (v : HTMLStructureValidator.t)
    (verbose : bool) (w : World) :
  HTMLStructureValidator.has_doctype v = true ->
  HTMLStructureValidator.has_html v = true ->
  HTMLStructureValidator.has_head v = true ->
  HTMLStructureValidator.has_body v = true ->
  benign h (_check_html_structure h v verbose) tt w.
Proof.
  intros H1 H2 H3 H4. unfold _check_html_structure. rewrite H1, H2, H3, H4.
  cbn [for_each].
  repeat (eapply benign_bind; [apply benign_when, benign_ok |]). apply benign_ret.
Qed.

Lemma benign_check_assets_none (h : handle) (v : HTMLStructureValidator.t)
    (page_dir : Path.t) (verbose : bool) (w : World) :
  HTMLStructureValidator.asset_refs v = [] ->
  benign h (_check_assets h v page_dir verbose) tt w.
Proof.
  intros Ha. unfold _check_assets. rewrite Ha. apply benign_when, benign_info.
Qed.

(** A local link whose target exists. *)
Lemma benign_check_link_present (h : handle) (page_dir : Path.t) (verbose : bool)
    (href : string) (checked broken : nat) (w : World) (n : FS.node) :
  Str.startswith_any href remote_schemes = false ->
  IO.stat w (local_target page_dir href) = Some n ->
  benign h (check_link h page_dir verbose href (checked, broken)) (checked + 1, broken) w.
Proof.
  intros Hlocal Hstat. unfold check_link. rewrite Hlocal.
  eapply benign_bind with (a := true).
  - unfold link_present. eapply benign_bind; [apply benign_gets |].
    rewrite Hstat. apply benign_ret.
  - cbv iota. eapply benign_bind; [apply benign_when, benign_ok | apply benign_ret].
Qed.

Lemma benign_check_placeholder_link (h : handle) (v : HTMLStructureValidator.t)
    (name : string) (verbose : bool) (w : World) :
  plain_name name = true ->
  FS.is_dir (IO.stat w (Path.child PROJECTS_DIR name)) = true ->
  HTMLStructureValidator.links v = ["../"] ->
  benign h (_check_internal_links h v (Path.child PROJECTS_DIR name) verbose) tt w.
Proof.
  intros Hname Hdir Hl.
  pose proof (placeholder_link_exists w name Hname Hdir) as Hup.
  destruct (IO.stat w (Path.Make "" ["public"; "clawdbot"; "projects"; name; ".."]))
    as [up |] eqn:Eup; [clear Hup | discriminate].
  unfold _check_internal_links. rewrite Hl. cbn [for_counting].
  eapply benign_bind.
  - eapply benign_bind; [| apply benign_ret].
    apply (benign_check_link_present h _ verbose "../" 0 0 w up); [reflexivity |].
    rewrite (placeholder_link_target name Hname). exact Eup.
  - cbv beta iota. apply benign_when, benign_ok.
Qed.

(** The page check on a page directory that holds the placeholder. *)
Lemma check_page_on_placeholder (w : World) (name : string) (verbose fix_ : bool) :
  plain_name name = true ->
  FS.is_dir (IO.stat w (Path.child PROJECTS_DIR name)) = true ->
  IO.stat w (index_file name) = Some (FS.File (placeholder (Str.replace "test-" "" name))) ->
  snd (html_tokens (placeholder (Str.replace "test-" "" name))) = None ->
  start_tags (fst (html_tokens (placeholder (Str.replace "test-" "" name))))
  = placeholder_tags ->
  let m := check_page verbose fix_ name in
  let h := List.length (QAReport.results (report w)) in
  run m w = Ok h
  /\ tree (exec m w) = tree w
  /\ requests (exec m w) = (requests w ++ [page_url name])%list
  /\ status_at (exec m w) h
     = Some (if Z.eqb (net w (page_url name)) 200 then "PASS" else "FAIL").
Proof.
  intros Hname Hdir Hfile Hnone Htags m h.
  destruct (feed_placeholder (placeholder (Str.replace "test-" "" name)) eq_refl Hnone Htags)
    as (v & Hfeed & Hd & Hh & Hhd & Hb & Hl & Ha).
  set (w1 := exec (report_add (CheckResult.init ("Page: " ++ name) "page")) w).
  set (w2 := exec (result_ok h ("File exists ("
            ++ Str.of_nat (String.length (placeholder (Str.replace "test-" "" name)))
            ++ " bytes)")) w1).
  pose proof (benign_check_html_structure h v verbose w2 Hd Hh Hhd Hb) as Hs.
  unfold benign in Hs.
  set (w3 := exec (_check_html_structure h v verbose) w2) in *.
  set (w4 := exec (http_get (page_url name)) w3).
  set (verdict := if Z.eqb (net w (page_url name)) 200 then result_ok h "HTTP 200 OK"
                  else result_fail h ("HTTP " ++ Str.of_Z (net w (page_url name))
                                      ++ " from " ++ page_url name)).
  set (w5 := exec verdict w4).
  assert (Hdir5 : FS.is_dir (IO.stat w5 (Path.child PROJECTS_DIR name)) = true).
  { assert (E : IO.stat w5 (Path.child PROJECTS_DIR name)
                = IO.stat w3 (Path.child PROJECTS_DIR name)).
    { unfold w5, verdict. destruct (Z.eqb _ 200); reflexivity. }
    rewrite E. unfold w3. rewrite (benign_stat h _ tt _ _ Hs). exact Hdir. }
  pose proof (benign_check_placeholder_link h v name verbose w5 Hname Hdir5 Hl) as Hlk.
  unfold benign in Hlk.
  set (w6 := exec (_check_internal_links h v (Path.child PROJECTS_DIR name) verbose) w5) in *.
  pose proof (benign_check_assets_none h v (Path.child PROJECTS_DIR name) verbose w6 Ha) as Has.
  unfold benign in Has.
  set (w7 := exec (_check_assets h v (Path.child PROJECTS_DIR name) verbose) w6) in *.
  assert (Hnet : net w3 (page_url name) = net w (page_url name)).
  { destruct Hs as (_ & _ & _ & Hn & _). rewrite Hn. reflexivity. }
  assert (Hm : m w = (Ok h, w7)).
  { unfold m, check_page. fold (index_file name). fold (page_url name).
    rewrite (bind_run _ _ w h) by reflexivity. fold w1.
    rewrite (bind_run _ _ w1 true)
      by (rewrite run_exists; unfold w1; rewrite stat_report_add, Hfile; reflexivity).
    rewrite exec_exists. cbn [negb]. cbv iota.
    rewrite (bind_run _ _ w1 (placeholder (Str.replace "test-" "" name)))
      by (rewrite run_read_text; unfold w1; rewrite stat_report_add, Hfile; reflexivity).
    rewrite exec_read_text, strip_placeholder. cbv iota.
    rewrite (bind_run _ _ w1 tt) by reflexivity. fold w2.
    rewrite Hfeed. cbv iota.
    rewrite (bind_run _ _ w2 tt) by (apply Hs). fold w3.
    rewrite (bind_run _ _ w3 (net w (page_url name)))
      by (rewrite run_http_get, Hnet; reflexivity).
    fold w4. fold verdict.
    rewrite (bind_run _ _ w4 tt) by (unfold verdict; destruct (Z.eqb _ 200); reflexivity).
    fold w5.
    rewrite (bind_run _ _ w5 tt) by (apply Hlk). fold w6.
    rewrite (bind_run _ _ w6 tt) by (apply Has). fold w7.
    reflexivity. }
  unfold run, exec. rewrite Hm. cbn [fst snd].
  destruct Has as (_ & Ht7 & _ & _ & Hq7 & Hs7).
  destruct Hlk as (_ & Ht6 & _ & _ & Hq6 & Hs6).
  destruct Hs as (_ & Ht3 & _ & _ & Hq3 & Hs3).
  assert (Ht5 : tree w5 = tree w3) by (unfold w5, verdict; destruct (Z.eqb _ 200); reflexivity).
  assert (Hq5 : requests w5 = (requests w3 ++ [page_url name])%list)
    by (unfold w5, verdict; destruct (Z.eqb _ 200); reflexivity).
  split; [reflexivity |].
  split; [rewrite Ht7, Ht6, Ht5, Ht3; reflexivity |].
  split; [rewrite Hq7, Hq6, Hq5, Hq3; reflexivity |].
  rewrite Hs7, Hs6.
  assert (H2 : status_at w3 h = Some "PASS").
  { rewrite Hs3. unfold w2, w1, status_at, result_ok.
    rewrite result_at_on_result, result_at_report_add. reflexivity. }
  unfold w5, verdict, status_at, result_ok, result_fail in *.
  destruct (Z.eqb _ 200); rewrite result_at_on_result; unfold w4;
    rewrite result_at_http_get; destruct (result_at w3 h); try discriminate;
    simpl in *; congruence.
Qed.

Lemma is_dir_stat_same_dirs (w w' : World) (p : Path.t) :
  (forall x, FS.is_dir (FS.lookup (tree w') x) = FS.is_dir (FS.lookup (tree w) x)) ->
  cwd w' = cwd w ->
  FS.is_dir (IO.stat w' p) = FS.is_dir (IO.stat w p).
Proof.
  intros Hdirs Hcwd. unfold IO.stat, IO.locate, IO.start. rewrite Hcwd.
  rewrite (walk_same_dirs _ _ _ _ Hdirs).
  destruct (FS.walk (tree w) _ _); [apply Hdirs | reflexivity].
Qed.

Lemma stat_same_tree (w w' : World) (p : Path.t) :
  tree w' = tree w -> cwd w' = cwd w -> IO.stat w' p = IO.stat w p.
Proof. intros Ht Hc. unfold IO.stat, IO.locate, IO.start. rewrite Ht, Hc. reflexivity. Qed.

(** The page check with auto-fix on a page directory without a page. *)
Lemma check_page_fixes (w : World) (name : string) (verbose : bool) :
  plain_name name = true ->
  FS.is_dir (IO.stat w (Path.child PROJECTS_DIR name)) = true ->
  page_absent w name ->
  let m := check_page verbose true name in
  let h := List.length (QAReport.results (report w)) in
  run m w = Ok h
  /\ status_at (exec m w) h = Some "FIXED"
  /\ IO.stat (exec m w) (index_file name)
     = Some (FS.File (placeholder (Str.replace "test-" "" name)))
  /\ (forall x, FS.is_dir (FS.lookup (tree (exec m w)) x) = FS.is_dir (FS.lookup (tree w) x))
  /\ cwd (exec m w) = cwd w
  /\ QAReport.fixes_applied (report (exec m w)) = QAReport.fixes_applied (report w) + 1.
Proof.
  intros Hname Hdir Habsent m h.
  set (w1 := exec (report_add (CheckResult.init ("Page: " ++ name) "page")) w).
  assert (Hnodir : FS.is_dir (IO.stat w (index_file name)) = false).
  { destruct Habsent as [-> | (s & -> & _)]; reflexivity. }
  assert (Hfix : forall msg,
    let w2 := exec (result_fail h msg) w1 in
    let f := _fix_create_placeholder h (index_file name) name in
    run f w2 = Ok tt
    /\ status_at (exec f w2) h = Some "FIXED"
    /\ IO.stat (exec f w2) (index_file name)
       = Some (FS.File (placeholder (Str.replace "test-" "" name)))
    /\ (forall x, FS.is_dir (FS.lookup (tree (exec f w2)) x)
                  = FS.is_dir (FS.lookup (tree w) x))
    /\ cwd (exec f w2) = cwd w
    /\ QAReport.fixes_applied (report (exec f w2)) = QAReport.fixes_applied (report w) + 1).
  { intros msg w2 f.
    destruct (fix_create_placeholder_ok w2 h name Hname Hdir Hnodir)
      as (Hrun & Hnew & Hdirs & Hcwd & Hres & Hcount).
    fold f in Hrun, Hnew, Hdirs, Hcwd, Hres, Hcount.
    repeat split; try assumption.
    unfold status_at. rewrite Hres. unfold w2, w1, result_fail.
    rewrite result_at_on_result, result_at_report_add. reflexivity. }
  assert (Hm : exists msg, m w = (Ok h, exec (_fix_create_placeholder h (index_file name) name)
                                        (exec (result_fail h msg) w1))).
  { unfold m, check_page. fold (index_file name).
    rewrite (bind_run _ _ w h) by reflexivity. fold w1.
    destruct Habsent as [Hnone | (s & Hs & Hblank)].
    - exists "index.html does not exist".
      rewrite (bind_run _ _ w1 false)
        by (rewrite run_exists; unfold w1; rewrite stat_report_add, Hnone; reflexivity).
      rewrite exec_exists. cbn [negb]. cbv iota.
      rewrite (bind_run _ _ w1 tt) by reflexivity.
      rewrite (bind_run _ _ _ tt) by (apply (Hfix "index.html does not exist")).
      reflexivity.
    - exists "index.html is empty (0 bytes)".
      rewrite (bind_run _ _ w1 true)
        by (rewrite run_exists; unfold w1; rewrite stat_report_add, Hs; reflexivity).
      rewrite exec_exists. cbn [negb]. cbv iota.
      rewrite (bind_run _ _ w1 s)
        by (rewrite run_read_text; unfold w1; rewrite stat_report_add, Hs; reflexivity).
      rewrite exec_read_text, Hblank. cbn [String.length Nat.eqb]. cbv iota.
      rewrite (bind_run _ _ w1 tt) by reflexivity.
      rewrite (bind_run _ _ _ tt) by (apply (Hfix "index.html is empty (0 bytes)")).
      reflexivity. }
  destruct Hm as (msg & Hm). unfold run, exec at 1 2 3 4 5. rewrite Hm. cbn [fst snd].
  destruct (Hfix msg) as (_ & H2 & H3 & H4 & H5 & H6). auto 7.
Qed.

(** C6, amended.  For an item whose directory has a plain name and whose
    page is missing or blank, the page check with auto-fix returns with
    status FIXED, the placeholder is in place and one fix is counted.
    When the check runs again on the file tree that results, and the
    parser reports the tags of the placeholder, the file tree stays as it
    is and the status of the item is PASS when the request for the page
    is answered with 200, and FAIL otherwise: it is never FIXED. *)
Theorem placeholder_fix_then_recheck (w : World) (name : string) (verbose : bool) :
  plain_name name = true ->
  FS.is_dir (IO.stat w (Path.child PROJECTS_DIR name)) = true ->
  page_absent w name ->
  snd (html_tokens (placeholder (Str.replace "test-" "" name))) = None ->
  start_tags (fst (html_tokens (placeholder (Str.replace "test-" "" name))))
  = placeholder_tags ->
  let m := check_page verbose true name in
  let w1 := exec m w in
  let h := List.length (QAReport.results (report w)) in
  run m w = Ok h
  /\ status_at w1 h = Some "FIXED"
  /\ IO.stat w1 (index_file name)
     = Some (FS.File (placeholder (Str.replace "test-" "" name)))
  /\ QAReport.fixes_applied (report w1) = QAReport.fixes_applied (report w) + 1
  /\ forall w2, tree w2 = tree w1 -> cwd w2 = cwd w1 ->
       let h2 := List.length (QAReport.results (report w2)) in
       run m w2 = Ok h2
       /\ tree (exec m w2) = tree w2
       /\ status_at (exec m w2) h2
          = Some (if Z.eqb (net w2 (page_url name)) 200 then "PASS" else "FAIL").
Proof.
  intros Hname Hdir Habsent Hnone Htags m w1 h.
  destruct (check_page_fixes w name verbose Hname Hdir Habsent)
    as (Hrun & Hstatus & Hnew & Hdirs & Hcwd & Hcount).
  fold m in Hrun, Hstatus, Hnew, Hdirs, Hcwd, Hcount.
  fold w1 in Hstatus, Hnew, Hdirs, Hcwd, Hcount. fold h in Hrun, Hstatus.
  repeat (split; [assumption |]).
  intros w2 Htree2 Hcwd2 h2.
  assert (Hdir2 : FS.is_dir (IO.stat w2 (Path.child PROJECTS_DIR name)) = true).
  { rewrite (stat_same_tree w1 w2 _ Htree2 Hcwd2).
    rewrite (is_dir_stat_same_dirs w w1 _ Hdirs Hcwd). exact Hdir. }
  assert (Hfile2 : IO.stat w2 (index_file name)
                   = Some (FS.File (placeholder (Str.replace "test-" "" name)))).
  { rewrite (stat_same_tree w1 w2 _ Htree2 Hcwd2). exact Hnew. }
  destruct (check_page_on_placeholder w2 name verbose true Hname Hdir2 Hfile2 Hnone Htags)
    as (H1 & H2 & _ & H4).
  auto.
Qed.

End Recheck.

(** C6 as stated fails: with the web server down, the second run on the
    repaired site records FAIL for the item. *)
Lemma placeholder_recheck_fails_offline :
  let w := Sample.start (Sample.site None [("test-2", FS.Dir [])]) Sample.offline in
  let w1 := exec (check_project_pages false true) w in
  let w2 := Sample.start (tree w1) Sample.offline in
  run (check_project_pages false true) w = Ok [0]
  /\ status_at w1 0 = Some "FIXED"
  /\ run (check_project_pages false true) w2 = Ok [0]
  /\ tree (exec (check_project_pages false true) w2) = tree w1
  /\ status_at (exec (check_project_pages false true) w2) 0 = Some "FAIL".
Proof. vm_compute. repeat split. Qed.

(** C6, amended, at a sample: [test-2] has no page; the web server is up. *)
Lemma placeholder_fix_then_recheck_witness :
  let w := Sample.start (Sample.site None Sample.two_pages) Sample.online in
  let m := check_page false true "test-2" in
  let w2 := Sample.start (tree (exec m w)) Sample.online in
  (plain_name "test-2" = true
   /\ FS.is_dir (IO.stat w (Path.child PROJECTS_DIR "test-2")) = true
   /\ page_absent w "test-2"
   /\ snd (html_tokens (placeholder "2")) = None
   /\ start_tags (fst (html_tokens (placeholder "2"))) = placeholder_tags)
  /\ status_at (exec m w) 0 = Some "FIXED"
  /\ IO.stat (exec m w) (index_file "test-2") = Some (FS.File (placeholder "2"))
  /\ status_at (exec m w2) 0 = Some "PASS".
Proof.
  intros w m w2.
  assert (H1 : plain_name "test-2" = true) by reflexivity.
  assert (H2 : FS.is_dir (IO.stat w (Path.child PROJECTS_DIR "test-2")) = true)
    by reflexivity.
  assert (H3 : page_absent w "test-2") by (left; reflexivity).
  assert (H4 : snd (html_tokens (placeholder (Str.replace "test-" "" "test-2"))) = None)
    by reflexivity.
  assert (H5 : start_tags (fst (html_tokens (placeholder (Str.replace "test-" "" "test-2"))))
               = placeholder_tags)
    by reflexivity.
  split; [auto 6 |].
  destruct (placeholder_fix_then_recheck w "test-2" false H1 H2 H3 H4 H5)
    as (_ & Hfixed & Hfile & _ & Hnext).
  split; [exact Hfixed |]. split; [exact Hfile |].
  destruct (Hnext w2 eq_refl eq_refl) as (_ & _ & Hpass). exact Hpass.
Defined.

(** *** The reference reader on the placeholder

    The two assumptions on the parser hold for the reference reader at
    every name without [<]. *)

Lemma scan_app (s rest : string) (m : Ref.mode) :
  Ref.scan m (s ++ rest)
  = (snd (Ref.steps m s rest) ++ Ref.scan (fst (Ref.steps m s rest)) rest)%list.
Proof.
  revert m. induction s as [| c r IH]; intros m; simpl; [reflexivity |].
  destruct (Ref.step m c (r ++ rest)) as [m1 e1]. rewrite IH.
  destruct (Ref.steps m1 r rest) as [m2 e2]. simpl. apply app_assoc.
Qed.

Lemma steps_text (s rest d : string) :
  Str.has_char "<" s = false ->
  Ref.steps (Ref.InText d) s rest = (Ref.InText (Str.rev_acc s d), []).
Proof.
  revert d. induction s as [| c r IH]; intros d H; simpl in *; [reflexivity |].
  apply orb_false_elim in H. destruct H as [Hc Hr].
  rewrite Hc, (IH _ Hr). reflexivity.
Qed.

Lemma start_tags_app (a b : list html_event) :
  start_tags (a ++ b) = (start_tags a ++ start_tags b)%list.
Proof. apply flat_map_app. Qed.

Lemma replace_keeps_clean (c : ascii) (old s : string) (skip : nat) :
  Str.has_char c s = false ->
  Str.has_char c (Str.replace_from old "" skip s) = false.
Proof.
  revert skip. induction s as [| a r IH]; intros skip H; [reflexivity |].
  simpl in H. apply orb_false_elim in H. destruct H as [Ha Hr].
  destruct skip as [| k]; [| exact (IH k Hr)].
  cbn [Str.replace_from].
  destruct (String.prefix old (String a r)).
  - exact (IH _ Hr).
  - simpl. rewrite Ha. exact (IH 0 Hr).
Qed.

Ltac eval_steps :=
  match goal with
  | |- context [Ref.steps ?m ?l ?x] =>
      let r := eval vm_compute in (Ref.steps m l x) in
      replace (Ref.steps m l x) with r by (vm_compute; reflexivity)
  end.

Lemma reference_reader_on_placeholder (num : string) :
  Str.has_char "<" num = false ->
  snd (Ref.html_tokens (placeholder num)) = None
  /\ start_tags (fst (Ref.html_tokens (placeholder num))) = placeholder_tags.
Proof.
  intros H. split; [reflexivity |].
  unfold Ref.html_tokens, placeholder, dq. cbn [fst].
  repeat first
    [ rewrite (scan_app num), (steps_text num _ _ H); cbn [fst snd app]
    | rewrite scan_app; eval_steps; cbn [fst snd];
      rewrite start_tags_app ].
  repeat match goal with
         | |- context [if ?b then _ else _] => destruct b
         end; vm_compute; reflexivity.
Qed.

(** So with the reference library the page written for a directory
    whose name has no [<] is read back with the tags of the placeholder. *)
Lemma reference_reader_on_repaired_page (name : string) :
  Str.has_char "<" name = false ->
  snd (html_tokens (placeholder (Str.replace "test-" "" name))) = None
  /\ start_tags (fst (html_tokens (placeholder (Str.replace "test-" "" name))))
     = placeholder_tags.
Proof.
  intros Hlt.
  apply reference_reader_on_placeholder, replace_keeps_clean, Hlt.
Qed.

(* ====================================================================== *)
(** ** The fix counter                                                    *)
(* ====================================================================== *)

Section FixCounter.

Context {lib : PyLib}.

Lemma py_len_report (v : pyval) (w : World) : report (exec (py_len v) w) = report w.
Proof. destruct v; reflexivity. Qed.

(** [_fix_broken_json] never touches the counter. *)
Lemma fix_broken_json_never_counts (h : handle) (raw : string) (w : World) :
  QAReport.fixes_applied (report (exec (_fix_broken_json h raw) w))
  = QAReport.fixes_applied (report w).
Proof.
  unfold _fix_broken_json. destruct (json_loads (patched raw)) as [data | e];
    [| reflexivity].
  rewrite exec_bind. destruct (run (IO.write_text _ _) w);
    [| rewrite write_text_report; reflexivity].
  rewrite exec_bind. destruct (run (py_len data) _); unfold result_fixed;
    rewrite ?fixes_on_result, py_len_report, write_text_report; reflexivity.
Qed.

(** The other three fix actions count themselves when they return. *)
Lemma fix_create_placeholder_counts (h : handle) (p : Path.t) (d : string) (w : World) :
  run (_fix_create_placeholder h p d) w = Ok tt ->
  QAReport.fixes_applied (report (exec (_fix_create_placeholder h p d) w))
  = QAReport.fixes_applied (report w) + 1.
Proof.
  unfold _fix_create_placeholder. intros H.
  apply run_bind_ok in H. destruct H as (? & _ & H & ->).
  apply run_bind_ok in H. destruct H as (? & _ & H & ->).
  apply run_bind_ok in H. destruct H as (? & _ & H & ->).
  unfold result_fixed. change (exec count_fix ?w0) with (exec count_fix w0).
  unfold exec at 1, count_fix, modify. cbn [snd report set_report QAReport.fixes_applied].
  rewrite fixes_on_result, write_text_report, mkdir_report. reflexivity.
Qed.

Lemma fix_add_index_entry_counts (h : handle) (data data' : list pyval) (d : string)
    (w : World) :
  run (_fix_add_index_entry h data d) w = Ok data' ->
  QAReport.fixes_applied (report (exec (_fix_add_index_entry h data d) w))
  = QAReport.fixes_applied (report w) + 1.
Proof.
  unfold _fix_add_index_entry, write_index_json. intros H.
  apply run_bind_ok in H. destruct H as (? & _ & H & ->).
  apply run_bind_ok in H. destruct H as (? & _ & H & ->).
  apply run_bind_ok in H. destruct H as (? & _ & H & ->).
  rewrite exec_ret. unfold result_fixed.
  unfold exec at 1, count_fix, modify. cbn [snd report set_report QAReport.fixes_applied].
  rewrite fixes_on_result, write_text_report. reflexivity.
Qed.

End FixCounter.

(** C4 at its failing input: the manifest with a trailing comma is not
    JSON; the check with auto-fix rewrites it and ends with status FIXED,
    and the counter of fix actions is still 0.  On the same site the
    placeholder fix of the page check counts 1. *)
Theorem repaired_manifest_is_not_counted :
  let w := Sample.start
             (Sample.site (Some Sample.manifest_trailing_comma) Sample.two_pages)
             Sample.online in
  let w1 := exec (check_index_json false true) w in
  let w2 := exec (check_project_pages false true) w in
  (exists e, json_loads Sample.manifest_trailing_comma = inr e)
  /\ status_at w1 0 = Some "FIXED"
  /\ IO.stat w1 INDEX_JSON
     = Some (FS.File
               (json_dumps (PList [PDict [("name", PStr "Test 1");
                                          ("file", PStr "test-1/index.html")]])
                ++ newline))
  /\ QAReport.fixes_applied (report w1) = 0
  /\ status_at w2 1 = Some "FIXED"
  /\ QAReport.fixes_applied (report w2) = 1.
Proof.
  intros w w1 w2. split; [eexists; reflexivity |]. vm_compute. repeat split.
Qed.

(* ====================================================================== *)
(** ** A page that cannot be parsed                                       *)
(* ====================================================================== *)

Section ParseFailure.

Context {lib : PyLib}.

(** The page check on a page whose parsing raises: the warning is the
    last detail, no request is sent and the links collected before the
    failure are not looked at. *)
Lemma check_page_parse_failure (w : World) (name content : string) (verbose fix_ : bool)
    (v : HTMLStructureValidator.t) (e : exn) :
  IO.stat w (index_file name) = Some (FS.File content) ->
  Str.strip content <> "" ->
  HTMLStructureValidator.feed HTMLStructureValidator.init content = (v, Some e) ->
  let m := check_page verbose fix_ name in
  let h := List.length (QAReport.results (report w)) in
  run m w = Ok h
  /\ tree (exec m w) = tree w
  /\ requests (exec m w) = requests w
  /\ result_at (exec m w) h
     = Some (CheckResult.warn
               (CheckResult.ok (CheckResult.init ("Page: " ++ name) "page")
                  ("File exists (" ++ Str.of_nat (String.length content) ++ " bytes)"))
               ("HTML parse error: " ++ exn_text e)).
Proof.
  intros Hfile Hstrip Hfeed m h.
  set (w1 := exec (report_add (CheckResult.init ("Page: " ++ name) "page")) w).
  set (w2 := exec (result_ok h ("File exists (" ++ Str.of_nat (String.length content)
                               ++ " bytes)")) w1).
  set (w3 := exec (result_warn h ("HTML parse error: " ++ exn_text e)) w2).
  assert (Hm : m w = (Ok h, w3)).
  { unfold m, check_page. fold (index_file name).
    rewrite (bind_run _ _ w h) by reflexivity. fold w1.
    rewrite (bind_run _ _ w1 true)
      by (rewrite run_exists; unfold w1; rewrite stat_report_add, Hfile; reflexivity).
    rewrite exec_exists. cbn [negb]. cbv iota.
    rewrite (bind_run _ _ w1 content)
      by (rewrite run_read_text; unfold w1; rewrite stat_report_add, Hfile; reflexivity).
    rewrite exec_read_text, (strip_length _ Hstrip). cbv iota.
    rewrite (bind_run _ _ w1 tt) by reflexivity. fold w2.
    rewrite Hfeed. cbv iota.
    rewrite (bind_run _ _ w2 tt) by reflexivity. reflexivity. }
  unfold run, exec. rewrite Hm. cbn [fst snd].
  repeat split. unfold w3, w2, w1, h, result_warn, result_ok. step. reflexivity.
Qed.

End ParseFailure.

(** C5 at its failing input: a page with a link to a missing file and
    then a [link] tag whose [rel] has no value, on a site whose server is
    down.  The page check ends with status WARN and two details; the
    collected link is not resolved and no request is sent.  The check of
    the main index, on the same text, goes on after the warning: it sends
    its request and records the failure. *)
Theorem parse_failure_skips_page_checks :
  let text := Sample.page_bad_link_tag in
  let t := Sample.site_with text None [("test-1", FS.Dir [("index.html", FS.File text)])] in
  let w := Sample.start t Sample.offline in
  let parsed := HTMLStructureValidator.feed HTMLStructureValidator.init text in
  let w1 := exec (check_project_pages false false) w in
  let w2 := exec (check_main_index false) w in
  (snd parsed = Some (Py.AttributeError PNone "lower")
   /\ HTMLStructureValidator.links (fst parsed) = ["missing.html"]
   /\ IO.stat w (Path.child PROJECTS_DIR "test-1" // "missing.html") = None)
  /\ run (check_project_pages false false) w = Ok [0]
  /\ status_at w1 0 = Some "WARN"
  /\ details_at w1 0
     = [("PASS", "File exists (93 bytes)");
        ("WARN", "HTML parse error: 'NoneType' object has no attribute 'lower'")]
  /\ requests w1 = []
  /\ details_at w2 0
     = [("PASS", "File exists (93 bytes)");
        ("WARN", "HTML parse error: 'NoneType' object has no attribute 'lower'");
        ("FAIL", "HTTP -1 from http://clawdbot-web/clawdbot/")]
  /\ requests w2 = ["http://clawdbot-web/clawdbot/"].
Proof. vm_compute. repeat split. Qed.

(* ====================================================================== *)
(** ** The escape of the report page, the doctype pattern, the patch     *)
(* ====================================================================== *)

Lemma append_assoc (a b c : string) : (a ++ b) ++ c = a ++ (b ++ c).
Proof. induction a as [| x a IH]; simpl; [reflexivity | rewrite IH; reflexivity]. Qed.

Lemma append_nil_r (a : string) : a ++ "" = a.
Proof. induction a as [| x a IH]; simpl; [reflexivity | rewrite IH; reflexivity]. Qed.

Lemma prefix_char (a c : ascii) (r : string) :
  String.prefix (String a "") (String c r) = Ascii.eqb c a.
Proof.
  simpl. destruct (ascii_dec a c) as [-> | n].
  - rewrite Ascii.eqb_refl. destruct r; reflexivity.
  - symmetry. apply Ascii.eqb_neq. congruence.
Qed.

(** Replacing a single character works character by character. *)
Lemma replace_char_cons (a : ascii) (new : string) (c : ascii) (r : string) :
  Str.replace (String a "") new (String c r)
  = (if Ascii.eqb c a then new else String c "") ++ Str.replace (String a "") new r.
Proof.
  unfold Str.replace. cbn [Str.replace_from]. rewrite prefix_char.
  destruct (Ascii.eqb c a); reflexivity.
Qed.

Lemma replace_char_app (a : ascii) (new x y : string) :
  Str.replace (String a "") new (x ++ y)
  = Str.replace (String a "") new x ++ Str.replace (String a "") new y.
Proof.
  induction x as [| c x IH]; [reflexivity |].
  cbn [append]. rewrite !replace_char_cons, IH, append_assoc. reflexivity.
Qed.

Lemma html_escape_app (a b : string) :
  _html_escape (a ++ b) = _html_escape a ++ _html_escape b.
Proof. unfold _html_escape, dq. rewrite !replace_char_app. reflexivity. Qed.

Ltac replace_done :=
  cbv iota;
  repeat match goal with
         | |- context [Str.replace ?a ?b ""] => change (Str.replace a b "") with ""
         end;
  cbn [append].

Lemma html_escape_char (c : ascii) : _html_escape (String c "") = escape_char c.
Proof.
  unfold _html_escape, escape_char, dq.
  rewrite (replace_char_cons "&").
  destruct (Ascii.eqb_spec c "&") as [-> | n1]; [reflexivity | replace_done].
  rewrite (replace_char_cons "<").
  destruct (Ascii.eqb_spec c "<") as [-> | n2]; [reflexivity | replace_done].
  rewrite (replace_char_cons ">").
  destruct (Ascii.eqb_spec c ">") as [-> | n3]; [reflexivity | replace_done].
  rewrite (replace_char_cons (ascii_of_nat 34)).
  destruct (Ascii.eqb c (ascii_of_nat 34)); reflexivity.
Qed.

Lemma html_escape_unfold (text : string) : _html_escape text = escape_each text.
Proof.
  induction text as [| c r IH]; [reflexivity |].
  change (String c r) with (String c "" ++ r).
  rewrite html_escape_app, html_escape_char, IH. reflexivity.
Qed.

(** X1. [_html_escape] replaces each of the four characters by its entity
    and keeps every other character in its place; the ampersand of an
    entity that it has written is not escaped again.  The text it returns
    holds no [<], no [>] and no double quote. *)
Theorem html_escape_each_character (text : string) :
  _html_escape text = escape_each text
  /\ Str.has_char "<" (_html_escape text) = false
  /\ Str.has_char ">" (_html_escape text) = false
  /\ Str.has_char (ascii_of_nat 34) (_html_escape text) = false.
Proof.
  rewrite html_escape_unfold. split; [reflexivity |].
  induction text as [| c r (IH1 & IH2 & IH3)]; [repeat split |].
  cbn [escape_each]. rewrite !has_char_app, IH1, IH2, IH3, !orb_false_r.
  unfold escape_char.
  destruct (Ascii.eqb_spec c "&") as [-> | n1]; [repeat split |].
  destruct (Ascii.eqb_spec c "<") as [-> | n2]; [repeat split |].
  destruct (Ascii.eqb_spec c ">") as [-> | n3]; [repeat split |].
  destruct (Ascii.eqb_spec c (ascii_of_nat 34)) as [-> | n4]; [repeat split |].
  cbn [Str.has_char]. rewrite !orb_false_r.
  repeat split; apply Ascii.eqb_neq; assumption.
Qed.

(* ---------------------------------------------------------------------- *)
(** The doctype pattern *)

Lemma lower_app (a b : string) : Str.lower (a ++ b) = Str.lower a ++ Str.lower b.
Proof. induction a as [| c a IH]; simpl; [reflexivity | rewrite IH; reflexivity]. Qed.

Lemma lower_length (a : string) : String.length (Str.lower a) = String.length a.
Proof. induction a as [| c a IH]; simpl; [reflexivity | rewrite IH; reflexivity]. Qed.

Lemma prefix_nocase_iff (p s : string) :
  Re.prefix_nocase p s = true <-> exists d post, s = d ++ post /\ Str.lower d = p.
Proof.
  revert s. induction p as [| a p IH]; intros s.
  - split; [intros _; exists "", s; split; reflexivity |].
    intros _. destruct s; reflexivity.
  - destruct s as [| b s]; simpl.
    + split; [discriminate |]. intros (d & post & H & Hd).
      destruct d; [discriminate Hd | discriminate H].
    + rewrite andb_true_iff, IH. split.
      * intros [Hab (d & post & -> & Hd)]. apply Ascii.eqb_eq in Hab.
        exists (String b d), post. split; [reflexivity |]. simpl. congruence.
      * intros (d & post & H & Hd). destruct d as [| b' d]; [discriminate Hd |].
        simpl in H, Hd. injection H as -> ->. injection Hd as Ha Hp.
        split; [apply Ascii.eqb_eq; congruence |]. exists d, post. split; [reflexivity | exact Hp].
Qed.

Lemma spaces_then_html_iff (seen : bool) (s : string) :
  Re.spaces_then_html seen s = true
  <-> exists ws h post, s = ws ++ h ++ post
        /\ Natural.all_chars Str.isspace ws = true
        /\ (seen = true \/ ws <> "") /\ Str.lower h = "html".
Proof.
  revert seen. induction s as [| c r IH]; intros seen.
  - simpl. rewrite andb_false_r. split; [discriminate |].
    intros (ws & h & post & H & _ & _ & Hh).
    destruct ws; [| discriminate H]. destruct h; [discriminate Hh | discriminate H].
  - cbn [Re.spaces_then_html].
    destruct (seen && Re.prefix_nocase "html" (String c r)) eqn:E.
    + split; [intros _ | reflexivity].
      apply andb_true_iff in E. destruct E as [-> E].
      apply prefix_nocase_iff in E. destruct E as (h & post & E & Hh).
      exists "", h, post. repeat split; auto.
    + destruct (Str.isspace c) eqn:Ec.
      * rewrite IH. split.
        -- intros (ws & h & post & -> & Hws & _ & Hh).
           exists (String c ws), h, post. repeat split; auto.
           ++ simpl. rewrite Ec. exact Hws.
           ++ right. discriminate.
        -- intros (ws & h & post & H & Hws & Hseen & Hh).
           destruct ws as [| c' ws].
           ++ exfalso. destruct Hseen as [-> | Hne]; [| congruence].
              cbn [andb] in E.
              assert (P : Re.prefix_nocase "html" (String c r) = true)
                by (apply prefix_nocase_iff; exists h, post; auto).
              rewrite P in E. discriminate.
           ++ simpl in H, Hws. injection H as -> ->.
              apply andb_true_iff in Hws. destruct Hws as [_ Hws].
              exists ws, h, post. repeat split; auto.
      * split; [discriminate |].
        intros (ws & h & post & H & Hws & Hseen & Hh).
        destruct ws as [| c' ws].
        -- destruct Hseen as [-> | Hne]; [| congruence].
           cbn [andb] in E.
           assert (P : Re.prefix_nocase "html" (String c r) = true)
             by (apply prefix_nocase_iff; exists h, post; auto).
           rewrite P in E. discriminate.
        -- simpl in H, Hws. injection H as -> ->. rewrite Ec in Hws. discriminate.
Qed.

Lemma drop_app (d rest : string) : Re.drop (String.length d) (d ++ rest) = rest.
Proof. induction d as [| c d IH]; simpl; [destruct rest; reflexivity | exact IH]. Qed.

Lemma doctype_here (s : string) :
  Re.prefix_nocase "<!doctype" s && Re.spaces_then_html false (Re.drop 9 s) = true
  <-> exists d ws h post, s = d ++ ws ++ h ++ post
        /\ Str.lower d = "<!doctype" /\ ws <> ""
        /\ Natural.all_chars Str.isspace ws = true /\ Str.lower h = "html".
Proof.
  rewrite andb_true_iff, prefix_nocase_iff. split.
  - intros [(d & rest & -> & Hd) H].
    assert (L : String.length d = 9) by (rewrite <- lower_length, Hd; reflexivity).
    rewrite <- L, drop_app in H. apply spaces_then_html_iff in H.
    destruct H as (ws & h & post & -> & Hws & [Hs | Hne] & Hh); [discriminate |].
    exists d, ws, h, post. auto.
  - intros (d & ws & h & post & -> & Hd & Hne & Hws & Hh).
    assert (L : String.length d = 9) by (rewrite <- lower_length, Hd; reflexivity).
    split; [exists d, (ws ++ h ++ post); auto |].
    rewrite <- L, drop_app. apply spaces_then_html_iff. exists ws, h, post. auto.
Qed.

(** X2. The pattern of the doctype test.  [search_doctype] holds exactly of
    the texts that contain, anywhere, the letters of [<!doctype] in either
    case, then at least one white-space character, then the letters of
    [html] in either case. *)
Theorem doctype_found_anywhere (s : string) :
  Re.search_doctype s = true
  <-> exists pre d ws h post, s = pre ++ d ++ ws ++ h ++ post
        /\ Str.lower d = "<!doctype" /\ ws <> ""
        /\ Natural.all_chars Str.isspace ws = true /\ Str.lower h = "html".
Proof.
  induction s as [| c r IH].
  - split; [discriminate |].
    intros (pre & d & ws & h & post & H & Hd & _).
    destruct pre; [| discriminate H]. destruct d; [discriminate Hd | discriminate H].
  - cbn [Re.search_doctype].
    destruct (Re.prefix_nocase "<!doctype" (String c r)
              && Re.spaces_then_html false (Re.drop 9 (String c r))) eqn:E.
    + split; [intros _ | reflexivity].
      apply doctype_here in E. destruct E as (d & ws & h & post & E & H).
      exists "", d, ws, h, post. split; [exact E | exact H].
    + rewrite IH. split.
      * intros (pre & d & ws & h & post & -> & H).
        exists (String c pre), d, ws, h, post. split; [reflexivity | exact H].
      * intros (pre & d & ws & h & post & H & Hd & Hne & Hws & Hh).
        destruct pre as [| c' pre].
        -- exfalso. simpl in H.
           assert (P : Re.prefix_nocase "<!doctype" (String c r)
                       && Re.spaces_then_html false (Re.drop 9 (String c r)) = true)
             by (apply doctype_here; exists d, ws, h, post; auto).
           rewrite P in E. discriminate.
        -- simpl in H. injection H as -> ->. exists pre, d, ws, h, post. auto.
Qed.

(* ---------------------------------------------------------------------- *)
(** The patch of a broken manifest *)

Lemma solid_strip_from (dropping : bool) (s : string) :
  solid (Re.strip_trailing_commas_from dropping s) = solid s.
Proof.
  revert dropping. induction s as [| c r IH]; intros dropping; [reflexivity |].
  cbn [Re.strip_trailing_commas_from solid]. destruct dropping.
  - destruct (Str.isspace c) eqn:Ec.
    + rewrite orb_true_r. apply IH.
    + cbn [solid]. rewrite Ec, IH. reflexivity.
  - destruct (Ascii.eqb c "," && Re.closes r) eqn:E.
    + apply andb_true_iff in E. destruct E as [-> _]. apply IH.
    + cbn [solid]. rewrite IH. reflexivity.
Qed.

Lemma length_strip_from (dropping : bool) (s : string) :
  String.length (Re.strip_trailing_commas_from dropping s) <= String.length s.
Proof.
  revert dropping. induction s as [| c r IH]; intros dropping; [apply le_n |].
  cbn [Re.strip_trailing_commas_from].
  pose proof (IH true). pose proof (IH false).
  destruct dropping; [destruct (Str.isspace c) | destruct (Ascii.eqb c "," && Re.closes r)];
    simpl; lia.
Qed.

Lemma strip_commas_no_comma (s : string) :
  Str.has_char "," s = false -> Re.strip_trailing_commas_from false s = s.
Proof.
  induction s as [| c r IH]; [reflexivity |]. simpl. intros H.
  apply orb_false_elim in H. destruct H as [Hc Hr].
  rewrite Hc. simpl. rewrite (IH Hr). reflexivity.
Qed.

(** X3. The trailing-comma substitution removes commas and white space
    and nothing else, never makes the text longer, and returns a text
    without commas as it is. *)
Theorem strip_trailing_commas_only_drops_commas_and_spaces (s : string) :
  solid (Re.strip_trailing_commas s) = solid s
  /\ String.length (Re.strip_trailing_commas s) <= String.length s
  /\ (Str.has_char "," s = false -> Re.strip_trailing_commas s = s).
Proof.
  split; [apply solid_strip_from |]. split; [apply length_strip_from |].
  apply strip_commas_no_comma.
Qed.

Lemma rev_acc_app (a b acc : string) :
  Str.rev_acc (a ++ b) acc = Str.rev_acc b (Str.rev_acc a acc).
Proof. revert acc. induction a as [| c a IH]; intros acc; simpl; [reflexivity | apply IH]. Qed.

Lemma endswith_app_char (s : string) (c : ascii) :
  Str.endswith (s ++ String c "") (String c "") = true.
Proof.
  unfold Str.endswith, Str.rev. rewrite rev_acc_app. simpl.
  destruct (ascii_dec c c); [| congruence].
  destruct (Str.rev_acc s ""); reflexivity.
Qed.

Lemma startswith_cons (c : ascii) (s : string) : Str.startswith (String c s) (String c "") = true.
Proof.
  unfold Str.startswith. simpl. destruct (ascii_dec c c); [| congruence].
  destruct s; reflexivity.
Qed.

Lemma startswith_char_inv (c : ascii) (s : string) :
  Str.startswith s (String c "") = true -> exists r, s = String c r.
Proof.
  unfold Str.startswith. destruct s as [| a r]; simpl; [discriminate |].
  destruct (ascii_dec c a) as [-> | n]; [eauto | discriminate].
Qed.

(** X4. The text that [_fix_broken_json] hands to the JSON reader always
    opens with a square bracket and closes with one; a text that has
    both, and no comma, is only stripped of the white space around it. *)
Theorem patched_is_bracketed (raw : string) :
  Str.startswith (patched raw) "[" = true
  /\ Str.endswith (patched raw) "]" = true
  /\ (Str.startswith (Str.strip raw) "[" = true ->
      Str.endswith (Str.strip raw) "]" = true ->
      Str.has_char "," raw = false ->
      patched raw = Str.strip raw).
Proof.
  unfold patched.
  set (x := Re.strip_trailing_commas (Str.strip raw)).
  set (y := if negb (Str.startswith x "[") then "[" ++ x else x).
  assert (Hy : exists r, y = String "[" r).
  { unfold y. destruct (Str.startswith x "[") eqn:E; simpl.
    - apply startswith_char_inv in E. exact E.
    - eauto. }
  destruct Hy as [r Hy]. split; [| split].
  - destruct (Str.endswith y "]"); simpl; rewrite Hy; apply startswith_cons.
  - destruct (Str.endswith y "]") eqn:E; simpl; [exact E | apply endswith_app_char].
  - intros H1 H2 H3.
    assert (Hx : x = Str.strip raw).
    { unfold x. apply strip_commas_no_comma. clear -H3.
      unfold Str.strip.
      assert (L : forall s, Str.has_char "," s = false -> Str.has_char "," (Str.lstrip s) = false).
      { induction s as [| c s IH]; [reflexivity |]. simpl. intros H.
        destruct (Str.isspace c); [| exact H].
        apply orb_false_elim in H. apply IH, H. }
      assert (R : forall s, Str.has_char "," s = false -> Str.has_char "," (Str.rstrip s) = false).
      { induction s as [| c s IH]; [reflexivity |]. simpl. intros H.
        apply orb_false_elim in H. destruct H as [Hc Hs].
        specialize (IH Hs). destruct (Str.rstrip s).
        - destruct (Str.isspace c); [reflexivity |]. simpl. rewrite Hc. reflexivity.
        - simpl in *. rewrite Hc. exact IH. }
      apply R, L, H3. }
    unfold y. rewrite Hx, H1. simpl. rewrite H2. reflexivity.
Qed.

(* ====================================================================== *)
(** ** The natural order of the names                                    *)
(* ====================================================================== *)

Lemma split_digits_nonempty (s : string) : Natural.re_split_digits s <> [].
Proof.
  induction s as [| c r IH]; simpl; [discriminate |].
  destruct (Natural.re_split_digits r) as [| t tl]; [congruence |].
  destruct (Natural.is_decimal c); [| discriminate].
  destruct r as [| c' r']; [discriminate |].
  destruct tl; [discriminate |]. destruct (Natural.is_decimal c'); discriminate.
Qed.

(** A run of decimal digits is one piece, between two empty texts. *)
Lemma split_digits_run (ds : string) :
  ds <> "" -> Natural.all_chars Natural.is_decimal ds = true ->
  Natural.re_split_digits ds = [""; ds; ""].
Proof.
  induction ds as [| c r IH]; [congruence |]. intros _ H.
  simpl in H. apply andb_true_iff in H. destruct H as [Hc Hr].
  destruct r as [| c' r'].
  - simpl. rewrite Hc. reflexivity.
  - change (Natural.re_split_digits (String c (String c' r')))
      with (match Natural.re_split_digits (String c' r') with
            | t :: tl =>
                if Natural.is_decimal c then
                  match tl with
                  | d :: tl' =>
                      if Natural.is_decimal c' then "" :: String c d :: tl'
                      else "" :: String c "" :: t :: tl
                  | [] => "" :: String c "" :: t :: tl
                  end
                else String c t :: tl
            | [] => [String c (String c' r')]
            end).
    rewrite IH by (discriminate || exact Hr). rewrite Hc.
    simpl in Hr. apply andb_true_iff in Hr. destruct Hr as [-> _]. reflexivity.
Qed.

(** A text without decimal digits joins the first piece of what follows. *)
Lemma split_digits_text (p s : string) :
  Natural.all_chars (fun c => negb (Natural.is_decimal c)) p = true ->
  Natural.re_split_digits (p ++ s)
  = match Natural.re_split_digits s with
    | t :: tl => (p ++ t) :: tl
    | [] => []
    end.
Proof.
  induction p as [| c p IH]; intros H.
  - simpl. destruct (Natural.re_split_digits s); reflexivity.
  - simpl in H. apply andb_true_iff in H. destruct H as [Hc Hp].
    apply negb_true_iff in Hc.
    cbn [append Natural.re_split_digits]. rewrite (IH Hp).
    pose proof (split_digits_nonempty s) as Hne.
    destruct (Natural.re_split_digits s) as [| t tl]; [congruence |].
    rewrite Hc. reflexivity.
Qed.

Lemma isdigit_no_digit (p : string) :
  Natural.all_chars (fun c => negb (Natural.isdigit_char c)) p = true ->
  Natural.isdigit p = false.
Proof.
  unfold Natural.isdigit. destruct p as [| c p]; [reflexivity |]. simpl.
  intros H. apply andb_true_iff in H. destruct H as [Hc _].
  apply negb_true_iff in Hc. rewrite Hc. reflexivity.
Qed.

Lemma no_digit_no_decimal (p : string) :
  Natural.all_chars (fun c => negb (Natural.isdigit_char c)) p = true ->
  Natural.all_chars (fun c => negb (Natural.is_decimal c)) p = true.
Proof.
  induction p as [| c p IH]; [reflexivity |]. simpl. intros H.
  apply andb_true_iff in H. destruct H as [Hc Hp]. rewrite (IH Hp), andb_true_r.
  unfold Natural.isdigit_char in Hc. apply negb_true_iff in Hc.
  apply orb_false_elim in Hc. destruct Hc as [-> _]. reflexivity.
Qed.

Lemma isdigit_decimal (ds : string) :
  ds <> "" -> Natural.all_chars Natural.is_decimal ds = true -> Natural.isdigit ds = true.
Proof.
  intros Hne H. unfold Natural.isdigit.
  destruct ds as [| c r]; [congruence |]. cbn [String.eqb negb andb].
  clear Hne. revert H. generalize (String c r). clear. intros s.
  induction s as [| c s IH]; [reflexivity |]. cbn [Natural.all_chars]. intros H.
  apply andb_true_iff in H. destruct H as [Hc Hs].
  rewrite (IH Hs). unfold Natural.isdigit_char. rewrite Hc. reflexivity.
Qed.

(** The key of a name that is a text without digits followed by a number. *)
Lemma key_text_number (p ds : string) :
  Natural.all_chars (fun c => negb (Natural.isdigit_char c)) p = true ->
  ds <> "" -> Natural.all_chars Natural.is_decimal ds = true ->
  Natural._natural_sort_key (p ++ ds)
  = Some [Natural.KStr (Str.lower p); Natural.KInt (Natural.int_from 0 ds); Natural.KStr ""].
Proof.
  intros Hp Hne Hds. unfold Natural._natural_sort_key.
  rewrite (split_digits_text p ds (no_digit_no_decimal p Hp)),
    (split_digits_run ds Hne Hds), append_nil_r.
  cbn [map Natural.sequence]. unfold Natural.convert.
  rewrite (isdigit_no_digit p Hp), (isdigit_decimal ds Hne Hds), Hds. reflexivity.
Qed.

Lemma int_from_uint (d : Decimal.uint) (acc : N) :
  Natural.int_from acc (NilEmpty.string_of_uint d)
  = N.of_nat (Nat.of_uint_acc d (N.to_nat acc)).
Proof.
  revert acc. induction d; intros acc; cbn [NilEmpty.string_of_uint Natural.int_from Nat.of_uint_acc];
    [rewrite N2Nat.id; reflexivity | ..];
    rewrite IHd; f_equal; f_equal; rewrite Nat.tail_mul_spec;
    match goal with
    | |- N.to_nat (_ + (?k - 48)) = _ =>
        let v := eval vm_compute in (k - 48)%N in change (k - 48)%N with v
    end; lia.
Qed.

Lemma decimal_uint (d : Decimal.uint) :
  Natural.all_chars Natural.is_decimal (NilEmpty.string_of_uint d) = true.
Proof. induction d; simpl; auto. Qed.

Lemma of_nat_digits (n : nat) :
  Str.of_nat n <> ""
  /\ Natural.all_chars Natural.is_decimal (Str.of_nat n) = true
  /\ Natural.int_from 0 (Str.of_nat n) = N.of_nat n.
Proof.
  unfold Str.of_nat. split; [| split].
  - pose proof (DecimalNat.Unsigned.to_of (Nat.to_uint n)) as H.
    rewrite DecimalNat.Unsigned.of_to in H. rewrite H.
    unfold Decimal.unorm. destruct (Decimal.nzhead (Nat.to_uint n)); discriminate.
  - apply decimal_uint.
  - rewrite int_from_uint. change (N.to_nat 0) with 0.
    change (Nat.of_uint_acc (Nat.to_uint n) 0) with (Nat.of_uint (Nat.to_uint n)).
    rewrite DecimalNat.Unsigned.of_to. reflexivity.
Qed.

Lemma key_ltb_text_number (t : string) (m n : N) :
  Natural.key_ltb [Natural.KStr t; Natural.KInt m; Natural.KStr ""]
                  [Natural.KStr t; Natural.KInt n; Natural.KStr ""]
  = N.ltb m n.
Proof.
  cbn [Natural.key_ltb Natural.item_eqb Natural.item_ltb]. rewrite String.eqb_refl.
  destruct (N.eqb_spec m n) as [-> | ne]; [| reflexivity].
  cbn. symmetry. apply N.ltb_irrefl.
Qed.

(** X5. Natural order.  Two names made of the same text without digits
    and a number are ordered by the numbers: the sort puts the name with
    the smaller number first, whatever the order in which they come, and
    keeps the given order when the numbers are equal. *)
Theorem natural_order_is_numeric (p : string) (m n : nat) (w : World) :
  Natural.all_chars (fun c => negb (Natural.isdigit_char c)) p = true ->
  let a := p ++ Str.of_nat m in
  let b := p ++ Str.of_nat n in
  (exists ka kb,
      Natural._natural_sort_key a = Some ka /\ Natural._natural_sort_key b = Some kb
      /\ Natural.key_ltb ka kb = Nat.ltb m n)
  /\ run (sorted_natural [a; b]) w = Ok (if Nat.ltb n m then [b; a] else [a; b]).
Proof.
  intros Hp a b.
  destruct (of_nat_digits m) as (Hm1 & Hm2 & Hm3).
  destruct (of_nat_digits n) as (Hn1 & Hn2 & Hn3).
  pose proof (key_text_number p _ Hp Hm1 Hm2) as Ka.
  pose proof (key_text_number p _ Hp Hn1 Hn2) as Kb.
  rewrite Hm3 in Ka. rewrite Hn3 in Kb. fold a in Ka. fold b in Kb.
  assert (L : forall x y : nat, N.ltb (N.of_nat x) (N.of_nat y) = Nat.ltb x y).
  { intros x y. destruct (Nat.ltb_spec x y), (N.ltb_spec (N.of_nat x) (N.of_nat y));
      try reflexivity; lia. }
  split.
  - eexists _, _. split; [exact Ka |]. split; [exact Kb |].
    rewrite key_ltb_text_number. apply L.
  - unfold sorted_natural. cbn [map Natural.sequence]. rewrite Ka, Kb.
    cbn [option_map Natural.sequence sorted fold_right insert_sorted snd].
    rewrite key_ltb_text_number, L. destruct (Nat.ltb n m); reflexivity.
Qed.

Lemma split_digits_pieces (P : ascii -> bool) (s : string) :
  Natural.all_chars P s = true ->
  Forall (fun t => Natural.all_chars P t = true) (Natural.re_split_digits s).
Proof.
  induction s as [| c r IH]; intros H; [repeat constructor |].
  cbn [Natural.all_chars] in H. apply andb_true_iff in H. destruct H as [Hc Hr].
  specialize (IH Hr). cbn [Natural.re_split_digits].
  destruct (Natural.re_split_digits r) as [| t tl].
  - constructor; [| constructor]. cbn [Natural.all_chars]. rewrite Hc, Hr. reflexivity.
  - inversion IH as [| ? ? Ht Htl]; subst.
    assert (H1 : Natural.all_chars P (String c "") = true)
      by (cbn [Natural.all_chars]; rewrite Hc; reflexivity).
    destruct (Natural.is_decimal c).
    + destruct r as [| c' r'].
      * repeat constructor; assumption.
      * destruct tl as [| d tl']; [repeat constructor; assumption |].
        inversion Htl; subst.
        destruct (Natural.is_decimal c'); repeat constructor; try assumption.
        cbn [Natural.all_chars]. rewrite Hc. assumption.
    + constructor; [| assumption]. cbn [Natural.all_chars]. rewrite Hc. assumption.
Qed.

Lemma convert_plain (t : string) :
  Natural.all_chars (fun c => negb (is_superscript c)) t = true ->
  exists i, Natural.convert t = Some i.
Proof.
  intros H. unfold Natural.convert. destruct (Natural.isdigit t) eqn:E; [| eauto].
  assert (D : Natural.all_chars Natural.is_decimal t = true).
  { unfold Natural.isdigit in E. apply andb_true_iff in E. destruct E as [_ E].
    revert H E. induction t as [| c t IH]; [reflexivity |]. cbn [Natural.all_chars].
    intros H E. apply andb_true_iff in H, E. destruct H as [Hc H], E as [Ec E].
    rewrite (IH H E), andb_true_r. unfold is_superscript in Hc. rewrite Ec in Hc.
    destruct (Natural.is_decimal c); [reflexivity | discriminate]. }
  rewrite D. eauto.
Qed.

Lemma sequence_some {A B : Type} (f : A -> option B) (l : list A) :
  Forall (fun x => exists y, f x = Some y) l ->
  exists l', Natural.sequence (map f l) = Some l'.
Proof.
  induction 1 as [| x l [y Hy] _ [l' IH]]; simpl; [eauto |].
  rewrite Hy, IH. eauto.
Qed.

Lemma sequence_none {A B : Type} (f : A -> option B) (l : list A) (x : A) :
  In x l -> f x = None -> Natural.sequence (map f l) = None.
Proof.
  induction l as [| y l IH]; simpl; [contradiction |].
  intros [-> | H] Hx; [rewrite Hx; reflexivity |].
  destruct (f y); [| reflexivity]. rewrite (IH H Hx). reflexivity.
Qed.

Lemma split_digits_superscripts (s : string) :
  Natural.all_chars is_superscript s = true -> Natural.re_split_digits s = [s].
Proof.
  induction s as [| c r IH]; [reflexivity |]. cbn [Natural.all_chars].
  intros H. apply andb_true_iff in H. destruct H as [Hc Hr].
  cbn [Natural.re_split_digits]. rewrite (IH Hr).
  unfold is_superscript in Hc. apply andb_true_iff in Hc. destruct Hc as [_ Hc].
  apply negb_true_iff in Hc. rewrite Hc. reflexivity.
Qed.

Lemma key_superscripts (s : string) :
  s <> "" -> Natural.all_chars is_superscript s = true ->
  Natural._natural_sort_key s = None.
Proof.
  intros Hne H. unfold Natural._natural_sort_key.
  rewrite (split_digits_superscripts s H). cbn [map Natural.sequence].
  unfold Natural.convert.
  assert (D : Natural.isdigit s = true).
  { unfold Natural.isdigit. destruct s as [| c r]; [congruence |].
    cbn [String.eqb negb andb]. clear Hne. revert H. generalize (String c r). clear.
    induction s as [| c s IH]; [reflexivity |]. cbn [Natural.all_chars]. intros H.
    apply andb_true_iff in H. destruct H as [Hc Hs]. rewrite (IH Hs).
    unfold is_superscript in Hc. apply andb_true_iff in Hc. destruct Hc as [-> _].
    reflexivity. }
  rewrite D. destruct s as [| c r]; [congruence |].
  cbn [Natural.all_chars] in *. apply andb_true_iff in H. destruct H as [Hc _].
  unfold is_superscript in Hc. apply andb_true_iff in Hc. destruct Hc as [_ Hc].
  apply negb_true_iff in Hc. rewrite Hc. reflexivity.
Qed.

(** X6. The sort key exists for every name without superscript digit, and
    for no name that is made of superscript digits: there [str.isdigit]
    holds and [int] raises. *)
Theorem natural_sort_key_defined (name : string) :
  (Natural.all_chars (fun c => negb (is_superscript c)) name = true ->
   exists key, Natural._natural_sort_key name = Some key)
  /\ (name <> "" -> Natural.all_chars is_superscript name = true ->
      Natural._natural_sort_key name = None).
Proof.
  split; [| apply key_superscripts].
  intros H. unfold Natural._natural_sort_key. apply sequence_some.
  eapply Forall_impl; [| apply (split_digits_pieces _ _ H)].
  intros t Ht. apply convert_plain, Ht.
Qed.

(** X6 at two samples: a name with decimal digits, and the superscript two. *)
Lemma natural_sort_key_defined_witness :
  (Natural.all_chars (fun c => negb (is_superscript c)) "test-12b" = true
   /\ String (ascii_of_nat 178) "" <> ""
   /\ Natural.all_chars is_superscript (String (ascii_of_nat 178) "") = true)
  /\ (exists key, Natural._natural_sort_key "test-12b" = Some key)
  /\ Natural._natural_sort_key (String (ascii_of_nat 178) "") = None.
Proof.
  split; [split; [reflexivity | split; [discriminate | reflexivity]] |].
  split.
  - apply (natural_sort_key_defined "test-12b"). reflexivity.
  - apply (natural_sort_key_defined (String (ascii_of_nat 178) "")); [discriminate | reflexivity].
Defined.

(* ====================================================================== *)
(** ** What a check leaves as it is                                      *)
(* ====================================================================== *)

Create HintDb pres discriminated.

Section Preserving.

Context {lib : PyLib}.
Context {R : World -> World -> Prop} {okh : handle -> Prop} {fixing : Prop}.
Context {frame : Frame R okh fixing}.

Lemma pres_ret {A : Type} (a : A) : preserves R (ret a).
Proof. intros w. apply frame_refl. Qed.

Lemma pres_raise {A : Type} (e : exn) : preserves R (@raise A e).
Proof. intros w. apply frame_refl. Qed.

Lemma pres_gets {A : Type} (f : World -> A) : preserves R (gets f).
Proof. intros w. apply frame_refl. Qed.

Lemma pres_bind {A B : Type} (m : M A) (k : A -> M B) :
  preserves R m -> (forall a, preserves R (k a)) -> preserves R (bind m k).
Proof.
  intros Hm Hk w. rewrite exec_bind.
  destruct (run m w); [eapply frame_trans; [apply Hm | apply Hk] | apply Hm].
Qed.

Lemma pres_when (b : bool) (m : M unit) :
  (b = true -> preserves R m) -> preserves R (when b m).
Proof. intros Hm. destruct b; [apply Hm; reflexivity | apply pres_ret]. Qed.

Lemma pres_for_each {A : Type} (l : list A) (body : A -> M unit) :
  (forall x, preserves R (body x)) -> preserves R (for_each l body).
Proof.
  intros Hb. induction l as [| x l IH]; simpl.
  - apply pres_ret.
  - apply pres_bind; [apply Hb | intros _; exact IH].
Qed.

Lemma pres_for_counting {A : Type} (l : list A)
    (body : A -> nat * nat -> M (nat * nat)) :
  (forall x c, preserves R (body x c)) -> forall c, preserves R (for_counting l body c).
Proof.
  intros Hb. induction l as [| x l IH]; intros c; simpl.
  - apply pres_ret.
  - apply pres_bind; [apply Hb | intros c'; apply IH].
Qed.

(** A computation that leaves the state alone. *)
Lemma pres_pure {A : Type} (m : M A) : (forall w, exec m w = w) -> preserves R m.
Proof. intros H w. rewrite H. apply frame_refl. Qed.

Lemma pres_exists (p : Path.t) : preserves R (IO.exists_ p).
Proof. apply pres_gets. Qed.

Lemma pres_is_dir (p : Path.t) : preserves R (IO.is_dir p).
Proof. apply pres_gets. Qed.

Lemma pres_st_size (p : Path.t) : preserves R (IO.st_size p).
Proof. apply pres_pure, exec_st_size. Qed.

Lemma pres_read_text (p : Path.t) : preserves R (IO.read_text p).
Proof. apply pres_pure, exec_read_text. Qed.

Lemma pres_iterdir (p : Path.t) : preserves R (IO.iterdir p).
Proof.
  apply pres_bind; [apply pres_gets |].
  intros [[s | es] |]; first [apply pres_ret | apply pres_raise].
Qed.

Lemma pres_url_accessible (url : string) : preserves R (url_accessible url).
Proof. apply pres_bind; [apply frame_http | intros; apply pres_ret]. Qed.

Lemma pres_sorted_natural (names : list string) : preserves R (sorted_natural names).
Proof.
  unfold sorted_natural. destruct (Natural.sequence _); [apply pres_ret | apply pres_raise].
Qed.

#[local] Hint Resolve pres_ret pres_raise pres_gets pres_exists pres_is_dir pres_st_size
  pres_read_text pres_iterdir pres_url_accessible pres_sorted_natural : pres.

Ltac pres_base :=
  first [ apply frame_http | apply frame_fail | apply frame_warn | apply frame_ok
        | apply frame_info | apply frame_fixed | apply frame_write | apply frame_mkdir
        | apply frame_count ];
  auto.

Ltac pres_step :=
  match goal with
  | |- preserves _ (bind _ _) => apply pres_bind; [| intros ?]
  | |- preserves _ (when _ _) => apply pres_when; intros ?
  | |- preserves _ (for_each _ _) => apply pres_for_each; intros ?
  | |- preserves _ (for_counting _ _ _) => apply pres_for_counting; intros ? ?
  | |- preserves _ (match ?x with _ => _ end) => destruct x
  | |- preserves _ _ => solve [auto with pres | pres_base]
  end.

Ltac pres := repeat pres_step.

Lemma pres_only_dirs (parent : Path.t) (names : list string) :
  preserves R (only_dirs parent names).
Proof. induction names as [| d rest IH]; simpl; pres. Qed.

Lemma pres_parse_error (h : handle) (err : option exn) :
  okh h -> preserves R (parse_error h err).
Proof. intros Hh. unfold parse_error. pres. Qed.

Lemma pres_check_html_structure (h : handle) (v : HTMLStructureValidator.t) (verbose : bool) :
  okh h -> preserves R (_check_html_structure h v verbose).
Proof. intros Hh. unfold _check_html_structure. pres. Qed.

Lemma pres_link_present (target : Path.t) : preserves R (link_present target).
Proof. unfold link_present. pres. Qed.

Lemma pres_check_link (h : handle) (page_dir : Path.t) (verbose : bool)
    (href : string) (c : nat * nat) :
  okh h -> preserves R (check_link h page_dir verbose href c).
Proof. intros Hh. unfold check_link. pres; auto using pres_link_present. Qed.

Lemma pres_check_internal_links (h : handle) (v : HTMLStructureValidator.t)
    (page_dir : Path.t) (verbose : bool) :
  okh h -> preserves R (_check_internal_links h v page_dir verbose).
Proof. intros Hh. unfold _check_internal_links. pres; apply pres_check_link, Hh. Qed.

Lemma pres_check_asset (h : handle) (page_dir : Path.t) (verbose : bool)
    (asset : string * option string) (c : nat * nat) :
  okh h -> preserves R (check_asset h page_dir verbose asset c).
Proof. intros Hh. unfold check_asset. pres. Qed.

Lemma pres_check_assets (h : handle) (v : HTMLStructureValidator.t)
    (page_dir : Path.t) (verbose : bool) :
  okh h -> preserves R (_check_assets h v page_dir verbose).
Proof. intros Hh. unfold _check_assets. pres; apply pres_check_asset, Hh. Qed.

Lemma pres_write_index_json (data : list pyval) :
  fixing -> preserves R (write_index_json data).
Proof. intros Hf. unfold write_index_json. pres. Qed.

Lemma pres_fix_create_index_json (h : handle) :
  okh h -> fixing -> preserves R (_fix_create_index_json h).
Proof.
  intros Hh Hf. unfold _fix_create_index_json. pres;
    auto using pres_only_dirs, pres_write_index_json.
Qed.

Lemma pres_fix_add_index_entry (h : handle) (data : list pyval) (d : string) :
  okh h -> fixing -> preserves R (_fix_add_index_entry h data d).
Proof. intros Hh Hf. unfold _fix_add_index_entry. pres; auto using pres_write_index_json. Qed.

Lemma pres_py_len (v : pyval) : preserves R (py_len v).
Proof. unfold py_len. pres. Qed.

Lemma pres_fix_broken_json (h : handle) (raw : string) :
  okh h -> fixing -> preserves R (_fix_broken_json h raw).
Proof. intros Hh Hf. unfold _fix_broken_json. pres; auto using pres_py_len. Qed.

Lemma pres_fix_create_placeholder (h : handle) (p : Path.t) (d : string) :
  okh h -> fixing -> preserves R (_fix_create_placeholder h p d).
Proof. intros Hh Hf. unfold _fix_create_placeholder. pres. Qed.

Lemma pres_check_entry (h : handle) (verbose : bool) (i : nat) (entry : pyval) :
  okh h -> preserves R (check_entry h verbose i entry).
Proof. intros Hh. unfold check_entry, check_required_fields. pres. Qed.

Lemma pres_check_entries (h : handle) (verbose : bool) (data : list pyval) :
  okh h -> preserves R (check_entries h verbose data).
Proof. intros Hh. unfold check_entries. pres. apply pres_check_entry, Hh. Qed.

Lemma pres_indexed_dir (entry : pyval) : preserves R (indexed_dir entry).
Proof. unfold indexed_dir. pres. Qed.

Lemma pres_indexed_dirs (data : list pyval) : preserves R (indexed_dirs data).
Proof.
  induction data as [| e rest IH]; simpl; pres; auto using pres_indexed_dir.
Qed.

Lemma pres_check_orphans (h : handle) (fix_ : bool) (indexed : list string)
    (names : list string) :
  okh h -> (fix_ = true -> fixing) ->
  forall data, preserves R (check_orphans h fix_ indexed data names).
Proof.
  intros Hh Hf. induction names as [| d rest IH]; intros data; simpl; pres;
    auto using pres_fix_add_index_entry.
Qed.

(** The part of a computation [h <- report_add c ;; k h] after the
    result was added. *)
Lemma after_add {A : Type} (c : CheckResult.t) (k : handle -> M A) (w : World) :
  (forall h, h = List.length (QAReport.results (report w)) -> preserves R (k h)) ->
  R (exec (report_add c) w) (exec (bind (report_add c) k) w).
Proof.
  intros H. rewrite exec_bind, run_report_add. apply H. reflexivity.
Qed.

Lemma check_main_index_after_add (verbose : bool) (w : World) :
  okh (List.length (QAReport.results (report w))) ->
  R (exec (report_add (CheckResult.init "Main index.html" "structure")) w)
    (exec (check_main_index verbose) w).
Proof.
  intros Hh. unfold check_main_index. apply after_add. intros h ->.
  pres; auto using pres_parse_error, pres_check_html_structure.
Qed.

Lemma check_index_json_after_add (verbose fix_ : bool) (w : World) :
  okh (List.length (QAReport.results (report w))) -> (fix_ = true -> fixing) ->
  R (exec (report_add (CheckResult.init "index.json validation" "data")) w)
    (exec (check_index_json verbose fix_) w).
Proof.
  intros Hh Hf. unfold check_index_json. apply after_add. intros h ->.
  pres;
    auto using pres_fix_create_index_json, pres_fix_broken_json,
      pres_check_entries, pres_indexed_dirs, pres_check_orphans.
Qed.

Lemma check_page_after_add (verbose fix_ : bool) (name : string) (w : World) :
  okh (List.length (QAReport.results (report w))) -> (fix_ = true -> fixing) ->
  R (exec (report_add (CheckResult.init ("Page: " ++ name) "page")) w)
    (exec (check_page verbose fix_ name) w).
Proof.
  intros Hh Hf. unfold check_page. apply after_add. intros h ->.
  pres;
    auto using pres_fix_create_placeholder, pres_check_html_structure,
      pres_check_internal_links, pres_check_assets.
Qed.

End Preserving.

(* ---------------------------------------------------------------------- *)
(** Whole checks, for a relation that adding a fresh result keeps. *)

Section Whole.

Context {lib : PyLib}.
Context {R : World -> World -> Prop} {fixing : Prop}.
Context {frame : Frame R (fun _ => True) fixing}.
Hypothesis R_add : forall name category, preserves R (report_add (CheckResult.init name category)).

Lemma whole_main_index (verbose : bool) : preserves R (check_main_index verbose).
Proof.
  intros w. eapply frame_trans; [apply R_add |].
  apply check_main_index_after_add. exact I.
Qed.

Lemma whole_index_json (verbose fix_ : bool) :
  (fix_ = true -> fixing) -> preserves R (check_index_json verbose fix_).
Proof.
  intros Hf w. eapply frame_trans; [apply R_add |].
  apply check_index_json_after_add; [exact I | exact Hf].
Qed.

Lemma whole_page (verbose fix_ : bool) (name : string) :
  (fix_ = true -> fixing) -> preserves R (check_page verbose fix_ name).
Proof.
  intros Hf w. eapply frame_trans; [apply R_add |].
  apply check_page_after_add; [exact I | exact Hf].
Qed.

Lemma whole_pages (verbose fix_ : bool) (names : list string) :
  (fix_ = true -> fixing) -> preserves R (check_pages verbose fix_ names).
Proof.
  intros Hf. induction names as [| n rest IH]; simpl.
  - apply pres_ret.
  - apply pres_bind; [apply whole_page, Hf | intros h].
    apply pres_bind; [exact IH | intros hs; apply pres_ret].
Qed.

Lemma whole_project_pages (verbose fix_ : bool) :
  (fix_ = true -> fixing) -> preserves R (check_project_pages verbose fix_).
Proof.
  intros Hf. unfold check_project_pages.
  apply pres_bind; [apply pres_exists | intros present].
  destruct (negb present).
  - apply pres_bind; [apply R_add | intros r].
    apply pres_bind; [apply frame_fail; exact I | intros _; apply pres_ret].
  - apply pres_bind; [apply pres_iterdir | intros names].
    apply pres_bind; [apply pres_only_dirs | intros dirs].
    apply pres_bind; [apply pres_sorted_natural | intros test_dirs].
    apply whole_pages, Hf.
Qed.

Lemma whole_main (page : QAReport.t -> string) (args : Args.t) :
  (Args.fix_ args = true -> fixing) ->
  preserves R report_finalize ->
  (Args.report args = true -> preserves R (generate_html_report page)) ->
  preserves R (main page args).
Proof.
  intros Hf Hfin Hrep. unfold main.
  apply pres_bind; [apply whole_main_index | intros _].
  apply pres_bind; [apply whole_index_json, Hf | intros _].
  apply pres_bind; [apply whole_project_pages, Hf | intros _].
  apply pres_bind.
  - destruct (Args.report args); [| exact Hfin].
    apply pres_bind; [exact Hfin | intros _].
    apply pres_bind; [apply Hrep; reflexivity | intros _; apply pres_ret].
  - intros _. apply pres_bind; [apply pres_gets | intros r; apply pres_ret].
Qed.

End Whole.

(* ---------------------------------------------------------------------- *)
(** A run without the fix option *)

#[export] Instance same_tree_frame : Frame same_tree (fun _ => True) False.
Proof.
  split; try contradiction; try (intros; intros w; split; reflexivity).
  - intros w. split; reflexivity.
  - intros a b c [H1 H2] [H3 H4]. split; congruence.
Qed.

Lemma no_new_fix_on_result (h : handle) (f : CheckResult.t -> CheckResult.t) :
  (forall r, CheckResult.status (f r) = "FIXED" -> CheckResult.status r = "FIXED") ->
  preserves no_new_fix (on_result h f).
Proof.
  intros Hf w. split; [reflexivity |]. intros h'.
  unfold status_at. destruct (Nat.eq_dec h' h) as [-> | ne].
  - rewrite result_at_on_result. destruct (result_at w h) as [r |]; simpl; [| discriminate].
    intros H. injection H as H. rewrite (Hf r H). reflexivity.
  - rewrite result_at_on_result_other by congruence. auto.
Qed.

#[export] Instance no_new_fix_frame : Frame no_new_fix (fun _ => True) False.
Proof.
  split; try contradiction.
  - intros w. split; [reflexivity | auto].
  - intros a b c [H1 H2] [H3 H4]. split; [congruence | auto].
  - intros url w. split; [reflexivity | auto].
  - intros h msg _. apply no_new_fix_on_result. discriminate.
  - intros h msg _. apply no_new_fix_on_result. intros r. simpl.
    destruct (String.eqb (CheckResult.status r) "PASS"); [discriminate | auto].
  - intros h msg _. apply no_new_fix_on_result. auto.
  - intros h msg _. apply no_new_fix_on_result. auto.
Qed.

Lemma no_new_fix_add (name category : string) :
  preserves no_new_fix (report_add (CheckResult.init name category)).
Proof.
  intros w. split; [reflexivity |]. intros h. unfold status_at, result_at, exec, report_add.
  cbn [snd report set_report QAReport.results].
  destruct (Nat.lt_ge_cases h (List.length (QAReport.results (report w)))) as [Hlt | Hge].
  - rewrite nth_error_app1 by exact Hlt. auto.
  - rewrite nth_error_app2 by exact Hge.
    destruct (h - List.length (QAReport.results (report w))) as [| [| k]]; discriminate.
Qed.

Section DryRun.

Context {lib : PyLib}.

(** X7. A run without the fix and report options never changes the file
    tree: each of the three checks leaves it as it is, whether it
    returns or raises, and so does [main]. *)
Theorem run_without_fix_keeps_files (verbose quiet : bool) (page : QAReport.t -> string)
    (w : World) :
  tree (exec (check_main_index verbose) w) = tree w
  /\ tree (exec (check_index_json verbose false) w) = tree w
  /\ tree (exec (check_project_pages verbose false) w) = tree w
  /\ tree (exec (main page (Args.Make false verbose false quiet)) w) = tree w.
Proof.
  assert (Hadd : forall name category,
             preserves same_tree (report_add (CheckResult.init name category)))
    by (intros; intros w0; split; reflexivity).
  repeat split.
  - apply (whole_main_index Hadd).
  - apply (whole_index_json Hadd); discriminate.
  - apply (whole_project_pages Hadd); discriminate.
  - apply (whole_main Hadd); try discriminate. intros w0. split; reflexivity.
Qed.

(** X8. A run without the fix option counts no fix and gives no result
    the status FIXED, with or without the report option. *)
Theorem run_without_fix_never_fixes (verbose report_ quiet : bool)
    (page : QAReport.t -> string) (w : World) :
  let w' := exec (main page (Args.Make false verbose report_ quiet)) w in
  QAReport.fixes_applied (report w') = QAReport.fixes_applied (report w)
  /\ forall h, status_at w' h = Some "FIXED" -> status_at w h = Some "FIXED".
Proof.
  apply (whole_main no_new_fix_add); try discriminate.
  - intros w0. split; [reflexivity | auto].
  - intros _ w0. unfold no_new_fix, status_at, result_at.
    assert (E : report (exec (generate_html_report page) w0) = report w0).
    { unfold generate_html_report. rewrite exec_bind, run_gets, exec_gets.
      rewrite exec_bind. destruct (run (IO.mkdir _) w0); [| apply mkdir_report].
      rewrite exec_bind.
      destruct (run (IO.write_text _ _) _);
        rewrite ?exec_ret, write_text_report, mkdir_report; reflexivity. }
    rewrite E. split; [reflexivity | auto].
Qed.

End DryRun.

(* ---------------------------------------------------------------------- *)
(** One result for each check *)

Lemma alter_nth_id {A : Type} (h : nat) (l : list A) : alter_nth (fun x => x) h l = l.
Proof.
  revert h. induction l as [| x l IH]; intros [| h]; simpl; try reflexivity.
  rewrite IH. reflexivity.
Qed.

Lemma alter_nth_twice {A : Type} (f g : A -> A) (h : nat) (l : list A) :
  alter_nth g h (alter_nth f h l) = alter_nth (fun x => g (f x)) h l.
Proof.
  revert h. induction l as [| x l IH]; intros [| h]; simpl; try reflexivity.
  rewrite IH. reflexivity.
Qed.

Lemma alter_nth_last {A : Type} (f : A -> A) (l : list A) (x : A) :
  alter_nth f (List.length l) (l ++ [x])%list = (l ++ [f x])%list.
Proof. induction l as [| y l IH]; simpl; [reflexivity | rewrite IH; reflexivity]. Qed.

Lemma only_result_same (h : handle) (w w' : World) :
  report w' = report w -> only_result h w w'.
Proof.
  intros E. exists (fun r => r). split; [auto |]. rewrite E, alter_nth_id. reflexivity.
Qed.

Lemma only_result_on (h : handle) (f : CheckResult.t -> CheckResult.t) :
  (forall r, CheckResult.name (f r) = CheckResult.name r
             /\ CheckResult.category (f r) = CheckResult.category r) ->
  preserves (only_result h) (on_result h f).
Proof. intros Hf w. exists f. split; [exact Hf | reflexivity]. Qed.

#[export] Instance only_result_frame (h : handle) : Frame (only_result h) (eq h) True.
Proof.
  split.
  - intros w. apply only_result_same. reflexivity.
  - intros a b c (f & Hf & E1) (g & Hg & E2). exists (fun r => g (f r)). split.
    + intros r. destruct (Hf r) as [F1 F2], (Hg (f r)) as [G1 G2]. split; congruence.
    + rewrite E2, E1. apply alter_nth_twice.
  - intros url w. apply only_result_same. reflexivity.
  - intros h' msg <-. apply only_result_on. auto.
  - intros h' msg <-. apply only_result_on. auto.
  - intros h' msg <-. apply only_result_on. auto.
  - intros h' msg <-. apply only_result_on. auto.
  - intros h' msg <- _. apply only_result_on. auto.
  - intros p s _ w. apply only_result_same, write_text_report.
  - intros p _ w. apply only_result_same, mkdir_report.
  - intros _ w. exists (fun r => r). split; [auto |]. simpl. rewrite alter_nth_id. reflexivity.
Qed.

(** From a change of the added result alone to the results of the check. *)
Lemma added_result (c : CheckResult.t) (w w' : World) :
  only_result (List.length (QAReport.results (report w))) (exec (report_add c) w) w' ->
  exists r, QAReport.results (report w') = (QAReport.results (report w) ++ [r])%list
            /\ CheckResult.name r = CheckResult.name c
            /\ CheckResult.category r = CheckResult.category c.
Proof.
  intros (f & Hf & E). exists (f c). split; [| apply Hf].
  rewrite E. unfold exec, report_add. cbn [snd report set_report QAReport.results].
  apply alter_nth_last.
Qed.

Section OneResult.

Context {lib : PyLib}.

Lemma main_index_adds_result (verbose : bool) (w : World) :
  exists r, QAReport.results (report (exec (check_main_index verbose) w))
            = (QAReport.results (report w) ++ [r])%list
            /\ CheckResult.name r = "Main index.html"
            /\ CheckResult.category r = "structure".
Proof.
  apply (added_result (CheckResult.init "Main index.html" "structure")).
  apply check_main_index_after_add. reflexivity.
Qed.

Lemma index_json_adds_result (verbose fix_ : bool) (w : World) :
  exists r, QAReport.results (report (exec (check_index_json verbose fix_) w))
            = (QAReport.results (report w) ++ [r])%list
            /\ CheckResult.name r = "index.json validation"
            /\ CheckResult.category r = "data".
Proof.
  apply (added_result (CheckResult.init "index.json validation" "data")).
  apply check_index_json_after_add; [reflexivity | exact (fun _ => I)].
Qed.

Lemma page_adds_result (verbose fix_ : bool) (name : string) (w : World) :
  exists r, QAReport.results (report (exec (check_page verbose fix_ name) w))
            = (QAReport.results (report w) ++ [r])%list
            /\ CheckResult.name r = "Page: " ++ name
            /\ CheckResult.category r = "page".
Proof.
  apply (added_result (CheckResult.init ("Page: " ++ name) "page")).
  apply check_page_after_add; [reflexivity | exact (fun _ => I)].
Qed.

(** X9. Each check adds exactly one result to the report, with the name
    and the category of the check, and changes no result that was
    there: whatever the options, the site and the answers of the
    server, and also when an exception ends the check. *)
Theorem each_check_adds_one_result (verbose fix_ : bool) (name : string) (w : World) :
  (exists r, QAReport.results (report (exec (check_main_index verbose) w))
             = (QAReport.results (report w) ++ [r])%list
             /\ CheckResult.name r = "Main index.html"
             /\ CheckResult.category r = "structure")
  /\ (exists r, QAReport.results (report (exec (check_index_json verbose fix_) w))
                = (QAReport.results (report w) ++ [r])%list
                /\ CheckResult.name r = "index.json validation"
                /\ CheckResult.category r = "data")
  /\ (exists r, QAReport.results (report (exec (check_page verbose fix_ name) w))
                = (QAReport.results (report w) ++ [r])%list
                /\ CheckResult.name r = "Page: " ++ name
                /\ CheckResult.category r = "page").
Proof.
  split; [| split].
  - apply main_index_adds_result.
  - apply index_json_adds_result.
  - apply page_adds_result.
Qed.

End OneResult.

(* ---------------------------------------------------------------------- *)
(** The page checks, in the natural order of the directories *)

Lemma returns_ret {A : Type} (a : A) : returns a (ret a).
Proof. intros w b H. injection H as <-. reflexivity. Qed.

Lemma returns_bind {A B : Type} (b : B) (m : M A) (k : A -> M B) :
  (forall a, returns b (k a)) -> returns b (bind m k).
Proof.
  intros Hk w x. rewrite run_bind. destruct (run m w); [apply Hk | discriminate].
Qed.

Ltac returns_step :=
  match goal with
  | |- returns _ (bind _ _) => apply returns_bind; intros ?
  | |- returns _ (ret _) => apply returns_ret
  | |- returns _ (match ?x with _ => _ end) => destruct x
  end.

Lemma insert_sorted_perm {A : Type} (ltb : A -> A -> bool) (x : A) (l : list A) :
  Permutation (x :: l) (insert_sorted ltb x l).
Proof.
  induction l as [| y l IH]; simpl; [apply Permutation_refl |].
  destruct (ltb y x); [| apply Permutation_refl].
  eapply Permutation_trans; [apply perm_swap | apply perm_skip, IH].
Qed.

Lemma sorted_perm {A : Type} (ltb : A -> A -> bool) (l : list A) :
  Permutation l (sorted ltb l).
Proof.
  induction l as [| x l IH]; simpl; [apply perm_nil |].
  eapply Permutation_trans; [apply perm_skip, IH | apply insert_sorted_perm].
Qed.

Lemma sequence_keyed {A : Type} (f : string -> option A) (names : list string)
    (keyed : list (string * A)) :
  Natural.sequence (map (fun n => option_map (pair n) (f n)) names) = Some keyed ->
  map fst keyed = names.
Proof.
  revert keyed. induction names as [| n names IH]; simpl; intros keyed H.
  - injection H as <-. reflexivity.
  - destruct (f n); [| discriminate]. simpl in H.
    destruct (Natural.sequence _) as [k |]; [| discriminate].
    injection H as <-. simpl. rewrite (IH k eq_refl). reflexivity.
Qed.

(** The sort returns the names it was given, each as often, and leaves
    the state alone. *)
Lemma sorted_natural_ok (names sorted_names : list string) (w : World) :
  run (sorted_natural names) w = Ok sorted_names ->
  Permutation names sorted_names /\ exec (sorted_natural names) w = w.
Proof.
  unfold sorted_natural.
  destruct (Natural.sequence _) as [keyed |] eqn:E; [| discriminate].
  intros H. injection H as <-. split; [| reflexivity].
  rewrite <- (sequence_keyed _ _ _ E). apply Permutation_map, sorted_perm.
Qed.

Lemma exec_sorted_natural (names : list string) (w : World) :
  exec (sorted_natural names) w = w.
Proof. unfold sorted_natural. destruct (Natural.sequence _); reflexivity. Qed.

Lemma only_dirs_ok (parent : Path.t) (names : list string) (w : World) :
  only_dirs parent names w
  = (Ok (filter (fun d => FS.is_dir (IO.stat w (Path.child parent d))) names), w).
Proof.
  induction names as [| d rest IH]; [reflexivity |].
  cbn [only_dirs filter]. unfold bind at 1. unfold IO.is_dir at 1, gets.
  unfold bind at 1. rewrite IH. unfold ret.
  destruct (FS.is_dir (IO.stat w (Path.child parent d))); reflexivity.
Qed.

Section Pages.

Context {lib : PyLib}.

Lemma check_page_returns (verbose fix_ : bool) (name : string) (w : World) (h : handle) :
  run (check_page verbose fix_ name) w = Ok h ->
  h = List.length (QAReport.results (report w)).
Proof.
  unfold check_page. rewrite run_bind, run_report_add.
  generalize (List.length (QAReport.results (report w))) as n.
  generalize (exec (report_add (CheckResult.init ("Page: " ++ name) "page")) w) as w1.
  intros w1 n. revert w1 h.
  change (returns n
    (present <- IO.exists_ (Path.child PROJECTS_DIR name // "index.html") ;;
     if negb present then
       result_fail n "index.html does not exist" ;;
       when fix_ (_fix_create_placeholder n (Path.child PROJECTS_DIR name // "index.html") name) ;;
       ret n
     else
       content <- IO.read_text (Path.child PROJECTS_DIR name // "index.html") ;;
       if Nat.eqb (String.length (Str.strip content)) 0 then
         result_fail n "index.html is empty (0 bytes)" ;;
         when fix_ (_fix_create_placeholder n (Path.child PROJECTS_DIR name // "index.html") name) ;;
         ret n
       else
         result_ok n
           ("File exists (" ++ Str.of_nat (String.length content) ++ " bytes)") ;;
         match HTMLStructureValidator.feed HTMLStructureValidator.init content with
         | (_, Some e) =>
             result_warn n ("HTML parse error: " ++ exn_text e) ;;
             ret n
         | (validator, None) =>
             _check_html_structure n validator verbose ;;
             code <- http_get (PROJECTS_URL ++ name ++ "/index.html") ;;
             (if Z.eqb code 200 then result_ok n "HTTP 200 OK"
              else result_fail n ("HTTP " ++ Str.of_Z code ++ " from "
                                  ++ (PROJECTS_URL ++ name ++ "/index.html"))) ;;
             _check_internal_links n validator (Path.child PROJECTS_DIR name) verbose ;;
             _check_assets n validator (Path.child PROJECTS_DIR name) verbose ;;
             ret n
         end)).
  repeat returns_step.
Qed.

(** The results that the page checks add: one for each name in turn,
    as far as the loop gets. *)
Lemma check_pages_results (verbose fix_ : bool) (names : list string) (w : World) :
  exists k rs,
    k <= List.length names
    /\ QAReport.results (report (exec (check_pages verbose fix_ names) w))
       = (QAReport.results (report w) ++ rs)%list
    /\ map CheckResult.name rs = map (append "Page: ") (firstn k names)
    /\ Forall (fun r => CheckResult.category r = "page") rs
    /\ forall hs, run (check_pages verbose fix_ names) w = Ok hs ->
         k = List.length names
         /\ hs = seq (List.length (QAReport.results (report w))) (List.length names).
Proof.
  revert w. induction names as [| n rest IH]; intros w.
  - exists 0, []. split; [apply le_n |].
    split; [cbn; rewrite app_nil_r; reflexivity |].
    split; [reflexivity |]. split; [constructor |].
    intros hs H. injection H as <-. split; reflexivity.
  - cbn [check_pages]. rewrite exec_bind, run_bind.
    destruct (page_adds_result verbose fix_ n w) as (r1 & E1 & N1 & C1).
    destruct (run (check_page verbose fix_ n) w) as [h | e] eqn:Hrun.
    + apply check_page_returns in Hrun. subst h.
      destruct (IH (exec (check_page verbose fix_ n) w)) as (k & rs & Hk & E & N & C & Hok).
      exists (S k), (r1 :: rs). split; [simpl; lia |]. split; [| split; [| split]].
      * rewrite exec_bind.
        destruct (run (check_pages verbose fix_ rest) _); rewrite ?exec_ret, E, E1, <- app_assoc;
          reflexivity.
      * cbn [map firstn]. rewrite N1, N. reflexivity.
      * constructor; assumption.
      * intros hs. rewrite run_bind.
        destruct (run (check_pages verbose fix_ rest) _) as [hs' |] eqn:Hrest; [| discriminate].
        rewrite run_ret. intros H. injection H as <-.
        destruct (Hok hs' eq_refl) as [-> ->]. split; [reflexivity |].
        rewrite E1, length_app. cbn [List.length seq]. rewrite Nat.add_1_r. reflexivity.
    + exists 1, [r1]. split; [simpl; lia |]. split; [exact E1 |].
      split; [cbn; rewrite N1; reflexivity |]. split; [repeat constructor; exact C1 |].
      discriminate.
Qed.

Lemma check_project_pages_listing (verbose fix_ : bool) (w : World)
    (es : list (string * FS.node)) :
  IO.stat w PROJECTS_DIR = Some (FS.Dir es) ->
  check_project_pages verbose fix_ w
  = bind (sorted_natural
            (filter (fun d => FS.is_dir (IO.stat w (Path.child PROJECTS_DIR d))) (map fst es)))
         (check_pages verbose fix_) w.
Proof.
  intros H. unfold check_project_pages.
  rewrite (bind_run _ _ w true) by (rewrite run_exists, H; reflexivity).
  rewrite exec_exists. cbn [negb]. cbv iota.
  rewrite (bind_run _ _ w (map fst es))
    by (unfold run, IO.iterdir, bind, gets; rewrite H; reflexivity).
  replace (exec (IO.iterdir PROJECTS_DIR) w) with w
    by (unfold exec, IO.iterdir, bind, gets; rewrite H; reflexivity).
  unfold bind at 1. rewrite only_dirs_ok. reflexivity.
Qed.

(** X10. When the projects directory is there and the page check returns,
    it has added one result for each directory in it, named after the
    directory, in the natural order of the names, after the results
    that were there; the handles it returns are those of the added
    results.  Every directory is checked once. *)
Theorem pages_checked_in_natural_order (verbose fix_ : bool) (w : World)
    (es : list (string * FS.node)) (hs : list handle) :
  IO.stat w PROJECTS_DIR = Some (FS.Dir es) ->
  run (check_project_pages verbose fix_) w = Ok hs ->
  let dirs := filter (fun d => FS.is_dir (IO.stat w (Path.child PROJECTS_DIR d)))
                     (map fst es) in
  exists names rs,
    run (sorted_natural dirs) w = Ok names
    /\ Permutation dirs names
    /\ QAReport.results (report (exec (check_project_pages verbose fix_) w))
       = (QAReport.results (report w) ++ rs)%list
    /\ map CheckResult.name rs = map (append "Page: ") names
    /\ hs = seq (List.length (QAReport.results (report w))) (List.length names).
Proof.
  intros Hdir Hrun dirs. unfold run, exec in *.
  rewrite (check_project_pages_listing verbose fix_ w es Hdir) in *. fold dirs in Hrun |- *.
  fold (run (bind (sorted_natural dirs) (check_pages verbose fix_)) w) in Hrun.
  fold (exec (bind (sorted_natural dirs) (check_pages verbose fix_)) w).
  fold (run (sorted_natural dirs) w).
  rewrite run_bind in Hrun. rewrite exec_bind.
  destruct (run (sorted_natural dirs) w) as [names |] eqn:Hs; [| discriminate].
  destruct (sorted_natural_ok _ _ _ Hs) as [Hperm Hw]. rewrite Hw in *.
  destruct (check_pages_results verbose fix_ names w) as (k & rs & Hk & E & N & _ & Hok).
  destruct (Hok hs Hrun) as [-> ->]. rewrite firstn_all in N.
  exists names, rs. auto.
Qed.

End Pages.

Section Order.

Context {lib : PyLib}.

Lemma generate_html_report_report (page : QAReport.t -> string) (w : World) :
  report (exec (generate_html_report page) w) = report w.
Proof.
  unfold generate_html_report. rewrite exec_bind, run_gets, exec_gets.
  rewrite exec_bind. destruct (run (IO.mkdir _) w); [| apply mkdir_report].
  rewrite exec_bind.
  destruct (run (IO.write_text _ _) _);
    rewrite ?exec_ret, write_text_report, mkdir_report; reflexivity.
Qed.

Lemma check_project_pages_missing (verbose fix_ : bool) (w : World) :
  IO.stat w PROJECTS_DIR = None ->
  check_project_pages verbose fix_ w
  = (Ok [], exec (result_fail (List.length (QAReport.results (report w)))
                    "Directory not found: public/clawdbot/projects")
              (exec (report_add (CheckResult.init "Projects directory" "structure")) w)).
Proof.
  intros H. unfold check_project_pages.
  rewrite (bind_run _ _ w false) by (rewrite run_exists, H; reflexivity).
  reflexivity.
Qed.

Lemma missing_projects_results (verbose fix_ : bool) (w : World) :
  IO.stat w PROJECTS_DIR = None ->
  QAReport.results (report (exec (check_project_pages verbose fix_) w))
  = (QAReport.results (report w)
     ++ [CheckResult.fail (CheckResult.init "Projects directory" "structure")
           "Directory not found: public/clawdbot/projects"])%list.
Proof.
  intros H. unfold exec at 1. rewrite (check_project_pages_missing verbose fix_ w H).
  cbn [snd]. unfold exec, result_fail, on_result, modify, report_add.
  cbn [snd report set_report QAReport.results].
  apply (alter_nth_last (fun r => CheckResult.fail r _)).
Qed.

(** X11. When the projects directory is missing, the page check records
    one failed result named [Projects directory] and returns no handle:
    no page is checked and, also with the fix option, nothing is
    created and no fix is counted; the run cannot pass any more. *)
Theorem missing_projects_directory (verbose fix_ : bool) (w : World) :
  IO.stat w PROJECTS_DIR = None ->
  let w' := exec (check_project_pages verbose fix_) w in
  run (check_project_pages verbose fix_) w = Ok []
  /\ QAReport.results (report w')
     = (QAReport.results (report w)
        ++ [CheckResult.fail (CheckResult.init "Projects directory" "structure")
              "Directory not found: public/clawdbot/projects"])%list
  /\ tree w' = tree w
  /\ QAReport.fixes_applied (report w') = QAReport.fixes_applied (report w)
  /\ QAReport.all_passed (report w') = false.
Proof.
  intros H w'.
  pose proof (check_project_pages_missing verbose fix_ w H) as E.
  pose proof (missing_projects_results verbose fix_ w H) as R. fold w' in R.
  split; [unfold run; rewrite E; reflexivity |]. split; [exact R |].
  split; [unfold w', exec at 1; rewrite E; reflexivity |].
  split; [unfold w', exec at 1; rewrite E; reflexivity |].
  unfold QAReport.all_passed, QAReport.failed, QAReport.count. rewrite R, filter_app, length_app.
  cbn. rewrite Nat.add_1_r. reflexivity.
Qed.

Lemma check_project_pages_appends (verbose fix_ : bool) (w : World) :
  exists rs,
    QAReport.results (report (exec (check_project_pages verbose fix_) w))
    = (QAReport.results (report w) ++ rs)%list
    /\ (Forall (fun r => CheckResult.category r = "page") rs
        \/ exists r, rs = [r] /\ CheckResult.name r = "Projects directory").
Proof.
  destruct (IO.stat w PROJECTS_DIR) as [[c | es] |] eqn:H.
  - exists []. split; [| left; constructor]. rewrite app_nil_r.
    unfold check_project_pages. rewrite exec_bind, run_exists, exec_exists, H.
    cbn [negb]. cbv iota. rewrite exec_bind.
    unfold run, exec, IO.iterdir, bind, gets. rewrite H. reflexivity.
  - unfold exec. rewrite (check_project_pages_listing verbose fix_ w es H).
    match goal with |- context [bind ?m ?k w] => fold (exec (bind m k) w) end.
    rewrite exec_bind, exec_sorted_natural. destruct (run (sorted_natural _) w) as [names |].
    + destruct (check_pages_results verbose fix_ names w) as (k & rs & _ & E & _ & C & _).
      exists rs. split; [exact E | left; exact C].
    + exists []. split; [rewrite app_nil_r; reflexivity | left; constructor].
  - eexists. split; [exact (missing_projects_results verbose fix_ w H) |].
    right. eexists. split; reflexivity.
Qed.

(** X12. The order of the results.  When [main] returns, what it has added
    to the report is, in this order: the result of the main index, the
    result of the manifest, and then the results of the pages, or the
    one result for a missing projects directory. *)
Theorem results_in_execution_order (page : QAReport.t -> string) (args : Args.t)
    (w : World) (code : Z) :
  run (main page args) w = Ok code ->
  exists r1 r2 rs,
    QAReport.results (report (exec (main page args) w))
    = (QAReport.results (report w) ++ r1 :: r2 :: rs)%list
    /\ CheckResult.name r1 = "Main index.html"
    /\ CheckResult.name r2 = "index.json validation"
    /\ (Forall (fun r => CheckResult.category r = "page") rs
        \/ exists r, rs = [r] /\ CheckResult.name r = "Projects directory").
Proof.
  unfold main. intros H.
  apply run_bind_ok in H. destruct H as (h1 & H1 & H & _).
  rewrite exec_bind, H1.
  destruct (main_index_adds_result (Args.verbose args) w) as (r1 & E1 & N1 & _).
  set (w1 := exec (check_main_index (Args.verbose args)) w) in *.
  apply run_bind_ok in H. destruct H as (h2 & H2 & H & _).
  rewrite exec_bind, H2.
  destruct (index_json_adds_result (Args.verbose args) (Args.fix_ args) w1)
    as (r2 & E2 & N2 & _).
  set (w2 := exec (check_index_json (Args.verbose args) (Args.fix_ args)) w1) in *.
  apply run_bind_ok in H. destruct H as (hs & H3 & H & _).
  rewrite exec_bind, H3.
  destruct (check_project_pages_appends (Args.verbose args) (Args.fix_ args) w2)
    as (rs & E3 & Hrs).
  set (w3 := exec (check_project_pages (Args.verbose args) (Args.fix_ args)) w2) in *.
  apply run_bind_ok in H. destruct H as (u & H4 & H & _).
  rewrite exec_bind, H4.
  exists r1, r2, rs. split; [| auto].
  rewrite exec_bind, run_gets, exec_gets, exec_ret.
  assert (E4 : QAReport.results
                 (report (exec (if Args.report args
                                then report_finalize ;; generate_html_report page ;; ret tt
                                else report_finalize) w3))
               = QAReport.results (report w3)).
  { destruct (Args.report args); [| reflexivity].
    rewrite exec_bind. change (run report_finalize w3) with (@Ok unit tt). cbv iota.
    rewrite exec_bind.
    destruct (run (generate_html_report page) _);
      rewrite ?exec_ret, generate_html_report_report; reflexivity. }
  rewrite E4, E3, E2, E1, <- !app_assoc. reflexivity.
Qed.

End Order.

(* ====================================================================== *)
(** ** Requests, assets and the structure of a page                      *)
(* ====================================================================== *)

#[export] Instance same_net_frame : Frame same_net (fun _ => True) True.
Proof.
  split; try (intros; intros ?; reflexivity); try reflexivity.
  - intros a b c H1 H2. unfold same_net in *. congruence.
  - intros p s _ w. unfold same_net, exec, IO.write_text.
    destruct (IO.stat w p) as [[c | es] |];
      destruct (IO.locate w (Path.parent p)); destruct (Path.parts p);
      try reflexivity;
      destruct (FS.is_dir _ && _); try reflexivity;
      destruct (FS.update _ _ _); reflexivity.
  - intros p _ w. unfold same_net, exec, IO.mkdir. destruct (IO.mkdirs _ _ _); reflexivity.
Qed.

Section Assets.

Context {lib : PyLib}.


End Assets.

Section Requests.

Context {lib : PyLib}.

Lemma check_link_requests (h : handle) (page_dir : Path.t) (verbose : bool)
    (href : string) (c : nat * nat) (w : World) :
  exists c', run (check_link h page_dir verbose href c) w = Ok c'
    /\ tree (exec (check_link h page_dir verbose href c) w) = tree w
    /\ requests (exec (check_link h page_dir verbose href c) w)
       = (requests w ++ requested_links [href])%list.
Proof.
  unfold requested_links, mentions_own_domain, check_link, run, exec. destruct c as [checked broken].
  cbn [filter]. destruct (Str.startswith_any href remote_schemes); cbn [andb].
  - destruct (Str.contains "clawdbot-web" href), (Str.contains "pulpouplatform.com" href);
      cbn [negb andb orb]; cbv iota;
      try (unfold url_accessible, http_get, bind, ret; cbn [fst snd];
           destruct (Z.eqb (net w href) 200); destruct verbose; simpl; eauto).
    all: rewrite app_nil_r; eauto.
  - unfold link_present, bind, IO.exists_, IO.is_dir, gets, ret.
    destruct (IO.stat w (local_target page_dir href)) as [n |] eqn:E; cbn [fst snd].
    + destruct verbose; simpl; rewrite app_nil_r; eauto.
    + rewrite E. cbn [FS.is_dir]. cbv iota. simpl. rewrite app_nil_r. eauto.
Qed.

Lemma requested_links_cons (href : string) (rest : list string) :
  requested_links (href :: rest) = (requested_links [href] ++ requested_links rest)%list.
Proof.
  unfold requested_links. cbn [filter].
  destruct (Str.startswith_any href remote_schemes && mentions_own_domain href); reflexivity.
Qed.

Lemma links_loop_requests (h : handle) (page_dir : Path.t) (verbose : bool)
    (links : list string) (c : nat * nat) (w : World) :
  exists c', run (for_counting links (check_link h page_dir verbose) c) w = Ok c'
    /\ tree (exec (for_counting links (check_link h page_dir verbose) c) w) = tree w
    /\ requests (exec (for_counting links (check_link h page_dir verbose) c) w)
       = (requests w ++ requested_links links)%list.
Proof.
  revert c w. induction links as [| href rest IH]; intros c w.
  - exists c. cbn. rewrite app_nil_r. auto.
  - cbn [for_counting]. rewrite run_bind, exec_bind.
    destruct (check_link_requests h page_dir verbose href c w) as (c1 & R1 & T1 & Q1).
    rewrite R1.
    destruct (IH c1 (exec (check_link h page_dir verbose href c) w)) as (c2 & R2 & T2 & Q2).
    exists c2. split; [exact R2 |]. split; [congruence |].
    rewrite Q2, Q1, (requested_links_cons href rest), <- app_assoc. reflexivity.
Qed.

Lemma check_internal_links_effect (h : handle) (v : HTMLStructureValidator.t)
    (page_dir : Path.t) (verbose : bool) (w : World) :
  run (_check_internal_links h v page_dir verbose) w = Ok tt
  /\ tree (exec (_check_internal_links h v page_dir verbose) w) = tree w
  /\ requests (exec (_check_internal_links h v page_dir verbose) w)
     = (requests w ++ requested_links (HTMLStructureValidator.links v))%list.
Proof.
  unfold _check_internal_links.
  destruct (HTMLStructureValidator.links v) as [| href rest] eqn:E.
  - cbn. rewrite app_nil_r. destruct verbose; repeat split.
  - rewrite run_bind, exec_bind.
    destruct (links_loop_requests h page_dir verbose (href :: rest) (0, 0) w)
      as ([checked broken] & R & T & Q).
    rewrite R. rewrite run_when, exec_when.
    destruct (Nat.ltb 0 checked && Nat.eqb broken 0); repeat split; assumption.
Qed.


Lemma check_asset_requests (h : handle) (page_dir : Path.t) (verbose : bool)
    (kind ref : string) (c : nat * nat) (w : World) :
  exists c', run (check_asset h page_dir verbose (kind, Some ref) c) w = Ok c'
    /\ tree (exec (check_asset h page_dir verbose (kind, Some ref) c) w) = tree w
    /\ requests (exec (check_asset h page_dir verbose (kind, Some ref) c) w)
       = (requests w ++ asset_requests [(kind, Some ref)])%list.
Proof.
  unfold check_asset, run, exec, asset_url. destruct c as [checked broken].
  cbn [asset_requests]. rewrite app_nil_r.
  destruct (Str.startswith_any ref ["data:"; "blob:"]).
  - unfold ret. cbn. rewrite app_nil_r. eauto.
  - destruct (Str.startswith_any ref remote_schemes).
    + unfold url_accessible, http_get, bind, ret, asset_url.
      destruct (Str.startswith ref "//"); cbn [negb]; cbv iota; cbn [fst snd];
        match goal with |- context [Z.eqb ?x 200] => destruct (Z.eqb x 200) end;
        destruct verbose; simpl; eauto.
    + unfold bind, IO.exists_, gets, ret. cbn [fst snd].
      destruct (IO.stat w (local_target page_dir ref)); destruct verbose; simpl;
        rewrite app_nil_r; eauto.
Qed.

Lemma assets_loop_requests (h : handle) (page_dir : Path.t) (verbose : bool)
    (refs : list (string * option string)) (c : nat * nat) (w : World) :
  let m := for_counting refs (check_asset h page_dir verbose) c in
  tree (exec m w) = tree w
  /\ requests (exec m w) = (requests w ++ asset_requests refs)%list
  /\ if all_valued refs then exists c', run m w = Ok c'
     else run m w = Raised (Py.AttributeError PNone "startswith").
Proof.
  revert c w. induction refs as [| [kind [ref |]] rest IH]; intros c w.
  - cbn. rewrite app_nil_r. eauto.
  - cbn [for_counting]. cbv zeta. rewrite run_bind, exec_bind.
    destruct (check_asset_requests h page_dir verbose kind ref c w) as (c1 & R1 & T1 & Q1).
    rewrite R1.
    destruct (IH c1 (exec (check_asset h page_dir verbose (kind, Some ref) c) w))
      as (T2 & Q2 & R2).
    split; [congruence |]. split.
    + rewrite Q2, Q1. cbn [asset_requests]. rewrite app_nil_r, <- app_assoc. reflexivity.
    + exact R2.
  - cbn [for_counting]. cbv zeta. rewrite run_bind, exec_bind.
    destruct c as [checked broken]. cbn. rewrite app_nil_r. auto.
Qed.

Lemma check_assets_effect (h : handle) (v : HTMLStructureValidator.t)
    (page_dir : Path.t) (verbose : bool) (w : World) :
  tree (exec (_check_assets h v page_dir verbose) w) = tree w
  /\ requests (exec (_check_assets h v page_dir verbose) w)
     = (requests w ++ asset_requests (HTMLStructureValidator.asset_refs v))%list
  /\ run (_check_assets h v page_dir verbose) w
     = if all_valued (HTMLStructureValidator.asset_refs v) then Ok tt
       else Raised (Py.AttributeError PNone "startswith").
Proof.
  unfold _check_assets.
  destruct (HTMLStructureValidator.asset_refs v) as [| a rest] eqn:E.
  - cbn. rewrite app_nil_r. destruct verbose; repeat split.
  - rewrite run_bind, exec_bind.
    destruct (assets_loop_requests h page_dir verbose (a :: rest) (0, 0) w) as (T & Q & R).
    destruct (all_valued (a :: rest)).
    + destruct R as ([checked broken] & R). rewrite R. rewrite run_when, exec_when.
      destruct (Nat.ltb 0 checked && Nat.eqb broken 0); repeat split; assumption.
    + rewrite R. repeat split; assumption.
Qed.


End Requests.

Section Structure.

Context {lib : PyLib}.

Lemma check_html_structure_effect (w : World) (h : handle) (r : CheckResult.t)
    (v : HTMLStructureValidator.t) (verbose : bool) :
  result_at w h = Some r ->
  let m := _check_html_structure h v verbose in
  let r' := apply_calls r (structure_calls v verbose) in
  run m w = Ok tt
  /\ tree (exec m w) = tree w /\ requests (exec m w) = requests w
  /\ result_at (exec m w) h = Some r'
  /\ CheckResult.status r'
     = (if well_formed v then CheckResult.status r
        else if String.eqb (CheckResult.status r) "PASS" then "WARN"
             else CheckResult.status r)
  /\ (if well_formed v && negb verbose then r' = r
      else CheckResult.details r' <> CheckResult.details r).
Proof.
  intros Hr m r'. subst m r'.
  unfold _check_html_structure, structure_calls, well_formed, result_at in *.
  destruct v as [d hh hd b t l a it tt0 st]. cbn [HTMLStructureValidator.has_doctype
    HTMLStructureValidator.has_html HTMLStructureValidator.has_head
    HTMLStructureValidator.has_body].
  assert (P : CheckResult.status r = "PASS" \/ String.eqb (CheckResult.status r) "PASS" = false).
  { destruct (String.eqb_spec (CheckResult.status r) "PASS"); auto. }
  destruct d, hh, hd, b, verbose;
    (split; [reflexivity |]); (split; [reflexivity |]); (split; [reflexivity |]);
    (split; [unfold exec; cbn; rewrite ?nth_error_alter_nth, Hr; destruct r; reflexivity |]);
    (split; [cbn; destruct P as [E | E]; rewrite ?E; cbn; rewrite ?E; reflexivity |]);
    cbn; try reflexivity; destruct r as [n c s ds]; cbn;
    rewrite <- ?app_assoc; cbn;
    try (intros E; apply (f_equal (@List.length _)) in E; rewrite !length_app in E;
         cbn in E; lia).
Qed.

(** X16. The structure check.  [_check_html_structure] records one WARN
    detail for each of doctype, html, head and body that is missing, and
    in verbose mode one PASS detail for each that is there; it never sets
    the status FAIL: the status goes from PASS to WARN when something is
    missing and stays as it is otherwise. *)
Theorem structure_defects_only_warn (w : World) (h : handle) (r : CheckResult.t)
    (v : HTMLStructureValidator.t) (verbose : bool) :
  result_at w h = Some r ->
  let m := _check_html_structure h v verbose in
  let r' := apply_calls r (structure_calls v verbose) in
  run m w = Ok tt
  /\ tree (exec m w) = tree w /\ requests (exec m w) = requests w
  /\ result_at (exec m w) h = Some r'
  /\ CheckResult.status r'
     = (if well_formed v then CheckResult.status r
        else if String.eqb (CheckResult.status r) "PASS" then "WARN"
             else CheckResult.status r)
  /\ (if well_formed v && negb verbose then r' = r
      else CheckResult.details r' <> CheckResult.details r).
Proof.
  intros Hr. exact (check_html_structure_effect w h r v verbose Hr).
Qed.

End Structure.

Section MainIndex.

Context {lib : PyLib}.

Lemma run_exec_of {A : Type} (m : M A) (w w' : World) (o : Outcome A) :
  m w = (o, w') -> run m w = o /\ exec m w = w'.
Proof. unfold run, exec. intros ->. split; reflexivity. Qed.

(** X17. The check of the main index.  A missing file and a blank file
    give a FAIL detail and no request; a directory in the place of the
    file makes the check raise; for any other text the check sends one
    request for the base address, and its status is FAIL exactly when
    the answer is not 200: a parse error and missing elements only
    turn PASS into WARN. *)
Theorem main_index_outcome (verbose : bool) (w : World) :
  let m := check_main_index verbose in
  let h := List.length (QAReport.results (report w)) in
  let fresh := CheckResult.init "Main index.html" "structure" in
  match IO.stat w MAIN_INDEX with
  | None =>
      run m w = Ok h /\ requests (exec m w) = requests w
      /\ result_at (exec m w) h
         = Some (CheckResult.fail fresh "File not found: public/clawdbot/index.html")
  | Some (FS.Dir _) =>
      (exists e, run m w = Raised e /\ exn_class e = "IsADirectoryError")
      /\ requests (exec m w) = requests w
      /\ result_at (exec m w) h = Some fresh
  | Some (FS.File content) =>
      if Nat.eqb (String.length (Str.strip content)) 0 then
        run m w = Ok h /\ requests (exec m w) = requests w
        /\ result_at (exec m w) h = Some (CheckResult.fail fresh "Main index.html is empty")
      else
        let parsed := HTMLStructureValidator.feed HTMLStructureValidator.init content in
        run m w = Ok h
        /\ requests (exec m w) = (requests w ++ [BASE_URL])%list
        /\ status_at (exec m w) h
           = Some (if Z.eqb (net w BASE_URL) 200
                   then if well_formed (fst parsed)
                           && match snd parsed with None => true | Some _ => false end
                        then "PASS" else "WARN"
                   else "FAIL")
  end.
Proof.
  intros m h fresh. subst m.
  set (w1 := exec (report_add fresh) w).
  assert (H1 : result_at w1 h = Some fresh) by apply result_at_report_add.
  assert (S1 : forall p, IO.stat w1 p = IO.stat w p) by reflexivity.
  destruct (IO.stat w MAIN_INDEX) as [[content | es] |] eqn:E.
  - destruct (Nat.eqb (String.length (Str.strip content)) 0) eqn:B.
    + assert (Hm : check_main_index verbose w
                   = (Ok h, exec (result_fail h "Main index.html is empty") w1)).
      { unfold check_main_index. rewrite (bind_run _ _ w h) by reflexivity. fold fresh w1.
        rewrite (bind_run _ _ w1 true) by (rewrite run_exists, S1, E; reflexivity).
        rewrite exec_exists. cbn [negb]. cbv iota.
        rewrite (bind_run _ _ w1 content) by (rewrite run_read_text, S1, E; reflexivity).
        rewrite exec_read_text, B. reflexivity. }
      destruct (run_exec_of _ _ _ _ Hm) as [-> ->].
      split; [reflexivity |]. split; [reflexivity |].
      unfold result_fail. rewrite result_at_on_result, H1. reflexivity.
    + cbv zeta.
      destruct (HTMLStructureValidator.feed HTMLStructureValidator.init content)
        as [v err] eqn:F.
      cbn [fst snd].
      set (msg := "File exists (" ++ Str.of_nat (String.length content) ++ " bytes)").
      set (r2 := CheckResult.ok fresh msg).
      set (w2 := exec (result_ok h msg) w1).
      assert (H2 : result_at w2 h = Some r2)
        by (unfold w2, result_ok; rewrite result_at_on_result, H1; reflexivity).
      set (r3 := match err with
                 | Some e => CheckResult.warn r2 ("HTML parse error: " ++ exn_text e)
                 | None => r2
                 end).
      set (w3 := exec (parse_error h err) w2).
      assert (H3 : result_at w3 h = Some r3 /\ requests w3 = requests w2 /\ net w3 = net w2
                   /\ run (parse_error h err) w2 = Ok tt).
      { unfold w3, r3, parse_error. destruct err as [e |].
        - unfold result_warn. rewrite result_at_on_result, H2. repeat split.
        - repeat split. exact H2. }
      destruct H3 as (H3 & Q3 & N3 & R3).
      destruct (check_html_structure_effect w3 h r3 v verbose H3) as (R4 & _ & Q4 & H4 & S4 & _).
      set (r4 := apply_calls r3 (structure_calls v verbose)) in *.
      set (w4 := exec (_check_html_structure h v verbose) w3) in *.
      assert (N4 : net w4 = net w3).
      { apply (pres_check_html_structure (R := same_net)). exact I. }
      set (w5 := exec (http_get BASE_URL) w4).
      assert (H5 : result_at w5 h = Some r4) by (unfold w5; rewrite result_at_http_get; exact H4).
      assert (Q5 : requests w5 = (requests w ++ [BASE_URL])%list).
      { unfold w5. rewrite requests_http_get, Q4, Q3. reflexivity. }
      set (last := if Z.eqb (net w BASE_URL) 200
                   then result_ok h ("HTTP 200 from " ++ BASE_URL)
                   else result_fail h ("HTTP " ++ Str.of_Z (net w BASE_URL) ++ " from "
                                       ++ BASE_URL)).
      assert (Hm : check_main_index verbose w = (Ok h, exec last w5)).
      { unfold check_main_index. rewrite (bind_run _ _ w h) by reflexivity. fold fresh w1.
        rewrite (bind_run _ _ w1 true) by (rewrite run_exists, S1, E; reflexivity).
        rewrite exec_exists. cbn [negb]. cbv iota.
        rewrite (bind_run _ _ w1 content) by (rewrite run_read_text, S1, E; reflexivity).
        rewrite exec_read_text, B. cbv iota.
        rewrite (bind_run _ _ w1 tt) by reflexivity. fold msg w2.
        rewrite F.
        rewrite (bind_run _ _ w2 tt) by exact R3. fold w3.
        rewrite (bind_run _ _ w3 tt) by exact R4. fold w4.
        rewrite (bind_run _ _ w4 (net w BASE_URL))
          by (rewrite run_http_get, N4, N3; reflexivity).
        fold w5. fold last.
        rewrite (bind_run _ _ w5 tt) by (unfold last; destruct (Z.eqb _ 200); reflexivity).
        reflexivity. }
      destruct (run_exec_of _ _ _ _ Hm) as [-> ->].
      split; [reflexivity |].
      split; [unfold last; destruct (Z.eqb _ 200); exact Q5 |].
      unfold status_at, last. destruct (Z.eqb (net w BASE_URL) 200);
        [unfold result_ok | unfold result_fail];
        rewrite result_at_on_result, H5; cbn [option_map CheckResult.status CheckResult.ok
                                               CheckResult.fail]; [| reflexivity].
      rewrite S4. unfold r3. destruct err as [e |]; destruct (well_formed v); reflexivity.
  - assert (Hm : check_main_index verbose w
                 = (Raised (Py.IsADirectoryError (Path.to_string MAIN_INDEX)), w1)).
    { unfold check_main_index. rewrite (bind_run _ _ w h) by reflexivity. fold fresh w1.
      rewrite (bind_run _ _ w1 true) by (rewrite run_exists, S1, E; reflexivity).
      rewrite exec_exists. cbn [negb]. cbv iota.
      unfold bind at 1. unfold IO.read_text, bind, gets. rewrite S1, E. reflexivity. }
    destruct (run_exec_of _ _ _ _ Hm) as [-> ->].
    split; [eexists; split; reflexivity |]. split; [reflexivity | exact H1].
  - assert (Hm : check_main_index verbose w
                 = (Ok h, exec (result_fail h ("File not found: " ++ Path.to_string MAIN_INDEX))
                               w1)).
    { unfold check_main_index. rewrite (bind_run _ _ w h) by reflexivity. fold fresh w1.
      rewrite (bind_run _ _ w1 false) by (rewrite run_exists, S1, E; reflexivity).
      reflexivity. }
    destruct (run_exec_of _ _ _ _ Hm) as [-> ->].
    split; [reflexivity |]. split; [reflexivity |].
    unfold result_fail. rewrite result_at_on_result, H1. reflexivity.
Qed.

End MainIndex.

(* ====================================================================== *)
(** ** Details, health and the manifest                                  *)
(* ====================================================================== *)

Lemma apply_calls_app (r : CheckResult.t) (a b : list call) :
  apply_calls r (a ++ b) = apply_calls (apply_calls r a) b.
Proof. unfold apply_calls. apply fold_left_app. Qed.

(** X18. Details and status of a result.  The details only grow: after any
    calls they are the earlier details followed by one record for each
    call, in order, with the level of the call; name and category never
    change; and a fresh result has the status PASS exactly when every
    call was [ok] or [info], so that a status other than PASS always has
    a detail that accounts for it. *)
Theorem details_account_for_status (r : CheckResult.t) (name category : string)
    (calls : list call) :
  CheckResult.details (apply_calls r calls)
  = (CheckResult.details r ++ map detail_of calls)%list
  /\ CheckResult.name (apply_calls r calls) = CheckResult.name r
  /\ CheckResult.category (apply_calls r calls) = CheckResult.category r
  /\ (CheckResult.status (apply_calls (CheckResult.init name category) calls) = "PASS"
      <-> forallb is_quiet_call calls = true)
  /\ (forall s, CheckResult.status (apply_calls (CheckResult.init name category) calls) = s ->
      s <> "PASS" ->
      exists msg, In (s, msg)
                     (CheckResult.details (apply_calls (CheckResult.init name category) calls))).
Proof.
  assert (D : forall cs r0, CheckResult.details (apply_calls r0 cs)
                            = (CheckResult.details r0 ++ map detail_of cs)%list).
  { induction cs as [| c cs IH]; intros r0; [cbn; rewrite app_nil_r; reflexivity |].
    change (apply_calls r0 (c :: cs)) with (apply_calls (apply_call r0 c) cs).
    rewrite IH. destruct c; cbn; rewrite <- app_assoc; reflexivity. }
  assert (N : forall cs r0, CheckResult.name (apply_calls r0 cs) = CheckResult.name r0
                            /\ CheckResult.category (apply_calls r0 cs) = CheckResult.category r0).
  { induction cs as [| c cs IH]; intros r0; [split; reflexivity |].
    change (apply_calls r0 (c :: cs)) with (apply_calls (apply_call r0 c) cs).
    destruct (IH (apply_call r0 c)) as [-> ->]. destruct c; split; reflexivity. }
  assert (P1 : forall r0 c, CheckResult.status (apply_call r0 c) = "PASS"
                            <-> CheckResult.status r0 = "PASS" /\ is_quiet_call c = true).
  { intros r0 c. destruct c; cbn; try (split; [discriminate | intros [_ H]; discriminate]);
      try tauto.
    destruct (String.eqb_spec (CheckResult.status r0) "PASS") as [E | E];
      split; intros H; try discriminate; try contradiction; destruct H; discriminate. }
  assert (P : forall cs r0, CheckResult.status (apply_calls r0 cs) = "PASS"
                            <-> CheckResult.status r0 = "PASS"
                                /\ forallb is_quiet_call cs = true).
  { induction cs as [| c cs IH]; intros r0; [cbn; tauto |].
    change (apply_calls r0 (c :: cs)) with (apply_calls (apply_call r0 c) cs).
    rewrite IH, P1. cbn [forallb]. rewrite andb_true_iff. tauto. }
  assert (J1 : forall r0 c,
             (CheckResult.status r0 = "PASS"
              \/ exists msg, In (CheckResult.status r0, msg) (CheckResult.details r0)) ->
             CheckResult.status (apply_call r0 c) = "PASS"
             \/ exists msg, In (CheckResult.status (apply_call r0 c), msg)
                               (CheckResult.details (apply_call r0 c))).
  { intros r0 c H0. destruct c; cbn.
    - right. exists msg. apply in_or_app. right. left. reflexivity.
    - destruct (String.eqb_spec (CheckResult.status r0) "PASS") as [E | E].
      + right. exists msg. apply in_or_app. right. left. reflexivity.
      + destruct H0 as [H0 | [m H0]]; [contradiction |].
        right. exists m. apply in_or_app. left. exact H0.
    - destruct H0 as [H0 | [m H0]]; [left; exact H0 |].
      right. exists m. apply in_or_app. left. exact H0.
    - right. exists msg. apply in_or_app. right. left. reflexivity.
    - destruct H0 as [H0 | [m H0]]; [left; exact H0 |].
      right. exists m. apply in_or_app. left. exact H0. }
  assert (J : forall cs r0,
             (CheckResult.status r0 = "PASS"
              \/ exists msg, In (CheckResult.status r0, msg) (CheckResult.details r0)) ->
             CheckResult.status (apply_calls r0 cs) = "PASS"
             \/ exists msg, In (CheckResult.status (apply_calls r0 cs), msg)
                               (CheckResult.details (apply_calls r0 cs))).
  { induction cs as [| c cs IH]; intros r0 H0; [exact H0 |].
    change (apply_calls r0 (c :: cs)) with (apply_calls (apply_call r0 c) cs).
    apply IH, J1, H0. }
  split; [apply D |]. split; [apply N |]. split; [apply N |]. split.
  - rewrite P. cbn. tauto.
  - intros s Hs Hne.
    destruct (J calls (CheckResult.init name category) (or_introl eq_refl)) as [H | [m H]].
    + congruence.
    + exists m. rewrite <- Hs. exact H.
Qed.

Section Health.

Context {lib : PyLib}.

(** X19. [passed] and [all_passed].  In every state that the checks can
    reach, the report is healthy exactly when every result is passed in
    the sense of [CheckResult.passed], and a result is passed exactly
    when its status is not FAIL. *)
Theorem all_passed_iff_each_passed (w : World) :
  reachable w ->
  (QAReport.all_passed (report w) = true
   <-> forallb CheckResult.passed (QAReport.results (report w)) = true)
  /\ Forall (fun r => CheckResult.passed r = true <-> CheckResult.status r <> "FAIL")
            (QAReport.results (report w)).
Proof.
  intros H. apply reachable_valid in H. unfold report_valid in H.
  assert (V : forall r, valid_status (CheckResult.status r) ->
                        (CheckResult.passed r = true <-> CheckResult.status r <> "FAIL")).
  { intros r [E | [E | [E | E]]]; unfold CheckResult.passed; rewrite E; cbn;
      split; congruence. }
  assert (F : Forall (fun r => CheckResult.passed r = true <-> CheckResult.status r <> "FAIL")
                     (QAReport.results (report w))).
  { eapply Forall_impl; [| exact H]. exact V. }
  split; [| exact F].
  unfold QAReport.all_passed. rewrite Nat.eqb_eq, failed_zero_iff, forallb_forall, Forall_forall.
  rewrite Forall_forall in F.
  split; intros G r Hr; apply (F r Hr), G, Hr.
Qed.

End Health.

Section Manifest.

Context {lib : PyLib}.

Lemma projects_dir_of_manifest (w : World) (n : FS.node) :
  IO.stat w INDEX_JSON = Some n -> FS.is_dir (IO.stat w PROJECTS_DIR) = true.
Proof.
  intros H.
  destruct (stat_split w INDEX_JSON ["public"; "clawdbot"; "projects"] "index.json" n
              eq_refl eq_refl H) as (mid & Hwalk & Hmid & _).
  unfold IO.stat, IO.locate.
  change (FS.walk (tree w) (IO.start w PROJECTS_DIR) (Path.parts PROJECTS_DIR))
    with (FS.walk (tree w) (IO.start w INDEX_JSON) ["public"; "clawdbot"; "projects"]).
  rewrite Hwalk. exact Hmid.
Qed.

(** The first steps of the manifest check on a manifest with a text. *)
Lemma check_index_json_reads (verbose fix_ : bool) (w : World) (raw : string) :
  IO.stat w INDEX_JSON = Some (FS.File raw) ->
  Nat.eqb (String.length (Str.strip raw)) 0 = false ->
  let h := List.length (QAReport.results (report w)) in
  let w1 := exec (report_add (CheckResult.init "index.json validation" "data")) w in
  check_index_json verbose fix_ w
  = match json_loads raw with
    | inr e =>
        (result_fail h ("Invalid JSON: " ++ e) ;;
         when fix_ (_fix_broken_json h raw) ;;
         ret h) w1
    | inl (PList data) =>
        (result_ok h
           ("Valid JSON array with " ++ Str.of_nat (List.length data) ++ " entries") ;;
         check_entries h verbose data ;;
         present <- IO.exists_ PROJECTS_DIR ;;
         when present
           (indexed <- indexed_dirs data ;;
            names <- IO.iterdir PROJECTS_DIR ;;
            check_orphans h fix_ indexed data (sorted String.ltb names)) ;;
         ret h) w1
    | inl _ =>
        (result_fail h "index.json root is not an array" ;; ret h) w1
    end.
Proof.
  intros Hstat Hstrip h w1. unfold check_index_json.
  rewrite (bind_run _ _ w h) by reflexivity. fold w1.
  rewrite (bind_run _ _ w1 true)
    by (rewrite run_exists; unfold w1; rewrite stat_report_add, Hstat; reflexivity).
  rewrite exec_exists. cbn [negb]. cbv iota.
  rewrite (bind_run _ _ w1 raw)
    by (rewrite run_read_text; unfold w1; rewrite stat_report_add, Hstat; reflexivity).
  rewrite exec_read_text, Hstrip. cbv iota.
  destruct (json_loads raw) as [[] |]; reflexivity.
Qed.

(** X20. A manifest that is JSON but not an array.  The check records the
    failure "index.json root is not an array" and returns; no entry is
    looked at, and also with the fix option nothing is written and no
    fix is counted: this defect has no repair. *)
Theorem manifest_root_not_array (verbose fix_ : bool) (w : World) (raw : string)
    (v : pyval) :
  IO.stat w INDEX_JSON = Some (FS.File raw) ->
  Nat.eqb (String.length (Str.strip raw)) 0 = false ->
  json_loads raw = inl v ->
  match v with PList _ => False | _ => True end ->
  let m := check_index_json verbose fix_ in
  let h := List.length (QAReport.results (report w)) in
  run m w = Ok h
  /\ tree (exec m w) = tree w
  /\ QAReport.fixes_applied (report (exec m w)) = QAReport.fixes_applied (report w)
  /\ result_at (exec m w) h
     = Some (CheckResult.fail (CheckResult.init "index.json validation" "data")
               "index.json root is not an array").
Proof.
  intros Hstat Hstrip Hv Hroot m h.
  pose proof (check_index_json_reads verbose fix_ w raw Hstat Hstrip) as E.
  cbv zeta in E. rewrite Hv in E. fold h in E.
  set (w1 := exec (report_add (CheckResult.init "index.json validation" "data")) w) in *.
  assert (H1 : result_at w1 h = Some (CheckResult.init "index.json validation" "data"))
    by apply result_at_report_add.
  assert (Hm : m w = (Ok h, exec (result_fail h "index.json root is not an array") w1)).
  { unfold m. rewrite E. destruct v; try contradiction; reflexivity. }
  destruct (run_exec_of _ _ _ _ Hm) as [-> ->].
  split; [reflexivity |]. split; [reflexivity |]. split; [reflexivity |].
  unfold result_fail. rewrite result_at_on_result, H1. reflexivity.
Qed.

Lemma indexed_dirs_raises (data : list pyval) (e : pyval) (w : World) :
  In e data ->
  match e with PDict _ => False | _ => True end ->
  exists x, run (indexed_dirs data) w = Raised x.
Proof.
  revert w. induction data as [| a rest IH]; intros w Hin He; [contradiction |].
  cbn [indexed_dirs]. rewrite run_bind.
  destruct Hin as [-> | Hin].
  - destruct e; try contradiction; eexists; reflexivity.
  - destruct (run (indexed_dir a) w) as [ds | x]; [| eauto].
    rewrite run_bind. destruct (IH (exec (indexed_dir a) w) Hin He) as [x Hx].
    rewrite Hx. eauto.
Qed.

(** X21. An entry that is not an object.  The loop over the entries
    records the failure "Entry i is not an object" and goes on; but the
    search for unlisted directories calls [get] on every entry, so a
    manifest array that holds such an entry always ends the manifest
    check with an exception. *)
Theorem entry_not_an_object_raises (verbose fix_ : bool) (w : World) (raw : string)
    (data : list pyval) (e : pyval) (i : nat) (h : handle) (r : CheckResult.t) :
  IO.stat w INDEX_JSON = Some (FS.File raw) ->
  Nat.eqb (String.length (Str.strip raw)) 0 = false ->
  json_loads raw = inl (PList data) ->
  In e data ->
  match e with PDict _ => False | _ => True end ->
  result_at w h = Some r ->
  (check_entry h verbose i e w
   = (Ok tt, exec (result_fail h ("Entry " ++ Str.of_nat i ++ " is not an object")) w)
   /\ result_at (exec (check_entry h verbose i e) w) h
      = Some (CheckResult.fail r ("Entry " ++ Str.of_nat i ++ " is not an object")))
  /\ exists x, run (check_index_json verbose fix_) w = Raised x.
Proof.
  intros Hstat Hstrip Hv Hin He Hr. split.
  - assert (E : check_entry h verbose i e
                = result_fail h ("Entry " ++ Str.of_nat i ++ " is not an object"))
      by (destruct e; try contradiction; reflexivity).
    rewrite E. split; [reflexivity |].
    unfold result_fail. rewrite result_at_on_result, Hr. reflexivity.
  - pose proof (check_index_json_reads verbose fix_ w raw Hstat Hstrip) as E.
    cbv zeta in E. rewrite Hv in E. unfold run. rewrite E. clear E.
    set (n := List.length (QAReport.results (report w))).
    set (w1 := exec (report_add (CheckResult.init "index.json validation" "data")) w).
    match goal with |- context [fst (?m w1)] => change (fst (m w1)) with (run m w1) end.
    rewrite run_bind. unfold result_ok at 1. rewrite run_on_result. cbv iota.
    set (w2 := exec (result_ok n _) w1).
    rewrite run_bind.
    destruct (run (check_entries n verbose data) w2) as [[] | x] eqn:R; [| eauto].
    set (w3 := exec (check_entries n verbose data) w2).
    assert (T : same_tree w w3).
    { apply (frame_trans (R := same_tree) w w2 w3); [split; reflexivity |].
      apply (pres_check_entries (R := same_tree)). exact I. }
    assert (P : IO.stat w3 PROJECTS_DIR <> None).
    { destruct T as [T1 T2]. rewrite (stat_same_tree w w3 _ T1 T2).
      pose proof (projects_dir_of_manifest w _ Hstat) as D.
      destruct (IO.stat w PROJECTS_DIR); [discriminate | discriminate D]. }
    rewrite run_bind, run_exists, exec_exists.
    destruct (IO.stat w3 PROJECTS_DIR) as [node |]; [| congruence].
    cbv iota. rewrite run_bind. unfold when. rewrite run_bind.
    destruct (indexed_dirs_raises data e w3 Hin He) as [x Hx]. rewrite Hx. eauto.
Qed.

End Manifest.

(* ====================================================================== *)
(** ** The report file and the fixes of the manifest                     *)
(* ====================================================================== *)

(** A call of [write_text] that returns has put the text in place. *)
Lemma write_text_done (w w' : World) (p : Path.t) (s : string) :
  IO.write_text p s w = (Ok tt, w') ->
  IO.stat w' p = Some (FS.File s) /\ report w' = report w.
Proof.
  intros H.
  assert (Hrep : report w' = report w).
  { pose proof (write_text_report p s w) as R. unfold exec in R. rewrite H in R. exact R. }
  split; [| exact Hrep].
  unfold IO.write_text in H.
  destruct (IO.stat w p) as [[c | es] |] eqn:Es; try discriminate;
    destruct (IO.locate w (Path.parent p)) as [abs |] eqn:El; try discriminate;
    destruct (Path.parts p) as [| x xs] eqn:Ep; try discriminate;
    destruct (FS.is_dir (FS.lookup (tree w) abs) && negb (String.eqb (Path.name p) ".."))
      eqn:Ed; try discriminate;
    apply andb_true_iff in Ed; destruct Ed as [Ed1 Ed2]; apply negb_true_iff in Ed2;
    assert (Hparts : Path.parts p = (removelast (Path.parts p) ++ [Path.name p])%list)
      by (unfold Path.name; apply app_removelast_last; rewrite Ep; discriminate);
    assert (Hloc : FS.walk (tree w) (IO.start w p) (removelast (Path.parts p)) = Some abs)
      by exact El;
    assert (Hst : IO.stat w p = FS.lookup (tree w) (abs ++ [Path.name p]))
      by (unfold IO.stat, IO.locate; rewrite Hparts at 1; rewrite walk_app, Hloc;
          cbn [FS.walk]; rewrite Ed1, Ed2; reflexivity).
  - destruct (write_text_ok w p s _ _ abs Hparts Ed2 Hloc Ed1) as (t' & Hw & Hnew & _).
    + rewrite <- Hst, Es. reflexivity.
    + unfold IO.write_text in Hw. rewrite Es, El, Ep, Ed1, Ed2 in Hw. cbn [andb negb] in Hw.
      rewrite Hw in H. injection H as <-. exact Hnew.
  - destruct (write_text_ok w p s _ _ abs Hparts Ed2 Hloc Ed1) as (t' & Hw & Hnew & _).
    + rewrite <- Hst, Es. reflexivity.
    + unfold IO.write_text in Hw. rewrite Es, El, Ep, Ed1, Ed2 in Hw. cbn [andb negb] in Hw.
      rewrite Hw in H. injection H as <-. exact Hnew.
Qed.

Section Report.

Context {lib : PyLib}.

Lemma generate_html_report_done (page : QAReport.t -> string) (w : World) (path : string) :
  run (generate_html_report page) w = Ok path ->
  path = "public/clawdbot/qa-report.html"
  /\ IO.stat (exec (generate_html_report page) w) REPORT_FILE
     = Some (FS.File (page (report w)))
  /\ report (exec (generate_html_report page) w) = report w.
Proof.
  unfold generate_html_report. intros H.
  rewrite run_bind, run_gets, exec_gets in H. rewrite exec_bind, run_gets, exec_gets.
  apply run_bind_ok in H. destruct H as ([] & Hmk & H & Hex). rewrite Hex. clear Hex.
  apply run_bind_ok in H. destruct H as ([] & Hwr & H & Hex). rewrite Hex. clear Hex.
  rewrite run_ret in H. injection H as <-. rewrite exec_ret.
  split; [reflexivity |].
  set (w1 := exec (IO.mkdir (Path.parent REPORT_FILE)) w) in *.
  assert (Hw : IO.write_text REPORT_FILE (page (report w)) w1
               = (Ok tt, exec (IO.write_text REPORT_FILE (page (report w))) w1)).
  { unfold run in Hwr. unfold exec.
    destruct (IO.write_text REPORT_FILE (page (report w)) w1) as [o w2].
    simpl in *. rewrite Hwr. reflexivity. }
  destruct (write_text_done _ _ _ _ Hw) as [S R].
  split; [exact S |]. rewrite R. apply mkdir_report.
Qed.

(** X22. The report file.  When [main] is run with the report option and
    returns, the report was finalized before the page was made, and the
    file [qa-report.html] holds the page of the final report, with
    every result of the run. *)
Theorem report_file_written (page : QAReport.t -> string) (args : Args.t) (w : World)
    (code : Z) :
  Args.report args = true ->
  run (main page args) w = Ok code ->
  let w' := exec (main page args) w in
  QAReport.finalized (report w') = true
  /\ IO.stat w' REPORT_FILE = Some (FS.File (page (report w'))).
Proof.
  intros Hrep H w'. subst w'. unfold main in *. rewrite Hrep in *.
  apply run_bind_ok in H. destruct H as (h1 & _ & H & ->).
  apply run_bind_ok in H. destruct H as (h2 & _ & H & ->).
  apply run_bind_ok in H. destruct H as (hs & _ & H & ->).
  set (w3 := exec (check_project_pages _ _) _) in *.
  apply run_bind_ok in H. destruct H as ([] & H4 & H & ->).
  rewrite exec_bind, run_gets, exec_gets, exec_ret. clear H.
  apply run_bind_ok in H4. destruct H4 as ([] & _ & H4 & ->).
  set (w4 := exec report_finalize w3) in *.
  apply run_bind_ok in H4. destruct H4 as (path & Hg & _ & ->). rewrite exec_ret.
  destruct (generate_html_report_done page w4 path Hg) as (_ & S & R).
  rewrite R. split; [reflexivity | exact S].
Qed.

End Report.

Section CreateManifest.

Context {lib : PyLib}.

Lemma sorted_natural_anywhere (names ordered : list string) (w w' : World) :
  run (sorted_natural names) w = Ok ordered ->
  sorted_natural names w' = (Ok ordered, w').
Proof.
  unfold sorted_natural, run. destruct (Natural.sequence _); [| discriminate].
  unfold ret. cbn. intros H. injection H as <-. reflexivity.
Qed.

(** Where the projects directory and the manifest are in the tree. *)
Lemma projects_dir_split (w : World) (es : list (string * FS.node)) :
  IO.stat w PROJECTS_DIR = Some (FS.Dir es) ->
  exists mid,
    FS.walk (tree w) (cwd w) ["public"; "clawdbot"; "projects"] = Some mid
    /\ FS.lookup (tree w) mid = Some (FS.Dir es)
    /\ IO.stat w INDEX_JSON = FS.lookup (tree w) (mid ++ ["index.json"]).
Proof.
  intros H. unfold IO.stat, IO.locate in H.
  change (FS.walk (tree w) (IO.start w PROJECTS_DIR) (Path.parts PROJECTS_DIR))
    with (FS.walk (tree w) (cwd w) ["public"; "clawdbot"; "projects"]) in H.
  destruct (FS.walk (tree w) (cwd w) ["public"; "clawdbot"; "projects"]) as [mid |] eqn:E;
    [| discriminate].
  exists mid. split; [reflexivity |]. split; [exact H |].
  unfold IO.stat, IO.locate.
  change (FS.walk (tree w) (IO.start w INDEX_JSON) (Path.parts INDEX_JSON))
    with (FS.walk (tree w) (cwd w) (["public"; "clawdbot"; "projects"] ++ ["index.json"])%list).
  rewrite walk_app, E. cbn [FS.walk]. rewrite H. reflexivity.
Qed.

(** X23. The fix for a missing or blank manifest.  With the fix option, on
    a site whose projects directory is there, the manifest check writes
    a manifest with one pending entry for each directory, in the natural
    order of the names, records FAIL and then FIXED, so that the status
    is FIXED, and counts one fix. *)
Theorem missing_manifest_is_created (verbose : bool) (w : World)
    (es : list (string * FS.node)) (ordered : list string) :
  manifest_absent w ->
  IO.stat w PROJECTS_DIR = Some (FS.Dir es) ->
  run (sorted_natural (map fst es)) w = Ok ordered ->
  let dirs := filter (fun d => FS.is_dir (IO.stat w (Path.child PROJECTS_DIR d))) ordered in
  let m := check_index_json verbose true in
  let h := List.length (QAReport.results (report w)) in
  run m w = Ok h
  /\ IO.stat (exec m w) INDEX_JSON
     = Some (FS.File (json_dumps (PList (map pending_entry dirs)) ++ newline))
  /\ result_at (exec m w) h
     = Some (CheckResult.fixed
               (CheckResult.fail (CheckResult.init "index.json validation" "data")
                  (manifest_absent_message w))
               ("Created index.json with " ++ Str.of_nat (List.length dirs) ++ " entries"))
  /\ QAReport.fixes_applied (report (exec m w)) = QAReport.fixes_applied (report w) + 1.
Proof.
  intros Habs Hdir Hsort dirs m h.
  destruct (projects_dir_split w es Hdir) as (mid & Hwalk & Hmid & Hindex).
  set (fresh := CheckResult.init "index.json validation" "data").
  set (w1 := exec (report_add fresh) w).
  set (w2 := exec (result_fail h (manifest_absent_message w)) w1).
  assert (S2 : forall p, IO.stat w2 p = IO.stat w p) by reflexivity.
  assert (H2 : result_at w2 h = Some (CheckResult.fail fresh (manifest_absent_message w))).
  { unfold w2, result_fail. rewrite result_at_on_result. unfold w1, h.
    rewrite result_at_report_add. reflexivity. }
  assert (Hm : m w = bind (_fix_create_index_json h) (fun _ => ret h) w2).
  { unfold m, check_index_json. rewrite (bind_run _ _ w h) by reflexivity. fold fresh w1.
    unfold w2, manifest_absent_message. destruct Habs as [E | (raw & E & B)].
    - rewrite (bind_run _ _ w1 false)
        by (rewrite run_exists; unfold w1; rewrite stat_report_add, E; reflexivity).
      rewrite exec_exists, E. cbn [negb]. cbv iota.
      rewrite (bind_run _ _ w1 tt) by reflexivity. reflexivity.
    - rewrite (bind_run _ _ w1 true)
        by (rewrite run_exists; unfold w1; rewrite stat_report_add, E; reflexivity).
      rewrite exec_exists, E. cbn [negb]. cbv iota.
      rewrite (bind_run _ _ w1 raw)
        by (rewrite run_read_text; unfold w1; rewrite stat_report_add, E; reflexivity).
      rewrite exec_read_text, B. cbv iota.
      rewrite (bind_run _ _ w1 tt) by reflexivity. reflexivity. }
  assert (Hfile : FS.is_dir (FS.lookup (tree w) (mid ++ ["index.json"])) = false).
  { rewrite <- Hindex. destruct Habs as [E | (raw & E & _)]; rewrite E; reflexivity. }
  assert (Hmk : IO.mkdir (Path.parent INDEX_JSON) w2 = (Ok tt, set_tree (tree w2) w2)).
  { apply mkdir_existing.
    change (IO.stat w2 (Path.parent INDEX_JSON)) with (IO.stat w PROJECTS_DIR).
    rewrite Hdir. reflexivity. }
  set (wa := set_tree (tree w2) w2) in *.
  set (text := json_dumps (PList (map pending_entry dirs)) ++ newline).
  destruct (write_text_ok wa INDEX_JSON text ["public"; "clawdbot"; "projects"] "index.json"
              mid eq_refl eq_refl Hwalk) as (t' & Hwrite & Hnew & _).
  { change (tree wa) with (tree w). rewrite Hmid. reflexivity. }
  { exact Hfile. }
  set (msg := "Created index.json with " ++ Str.of_nat (List.length dirs) ++ " entries").
  assert (Hfix : _fix_create_index_json h w2
                 = (Ok tt, exec count_fix (exec (result_fixed h msg) (set_tree t' wa)))).
  { unfold _fix_create_index_json.
    rewrite (bind_run _ _ w2 true) by (rewrite run_exists, S2, Hdir; reflexivity).
    rewrite exec_exists.
    assert (He : (names <- IO.iterdir PROJECTS_DIR ;;
                  ordered0 <- sorted_natural names ;;
                  dirs0 <- only_dirs PROJECTS_DIR ordered0 ;;
                  ret (map pending_entry dirs0)) w2
                 = (Ok (map pending_entry dirs), w2)).
    { rewrite (bind_run _ _ w2 (map fst es))
        by (unfold run, IO.iterdir, bind, gets; rewrite S2, Hdir; reflexivity).
      replace (exec (IO.iterdir PROJECTS_DIR) w2) with w2
        by (unfold exec, IO.iterdir, bind, gets; rewrite S2, Hdir; reflexivity).
      unfold bind at 1. rewrite (sorted_natural_anywhere _ _ w w2 Hsort).
      unfold bind at 1. rewrite only_dirs_ok. reflexivity. }
    unfold bind at 1. rewrite He.
    unfold bind at 1. rewrite Hmk. fold wa.
    unfold bind at 1. unfold write_index_json. fold text. rewrite Hwrite.
    rewrite length_map. fold msg. reflexivity. }
  assert (Hall : m w = (Ok h, exec count_fix (exec (result_fixed h msg) (set_tree t' wa)))).
  { rewrite Hm. unfold bind. rewrite Hfix. reflexivity. }
  destruct (run_exec_of _ _ _ _ Hall) as [-> ->].
  split; [reflexivity |]. split; [exact Hnew |]. split.
  - unfold result_fixed. rewrite result_at_count_fix, result_at_on_result.
    change (result_at (set_tree t' wa) h) with (result_at w2 h). rewrite H2. reflexivity.
  - reflexivity.
Qed.

End CreateManifest.

Section Orphans.

Context {lib : PyLib}.

Lemma unlisted_same_dirs (w w' : World) (indexed names : list string) :
  (forall x, FS.is_dir (FS.lookup (tree w') x) = FS.is_dir (FS.lookup (tree w) x)) ->
  cwd w' = cwd w ->
  unlisted w' indexed names = unlisted w indexed names.
Proof.
  intros Hd Hc. unfold unlisted. apply filter_ext. intros d.
  rewrite (is_dir_stat_same_dirs w w' _ Hd Hc). reflexivity.
Qed.

(** X24. Directories without an entry.  For each directory of the projects
    directory that no entry names, the manifest check records a WARN
    detail.  Without the fix option nothing else happens.  With it, each
    such directory gets a pending entry at the end of the manifest, which
    is written anew each time, a FIXED detail is recorded and a fix is
    counted: in the end the manifest holds the entries it had and then
    one for each such directory, in order. *)
Theorem unlisted_directories (fix_ : bool) (indexed names : list string) (w : World)
    (h : handle) (r : CheckResult.t) (data : list pyval) (old : string) :
  result_at w h = Some r ->
  IO.stat w INDEX_JSON = Some (FS.File old) ->
  let dirs := unlisted w indexed names in
  let m := check_orphans h fix_ indexed data names in
  run m w = Ok tt
  /\ result_at (exec m w) h = Some (apply_calls r (unlisted_calls fix_ dirs))
  /\ QAReport.fixes_applied (report (exec m w))
     = QAReport.fixes_applied (report w) + (if fix_ then List.length dirs else 0)
  /\ IO.stat (exec m w) INDEX_JSON
     = Some (FS.File
               (match dirs with
                | [] => old
                | _ => if fix_
                       then json_dumps (PList (data ++ map pending_entry dirs)) ++ newline
                       else old
                end))
  /\ (forall x, FS.is_dir (FS.lookup (tree (exec m w)) x) = FS.is_dir (FS.lookup (tree w) x))
  /\ cwd (exec m w) = cwd w.
Proof.
  revert w r data old. induction names as [| d rest IH]; intros w r data old Hr Hold dirs m.
  - subst dirs m. cbn. destruct fix_; rewrite Nat.add_0_r; repeat split; assumption.
  - subst dirs m. cbn [unlisted filter].
    fold (unlisted w indexed rest).
    set (isd := FS.is_dir (IO.stat w (Path.child PROJECTS_DIR d))).
    set (cond := isd && negb (existsb (String.eqb d) indexed)).
    assert (Hm0 : forall k : bool -> M unit,
               bind (IO.is_dir (Path.child PROJECTS_DIR d)) k w = k isd w)
      by reflexivity.
    destruct cond eqn:Ec.
    + (* an unlisted directory *)
      set (wmsg := "Directory '" ++ d ++ "' exists but has no index.json entry").
      set (w1 := exec (result_warn h wmsg) w).
      assert (H1 : result_at w1 h = Some (CheckResult.warn r wmsg))
        by (unfold w1, result_warn; rewrite result_at_on_result, Hr; reflexivity).
      destruct fix_.
      * set (data' := (data ++ [pending_entry d])%list).
        set (text := json_dumps (PList data') ++ newline).
        destruct (write_existing_file w1 INDEX_JSON text old
                    ["public"; "clawdbot"; "projects"] "index.json" eq_refl eq_refl Hold)
          as (t' & Hwrite & Hnew & Hdirs).
        set (fmsg := "Added '" ++ d ++ "' to index.json").
        set (w2 := exec count_fix (exec (result_fixed h fmsg) (set_tree t' w1))).
        assert (Hfix : _fix_add_index_entry h data d w1 = (Ok data', w2)).
        { unfold _fix_add_index_entry, write_index_json. fold data' text.
          unfold bind at 1. rewrite Hwrite. reflexivity. }
        assert (H2 : result_at w2 h = Some (CheckResult.fixed (CheckResult.warn r wmsg) fmsg)).
        { unfold w2, result_fixed. rewrite result_at_count_fix, result_at_on_result.
          change (result_at (set_tree t' w1) h) with (result_at w1 h). rewrite H1. reflexivity. }
        assert (S2 : IO.stat w2 INDEX_JSON = Some (FS.File text)) by exact Hnew.
        assert (D2 : forall x, FS.is_dir (FS.lookup (tree w2) x)
                               = FS.is_dir (FS.lookup (tree w) x)) by exact Hdirs.
        assert (C2 : cwd w2 = cwd w) by reflexivity.
        destruct (IH w2 _ data' text H2 S2) as (R & Hres & Hcount & Hstat & Hd & Hc).
        rewrite (unlisted_same_dirs w w2 indexed rest D2 C2) in Hres, Hcount, Hstat.
        assert (Hm : check_orphans h true indexed data (d :: rest) w
                     = check_orphans h true indexed data' rest w2).
        { cbn [check_orphans]. rewrite Hm0. fold cond. rewrite Ec.
          rewrite (bind_run _ _ w tt) by reflexivity. fold wmsg w1.
          unfold bind at 1. rewrite Hfix. reflexivity. }
        unfold run, exec. rewrite Hm.
        fold (run (check_orphans h true indexed data' rest) w2).
        fold (exec (check_orphans h true indexed data' rest) w2).
        split; [exact R |]. split; [exact Hres |]. split.
        { rewrite Hcount. unfold w2. cbn. lia. }
        split.
        { rewrite Hstat. f_equal. f_equal. cbn [map]. unfold data', text.
          destruct (unlisted w indexed rest); [reflexivity |].
          rewrite <- app_assoc. reflexivity. }
        split; [intros x; rewrite Hd; apply D2 | congruence].
      * destruct (IH w1 _ data old H1 Hold) as (R & Hres & Hcount & Hstat & Hd & Hc).
        assert (E1 : unlisted w1 indexed rest = unlisted w indexed rest) by reflexivity.
        rewrite E1 in *.
        assert (Hm : check_orphans h false indexed data (d :: rest) w
                     = check_orphans h false indexed data rest w1).
        { cbn [check_orphans]. rewrite Hm0. fold cond. rewrite Ec.
          rewrite (bind_run _ _ w tt) by reflexivity. reflexivity. }
        unfold run, exec. rewrite Hm.
        fold (run (check_orphans h false indexed data rest) w1).
        fold (exec (check_orphans h false indexed data rest) w1).
        split; [exact R |]. split; [exact Hres |]. split; [exact Hcount |].
        split; [| split; assumption].
        rewrite Hstat. destruct (unlisted w indexed rest); reflexivity.
    + destruct (IH w r data old Hr Hold) as (R & Hres & Hcount & Hstat & Hd & Hc).
      assert (Hm : check_orphans h fix_ indexed data (d :: rest) w
                   = check_orphans h fix_ indexed data rest w).
      { cbn [check_orphans]. rewrite Hm0. fold cond. rewrite Ec. reflexivity. }
      unfold run, exec. rewrite Hm.
      fold (run (check_orphans h fix_ indexed data rest) w).
      fold (exec (check_orphans h fix_ indexed data rest) w).
      repeat split; assumption.
Qed.

End Orphans.

(* ====================================================================== *)
(** ** The validator and the page check                                  *)
(* ====================================================================== *)

Section Validator.

Lemma grows_note_tag (v : HTMLStructureValidator.t) (tag : string) :
  let v' := HTMLStructureValidator.note_tag v tag in
  (HTMLStructureValidator.has_doctype v' = HTMLStructureValidator.has_doctype v)
  /\ (HTMLStructureValidator.has_html v = true -> HTMLStructureValidator.has_html v' = true)
  /\ (HTMLStructureValidator.has_head v = true -> HTMLStructureValidator.has_head v' = true)
  /\ (HTMLStructureValidator.has_body v = true -> HTMLStructureValidator.has_body v' = true)
  /\ HTMLStructureValidator.links v' = HTMLStructureValidator.links v
  /\ HTMLStructureValidator.asset_refs v' = HTMLStructureValidator.asset_refs v.
Proof.
  unfold HTMLStructureValidator.note_tag.
  repeat match goal with |- context [if ?b then _ else _] => destruct b end;
    cbn; auto 10.
Qed.

(** What one start tag does to the flags and the two lists. *)
Lemma grows_starttag (v : HTMLStructureValidator.t) (tag : string)
    (attrs : list (string * option string)) :
  let v' := fst (HTMLStructureValidator.handle_starttag v tag attrs) in
  (HTMLStructureValidator.has_doctype v' = HTMLStructureValidator.has_doctype v)
  /\ (HTMLStructureValidator.has_html v = true -> HTMLStructureValidator.has_html v' = true)
  /\ (HTMLStructureValidator.has_head v = true -> HTMLStructureValidator.has_head v' = true)
  /\ (HTMLStructureValidator.has_body v = true -> HTMLStructureValidator.has_body v' = true)
  /\ (exists l, HTMLStructureValidator.links v' = (HTMLStructureValidator.links v ++ l)%list)
  /\ (exists a, HTMLStructureValidator.asset_refs v'
                = (HTMLStructureValidator.asset_refs v ++ a)%list).
Proof.
  cbv zeta. unfold HTMLStructureValidator.handle_starttag.
  destruct (grows_note_tag v (Str.lower tag)) as (D & H1 & H2 & H3 & L & A).
  set (v1 := HTMLStructureValidator.note_tag v (Str.lower tag)) in *.
  assert (G : let v2 := HTMLStructureValidator.collect_link v1 (Str.lower tag) attrs in
              HTMLStructureValidator.has_doctype v2 = HTMLStructureValidator.has_doctype v1
              /\ HTMLStructureValidator.has_html v2 = HTMLStructureValidator.has_html v1
              /\ HTMLStructureValidator.has_head v2 = HTMLStructureValidator.has_head v1
              /\ HTMLStructureValidator.has_body v2 = HTMLStructureValidator.has_body v1
              /\ (exists l, HTMLStructureValidator.links v2
                            = (HTMLStructureValidator.links v1 ++ l)%list)
              /\ HTMLStructureValidator.asset_refs v2 = HTMLStructureValidator.asset_refs v1).
  { cbv zeta. unfold HTMLStructureValidator.collect_link.
    destruct (String.eqb (Str.lower tag) "a");
      [| repeat split; try reflexivity; exists []; rewrite app_nil_r; reflexivity].
    destruct (Py.dict_get "href" attrs) as [[href |] |];
      try (repeat split; try reflexivity; exists []; rewrite app_nil_r; reflexivity).
    destruct (negb (String.eqb href "") && _);
      [| repeat split; try reflexivity; exists []; rewrite app_nil_r; reflexivity].
    cbn. repeat split; try reflexivity. exists [href]. reflexivity. }
  cbv zeta in G. destruct G as (D2 & G1 & G2 & G3 & [l L2] & A2).
  set (v2 := HTMLStructureValidator.collect_link v1 (Str.lower tag) attrs) in *.
  assert (K : let v3 := fst (HTMLStructureValidator.collect_asset v2 (Str.lower tag) attrs) in
              HTMLStructureValidator.has_doctype v3 = HTMLStructureValidator.has_doctype v2
              /\ HTMLStructureValidator.has_html v3 = HTMLStructureValidator.has_html v2
              /\ HTMLStructureValidator.has_head v3 = HTMLStructureValidator.has_head v2
              /\ HTMLStructureValidator.has_body v3 = HTMLStructureValidator.has_body v2
              /\ HTMLStructureValidator.links v3 = HTMLStructureValidator.links v2
              /\ (exists a, HTMLStructureValidator.asset_refs v3
                            = (HTMLStructureValidator.asset_refs v2 ++ a)%list)).
  { cbv zeta. unfold HTMLStructureValidator.collect_asset.
    destruct (HTMLStructureValidator.is_stylesheet (Str.lower tag) attrs) as [[|] | e];
      [destruct (Py.dict_get "href" attrs) as [[href |] |];
         [destruct (String.eqb href "") | |]
      | destruct (String.eqb (Str.lower tag) "script"), (Py.dict_get "src" attrs) as [src |],
          (String.eqb (Str.lower tag) "img")
      | ];
      cbn; repeat split; try reflexivity;
      first [ exists []; rewrite app_nil_r; reflexivity | eexists; reflexivity ]. }
  cbv zeta in K. destruct K as (D3 & K1 & K2 & K3 & L3 & [a A3]).
  split; [congruence |].
  split; [intros H; rewrite K1, G1; auto |].
  split; [intros H; rewrite K2, G2; auto |].
  split; [intros H; rewrite K3, G3; auto |].
  split; [exists l; congruence |]. exists a. congruence.
Qed.

(** X25. What the validator records.  Over any sequence of parser events,
    and also when a handler raises, a flag that is set stays set, and
    the list of links and the list of assets are only added to at the
    end; and what the checks read from the validator, and whether a
    handler raises, depends on the start tags alone: end tags and text
    change neither. *)
Theorem validator_only_adds (events : list html_event) (v : HTMLStructureValidator.t) :
  let v' := fst (HTMLStructureValidator.dispatch v events) in
  HTMLStructureValidator.has_doctype v' = HTMLStructureValidator.has_doctype v
  /\ (HTMLStructureValidator.has_html v = true -> HTMLStructureValidator.has_html v' = true)
  /\ (HTMLStructureValidator.has_head v = true -> HTMLStructureValidator.has_head v' = true)
  /\ (HTMLStructureValidator.has_body v = true -> HTMLStructureValidator.has_body v' = true)
  /\ (exists l, HTMLStructureValidator.links v' = (HTMLStructureValidator.links v ++ l)%list)
  /\ (exists a, HTMLStructureValidator.asset_refs v'
                = (HTMLStructureValidator.asset_refs v ++ a)%list)
  /\ facts v'
     = facts (fst (HTMLStructureValidator.dispatch v
                     (map (fun ta => StartTag (fst ta) (snd ta)) (start_tags events))))
  /\ snd (HTMLStructureValidator.dispatch v events)
     = snd (HTMLStructureValidator.dispatch v
              (map (fun ta => StartTag (fst ta) (snd ta)) (start_tags events))).
Proof.
  cbv zeta.
  assert (G : HTMLStructureValidator.has_doctype (fst (HTMLStructureValidator.dispatch v events))
              = HTMLStructureValidator.has_doctype v
    /\ (HTMLStructureValidator.has_html v = true ->
        HTMLStructureValidator.has_html (fst (HTMLStructureValidator.dispatch v events)) = true)
    /\ (HTMLStructureValidator.has_head v = true ->
        HTMLStructureValidator.has_head (fst (HTMLStructureValidator.dispatch v events)) = true)
    /\ (HTMLStructureValidator.has_body v = true ->
        HTMLStructureValidator.has_body (fst (HTMLStructureValidator.dispatch v events)) = true)
    /\ (exists l, HTMLStructureValidator.links (fst (HTMLStructureValidator.dispatch v events))
                  = (HTMLStructureValidator.links v ++ l)%list)
    /\ (exists a, HTMLStructureValidator.asset_refs
                    (fst (HTMLStructureValidator.dispatch v events))
                  = (HTMLStructureValidator.asset_refs v ++ a)%list)).
  { revert v. induction events as [| ev events IH]; intros v.
    - cbn. repeat split; auto; exists []; rewrite app_nil_r; reflexivity.
    - destruct ev as [tag attrs | tag | data]; cbn [HTMLStructureValidator.dispatch].
      + pose proof (grows_starttag v tag attrs) as S. cbv zeta in S.
        destruct (HTMLStructureValidator.handle_starttag v tag attrs) as [v1 [e |]];
          cbn [fst] in S |- *; [exact S |].
        destruct S as (D & H1 & H2 & H3 & [l L] & [a A]).
        destruct (IH v1) as (D' & H1' & H2' & H3' & [l' L'] & [a' A']).
        split; [congruence |]. split; [auto |]. split; [auto |]. split; [auto |].
        split; [exists (l ++ l')%list; rewrite L', L, app_assoc; reflexivity |].
        exists (a ++ a')%list. rewrite A', A, app_assoc. reflexivity.
      + destruct (IH (HTMLStructureValidator.handle_endtag v tag)) as (D & H1 & H2 & H3 & L & A).
        unfold HTMLStructureValidator.handle_endtag in *.
        destruct (String.eqb (Str.lower tag) "title"); cbn in *; auto 10.
      + destruct (IH (HTMLStructureValidator.handle_data v data)) as (D & H1 & H2 & H3 & L & A).
        unfold HTMLStructureValidator.handle_data in *.
        destruct (HTMLStructureValidator.in_title v); cbn in *; auto 10. }
  destruct G as (D & H1 & H2 & H3 & L & A).
  destruct (dispatch_start_tags events v v eq_refl) as [F E].
  auto 10.
Qed.

End Validator.

Section MorePages.

Context {lib : PyLib}.

(** X26. A directory with a name of superscript digits.  [str.isdigit]
    holds of such a name and [int] rejects it: the sort of the
    directories raises [ValueError], and the page check ends before any
    page is checked; nothing is recorded. *)
Theorem superscript_directory_stops_page_check (verbose fix_ : bool) (w : World)
    (es : list (string * FS.node)) (d : string) :
  IO.stat w PROJECTS_DIR = Some (FS.Dir es) ->
  In d (map fst es) ->
  FS.is_dir (IO.stat w (Path.child PROJECTS_DIR d)) = true ->
  d <> "" ->
  Natural.all_chars is_superscript d = true ->
  (exists e, run (check_project_pages verbose fix_) w = Raised e
             /\ exn_class e = "ValueError")
  /\ exec (check_project_pages verbose fix_) w = w.
Proof.
  intros Hdir Hin Hd Hne Hsup.
  assert (K : Natural._natural_sort_key d = None)
    by (apply key_superscripts; assumption).
  unfold run, exec. rewrite (check_project_pages_listing verbose fix_ w es Hdir).
  set (dirs := filter _ (map fst es)).
  assert (Hind : In d dirs) by (apply filter_In; split; assumption).
  assert (S : sorted_natural dirs w
              = (Raised (Py.ValueError "invalid literal for int() with base 10"), w)).
  { unfold sorted_natural.
    rewrite (sequence_none (fun n => option_map (pair n) (Natural._natural_sort_key n))
               dirs d Hind) by (rewrite K; reflexivity).
    reflexivity. }
  unfold bind. rewrite S. cbn. split; [eexists; split; reflexivity | reflexivity].
Qed.

Lemma structure_requests (h : handle) (v : HTMLStructureValidator.t) (verbose : bool)
    (w : World) :
  run (_check_html_structure h v verbose) w = Ok tt
  /\ requests (exec (_check_html_structure h v verbose) w) = requests w.
Proof.
  unfold _check_html_structure.
  destruct (HTMLStructureValidator.has_doctype v), (HTMLStructureValidator.has_html v),
    (HTMLStructureValidator.has_head v), (HTMLStructureValidator.has_body v), verbose;
    split; reflexivity.
Qed.


End MorePages.

Section GoodEntries.

Context {lib : PyLib}.

Lemma quiet_calls_keep_status (cs : list call) (r : CheckResult.t) :
  forallb is_quiet_call cs = true ->
  CheckResult.status (apply_calls r cs) = CheckResult.status r.
Proof.
  revert r. induction cs as [| c cs IH]; intros r H; [reflexivity |].
  cbn [forallb] in H. apply andb_true_iff in H. destruct H as [Hc H].
  change (apply_calls r (c :: cs)) with (apply_calls (apply_call r c) cs).
  rewrite (IH _ H). destruct c; try discriminate; reflexivity.
Qed.

Lemma check_entry_in_order (w : World) (h : handle) (r : CheckResult.t) (verbose : bool)
    (i : nat) (entry : pyval) :
  result_at w h = Some r ->
  entry_in_order w entry = true ->
  check_entry h verbose i entry w
  = (Ok tt, if verbose then exec (on_result h (fun r0 => apply_call r0 (entry_ok_call entry))) w
            else w).
Proof.
  intros Hr H. destruct entry as [| | | | | | d]; try discriminate.
  cbn [entry_in_order] in H.
  apply andb_true_iff in H. destruct H as [H Hf].
  apply andb_true_iff in H. destruct H as [Hn Hk].
  destruct (Py.get d "file" (PStr "")) as [| | | | f | |] eqn:Eg; try discriminate.
  apply andb_true_iff in Hf. destruct Hf as [Hne Hs].
  destruct (IO.stat w (PROJECTS_DIR // f)) as [n |] eqn:Es; [| discriminate].
  cbn [check_entry]. rewrite Eg.
  assert (Hreq : check_required_fields h i d w = (Ok tt, w)).
  { unfold check_required_fields, required_fields. cbn [for_each]. rewrite Hn, Hk. reflexivity. }
  unfold bind at 1. rewrite Hreq. cbn [Py.truthy]. rewrite Hne.
  rewrite (bind_run _ _ w true) by (rewrite run_exists, Es; reflexivity).
  rewrite exec_exists. cbn [negb]. cbv iota.
  rewrite (bind_run _ _ w (FS.st_size n)) by (rewrite run_st_size, Es; reflexivity).
  rewrite exec_st_size. apply negb_true_iff in Hs. rewrite Hs.
  destruct verbose; [| reflexivity].
  cbn [when entry_ok_call]. rewrite Eg. reflexivity.
Qed.

(** X28. A manifest in order.  When every entry is an object with [name]
    and [file] whose file is there and not empty, the loop over the
    entries records no FAIL and no WARN: it leaves the result as it is,
    and in verbose mode adds one PASS detail for each entry; it sends
    no request and writes nothing. *)
Theorem entries_in_order_pass (w : World) (h : handle) (r : CheckResult.t)
    (verbose : bool) (data : list pyval) :
  result_at w h = Some r ->
  forallb (entry_in_order w) data = true ->
  let m := check_entries h verbose data in
  let r' := apply_calls r (if verbose then map entry_ok_call data else []) in
  run m w = Ok tt
  /\ tree (exec m w) = tree w /\ requests (exec m w) = requests w
  /\ result_at (exec m w) h = Some r'
  /\ CheckResult.status r' = CheckResult.status r
  /\ (verbose = false -> r' = r).
Proof.
  intros Hr Hall m r'.
  assert (G : forall k,
             run (for_each (combine (seq k (List.length data)) data)
                    (fun '(i, entry) => check_entry h verbose i entry)) w = Ok tt
             /\ tree (exec (for_each (combine (seq k (List.length data)) data)
                              (fun '(i, entry) => check_entry h verbose i entry)) w) = tree w
             /\ requests (exec (for_each (combine (seq k (List.length data)) data)
                                  (fun '(i, entry) => check_entry h verbose i entry)) w)
                = requests w
             /\ result_at (exec (for_each (combine (seq k (List.length data)) data)
                                   (fun '(i, entry) => check_entry h verbose i entry)) w) h
                = Some (apply_calls r (if verbose then map entry_ok_call data else []))).
  { clear m r'. revert w r Hr Hall. induction data as [| entry rest IH]; intros w r Hr Hall k.
    - cbn. destruct verbose; auto.
    - cbn [forallb] in Hall. apply andb_true_iff in Hall. destruct Hall as [He Hrest].
      cbn [List.length seq combine for_each].
      pose proof (check_entry_in_order w h r verbose k entry Hr He) as Hc.
      rewrite run_bind, exec_bind.
      destruct (run_exec_of _ _ _ _ Hc) as [-> ->].
      destruct verbose.
      + set (w1 := exec (on_result h (fun r0 => apply_call r0 (entry_ok_call entry))) w).
        assert (H1 : result_at w1 h = Some (apply_call r (entry_ok_call entry)))
          by (unfold w1; rewrite result_at_on_result, Hr; reflexivity).
        destruct (IH w1 _ H1 Hrest (S k)) as (R & T & Q & Hres).
        split; [exact R |]. split; [exact T |]. split; [exact Q |]. exact Hres.
      + apply (IH w r Hr Hrest (S k)). }
  destruct (G 0) as (R & T & Q & Hres).
  split; [exact R |]. split; [exact T |]. split; [exact Q |]. split; [exact Hres |].
  split.
  - apply quiet_calls_keep_status. destruct verbose; [| reflexivity].
    apply forallb_forall. intros c Hc. apply in_map_iff in Hc.
    destruct Hc as (e & <- & _). destruct e; reflexivity.
  - intros ->. reflexivity.
Qed.

End GoodEntries.

(* ====================================================================== *)
(** ** The further properties at sample sites                             *)
(* ====================================================================== *)

(** X5 at a sample: [test-10] and [test-2]. *)
Lemma natural_order_is_numeric_witness :
  let w := Sample.start (Sample.site None []) Sample.offline in
  Natural.all_chars (fun c => negb (Natural.isdigit_char c)) "test-" = true
  /\ run (sorted_natural ["test-10"; "test-2"]) w = Ok ["test-2"; "test-10"].
Proof.
  intros w.
  assert (H : Natural.all_chars (fun c => negb (Natural.isdigit_char c)) "test-" = true)
    by reflexivity.
  split; [exact H |].
  destruct (natural_order_is_numeric "test-" 10 2 w H) as [_ E]. exact E.
Defined.

(** X26 at a sample: a directory named by the superscript two. *)
Lemma superscript_directory_stops_page_check_witness :
  let d := String (ascii_of_nat 178) "" in
  let es := [(d, FS.Dir [])] in
  let w := Sample.start (Sample.site None es) Sample.offline in
  (IO.stat w PROJECTS_DIR = Some (FS.Dir es)
   /\ In d (map fst es)
   /\ FS.is_dir (IO.stat w (Path.child PROJECTS_DIR d)) = true
   /\ d <> ""
   /\ Natural.all_chars is_superscript d = true)
  /\ (exists e, run (check_project_pages false false) w = Raised e
                /\ exn_class e = "ValueError")
  /\ exec (check_project_pages false false) w = w.
Proof.
  intros d es w.
  assert (H1 : IO.stat w PROJECTS_DIR = Some (FS.Dir es)) by reflexivity.
  assert (H2 : In d (map fst es)) by (left; reflexivity).
  assert (H3 : FS.is_dir (IO.stat w (Path.child PROJECTS_DIR d)) = true) by reflexivity.
  assert (H4 : d <> "") by discriminate.
  assert (H5 : Natural.all_chars is_superscript d = true) by reflexivity.
  split; [auto |].
  exact (superscript_directory_stops_page_check false false w es d H1 H2 H3 H4 H5).
Defined.

(** X10 at a sample: two page directories. *)
Lemma pages_checked_in_natural_order_witness :
  let w := Sample.start (Sample.site None Sample.two_pages) Sample.offline in
  let m := check_project_pages false false in
  (IO.stat w PROJECTS_DIR = Some (FS.Dir Sample.two_pages) /\ run m w = Ok [0; 1])
  /\ exists names rs,
       run (sorted_natural ["test-1"; "test-2"]) w = Ok names
       /\ Permutation ["test-1"; "test-2"] names
       /\ QAReport.results (report (exec m w)) = rs
       /\ map CheckResult.name rs = map (append "Page: ") names
       /\ [0; 1] = seq 0 (List.length names).
Proof.
  intros w m.
  assert (H1 : IO.stat w PROJECTS_DIR = Some (FS.Dir Sample.two_pages)) by reflexivity.
  assert (H2 : run m w = Ok [0; 1]) by (vm_compute; reflexivity).
  split; [auto |].
  exact (pages_checked_in_natural_order false false w Sample.two_pages [0; 1] H1 H2).
Defined.

(** X11 at a sample: a working directory without the site. *)
Lemma missing_projects_directory_witness :
  let w := Sample.start (FS.Dir [("work", FS.Dir [])]) Sample.online in
  let m := check_project_pages false true in
  IO.stat w PROJECTS_DIR = None
  /\ run m w = Ok []
  /\ tree (exec m w) = tree w
  /\ QAReport.all_passed (report (exec m w)) = false.
Proof.
  intros w m.
  assert (H : IO.stat w PROJECTS_DIR = None) by reflexivity.
  split; [exact H |].
  destruct (missing_projects_directory false true w H) as (R & _ & T & _ & P).
  split; [exact R |]. split; [exact T | exact P].
Defined.

(** X12 at a sample: a run on a site with a manifest and two page
    directories. *)
Lemma results_in_execution_order_witness :
  let w := Sample.start (Sample.site (Some Sample.manifest) Sample.two_pages)
                        Sample.offline in
  let m := main Sample.no_report_page (Args.Make false false false false) in
  run m w = Ok 1%Z
  /\ exists r1 r2 rs,
       QAReport.results (report (exec m w)) = r1 :: r2 :: rs
       /\ CheckResult.name r1 = "Main index.html"
       /\ CheckResult.name r2 = "index.json validation"
       /\ (Forall (fun r => CheckResult.category r = "page") rs
           \/ exists r, rs = [r] /\ CheckResult.name r = "Projects directory").
Proof.
  intros w m.
  assert (H : run m w = Ok 1%Z) by (vm_compute; reflexivity).
  split; [exact H |].
  exact (results_in_execution_order Sample.no_report_page
           (Args.Make false false false false) w 1%Z H).
Defined.


(** X16 at a sample: a page without any of the four elements. *)
Lemma structure_defects_only_warn_witness :
  let w := Sample.checking_page (Sample.site None Sample.two_pages) Sample.offline in
  let r := CheckResult.init "Page: test-1" "page" in
  let m := _check_html_structure 0 HTMLStructureValidator.init false in
  result_at w 0 = Some r
  /\ run m w = Ok tt
  /\ status_at (exec m w) 0 = Some "WARN".
Proof.
  intros w r m.
  assert (H : result_at w 0 = Some r) by reflexivity.
  split; [exact H |].
  destruct (structure_defects_only_warn w 0 r HTMLStructureValidator.init false H)
    as (R & _ & _ & E & S & _).
  split; [exact R |].
  unfold status_at. fold m in E. rewrite E. exact (f_equal Some S).
Defined.

(** X19 at a sample: the state after the check of the main index while
    the server is down. *)
Lemma all_passed_iff_each_passed_witness :
  let w0 := Sample.start (Sample.site None Sample.two_pages) Sample.offline in
  let w := exec (check_main_index false) w0 in
  reachable w
  /\ (QAReport.all_passed (report w) = true
      <-> forallb CheckResult.passed (QAReport.results (report w)) = true).
Proof.
  intros w0 w.
  assert (H : reachable w) by (apply reach_main_index, reach_start).
  split; [exact H |].
  destruct (all_passed_iff_each_passed w H) as [E _]. exact E.
Defined.

(** X20 at a sample: the manifest is an object. *)
Lemma manifest_root_not_array_witness :
  let t := Sample.site (Some "{}") Sample.two_pages in
  let w := Sample.start t Sample.offline in
  let m := check_index_json false true in
  (IO.stat w INDEX_JSON = Some (FS.File "{}")
   /\ Nat.eqb (String.length (Str.strip "{}")) 0 = false
   /\ json_loads "{}" = inl (PDict []))
  /\ run m w = Ok 0
  /\ tree (exec m w) = t
  /\ status_at (exec m w) 0 = Some "FAIL".
Proof.
  intros t w m.
  assert (H1 : IO.stat w INDEX_JSON = Some (FS.File "{}")) by reflexivity.
  assert (H2 : Nat.eqb (String.length (Str.strip "{}")) 0 = false) by reflexivity.
  assert (H3 : json_loads "{}" = inl (PDict [])) by reflexivity.
  split; [auto |].
  destruct (manifest_root_not_array false true w "{}" (PDict []) H1 H2 H3 I)
    as (R & T & _ & E).
  split; [exact R |]. split; [exact T |].
  exact (f_equal (option_map CheckResult.status) E).
Defined.

(** X21 at a sample: the manifest is an array that holds a number. *)
Lemma entry_not_an_object_raises_witness :
  let w := Sample.checking_page (Sample.site (Some "[1]") Sample.two_pages)
             Sample.offline in
  let r := CheckResult.init "Page: test-1" "page" in
  (IO.stat w INDEX_JSON = Some (FS.File "[1]")
   /\ json_loads "[1]" = inl (PList [PInt 1])
   /\ result_at w 0 = Some r)
  /\ result_at (exec (check_entry 0 false 0 (PInt 1)) w) 0
     = Some (CheckResult.fail r "Entry 0 is not an object")
  /\ exists x, run (check_index_json false false) w = Raised x.
Proof.
  intros w r.
  assert (H1 : IO.stat w INDEX_JSON = Some (FS.File "[1]")) by reflexivity.
  assert (H2 : Nat.eqb (String.length (Str.strip "[1]")) 0 = false) by reflexivity.
  assert (H3 : json_loads "[1]" = inl (PList [PInt 1])) by reflexivity.
  assert (H4 : In (PInt 1) [PInt 1]) by (left; reflexivity).
  assert (H5 : result_at w 0 = Some r) by reflexivity.
  split; [auto |].
  destruct (entry_not_an_object_raises false false w "[1]" [PInt 1] (PInt 1) 0 0 r
              H1 H2 H3 H4 I H5) as [[_ E] X].
  split; [exact E | exact X].
Defined.

(** X22 at a sample: a run with the report option. *)
Lemma report_file_written_witness :
  let w := Sample.start (Sample.site (Some Sample.manifest) Sample.two_pages)
                        Sample.online in
  let args := Args.Make false false true false in
  let page := fun r : QAReport.t => Str.of_nat (QAReport.total r) in
  let w' := exec (main page args) w in
  run (main page args) w = Ok 1%Z
  /\ QAReport.finalized (report w') = true
  /\ IO.stat w' REPORT_FILE = Some (FS.File "4").
Proof.
  intros w args page w'.
  assert (H : run (main page args) w = Ok 1%Z) by (vm_compute; reflexivity).
  split; [exact H |].
  destruct (report_file_written page args w 1%Z eq_refl H) as [F S].
  split; [exact F |]. fold w' in S. rewrite S. vm_compute. reflexivity.
Defined.

(** X23 at a sample: two page directories and no manifest. *)
Lemma missing_manifest_is_created_witness :
  let w := Sample.start (Sample.site None Sample.two_pages) Sample.offline in
  let m := check_index_json false true in
  (manifest_absent w
   /\ IO.stat w PROJECTS_DIR = Some (FS.Dir Sample.two_pages)
   /\ run (sorted_natural ["test-1"; "test-2"]) w = Ok ["test-1"; "test-2"])
  /\ run m w = Ok 0
  /\ IO.stat (exec m w) INDEX_JSON
     = Some (FS.File (json_dumps (PList [pending_entry "test-1"; pending_entry "test-2"])
                      ++ newline))
  /\ status_at (exec m w) 0 = Some "FIXED"
  /\ QAReport.fixes_applied (report (exec m w)) = 1.
Proof.
  intros w m.
  assert (H1 : manifest_absent w) by (left; reflexivity).
  assert (H2 : IO.stat w PROJECTS_DIR = Some (FS.Dir Sample.two_pages)) by reflexivity.
  assert (H3 : run (sorted_natural (map fst Sample.two_pages)) w = Ok ["test-1"; "test-2"])
    by reflexivity.
  split; [auto |].
  destruct (missing_manifest_is_created false w Sample.two_pages ["test-1"; "test-2"]
              H1 H2 H3) as (R & S & E & F).
  split; [exact R |]. split; [exact S |]. split; [| exact F].
  exact (f_equal (option_map CheckResult.status) E).
Defined.

(** X24 at a sample: the manifest names [test-1], and [test-2] is there
    as well. *)
Lemma unlisted_directories_witness :
  let w := Sample.checking_page (Sample.site (Some Sample.manifest) Sample.two_pages)
             Sample.offline in
  let r := CheckResult.init "Page: test-1" "page" in
  let data := [PDict [("name", PStr "Test 1"); ("file", PStr "test-1/index.html")]] in
  let m := check_orphans 0 true ["test-1"] data ["index.json"; "test-1"; "test-2"] in
  (result_at w 0 = Some r /\ IO.stat w INDEX_JSON = Some (FS.File Sample.manifest))
  /\ run m w = Ok tt
  /\ QAReport.fixes_applied (report (exec m w)) = 1
  /\ IO.stat (exec m w) INDEX_JSON
     = Some (FS.File (json_dumps (PList (data ++ [pending_entry "test-2"])) ++ newline)).
Proof.
  intros w r data m.
  assert (H1 : result_at w 0 = Some r) by reflexivity.
  assert (H2 : IO.stat w INDEX_JSON = Some (FS.File Sample.manifest)) by reflexivity.
  split; [auto |].
  destruct (unlisted_directories true ["test-1"] ["index.json"; "test-1"; "test-2"] w 0 r
              data Sample.manifest H1 H2) as (R & _ & F & S & _).
  split; [exact R |]. split; [exact F | exact S].
Defined.


(** X28 at a sample: the manifest names the page of [test-1]. *)
Lemma entries_in_order_pass_witness :
  let w := Sample.checking_page (Sample.site (Some Sample.manifest) Sample.two_pages)
             Sample.offline in
  let r := CheckResult.init "Page: test-1" "page" in
  let data := [PDict [("name", PStr "Test 1"); ("file", PStr "test-1/index.html")]] in
  (result_at w 0 = Some r /\ forallb (entry_in_order w) data = true)
  /\ run (check_entries 0 false data) w = Ok tt
  /\ result_at (exec (check_entries 0 false data) w) 0 = Some r.
Proof.
  intros w r data.
  assert (H1 : result_at w 0 = Some r) by reflexivity.
  assert (H2 : forallb (entry_in_order w) data = true) by reflexivity.
  split; [auto |].
  destruct (entries_in_order_pass w 0 r false data H1 H2) as (R & _ & _ & E & _).
  split; [exact R | exact E].
Defined.
